(** * planetutils: a shallow embedding of [planetutils/planet.py]

    The module drives external OpenStreetMap tools (osmosis, osmconvert,
    osmium, curl, pyosmium-up-to-date), a sequence-lookup web service and an
    S3 bucket.  Everything outside the Python process is gathered in an
    environment record [Env]; the Python code itself is embedded as
    functions in a state-and-exception monad over the file system, the
    instance attributes and the trace of external interactions. *)

From Stdlib Require Import Ascii String.
From stdpp Require Import base option list sorting gmap strings pretty.

#[local] Set Warnings "-register-all".

Local Open Scope string_scope.
Local Open Scope list_scope.

(** ** Python string primitives

    Text is modelled as [string]; characters are code points below 256.
    [log.debug] and [log.info] have no observable effect and are left out
    throughout. *)

Module Py.

(** [s.startswith(p)] *)
Definition startswith (s p : string) : bool := String.prefix p s.

(** [needle in s] *)
Fixpoint contains (needle s : string) : bool :=
  String.prefix needle s ||
  match s with
  | "" => false
  | String _ s' => contains needle s'
  end.

(** [s.split(sep)] for a one-character separator: never the empty list. *)
Fixpoint split (sep : ascii) (s : string) : list string :=
  match s with
  | "" => [""]
  | String c s' =>
      if Ascii.eqb c sep then "" :: split sep s'
      else match split sep s' with
           | h :: t => String c h :: t
           | [] => [String c ""]
           end
  end.

(** [s.partition(sep)] for a one-character separator: the text before the
    first separator, the separator (or [""]), the text after it. *)
Fixpoint partition (sep : ascii) (s : string) : string * string * string :=
  match s with
  | "" => ("", "", "")
  | String c s' =>
      if Ascii.eqb c sep then ("", String sep "", s')
      else match partition sep s' with
           | (a, m, b) => (String c a, m, b)
           end
  end.

(** White space as [unicode.strip] sees it, below code point 256:
    tab, line feed, vertical tab, form feed, carriage return, the four
    separators 28-31, the blank, next line and the no-break space. *)
Definition is_space (c : ascii) : bool :=
  match c with
  | "009" | "010" | "011" | "012" | "013"
  | "028" | "029" | "030" | "031" | " " | "133" | "160" => true
  | _ => false
  end%char.

Fixpoint lstrip (s : string) : string :=
  match s with
  | "" => ""
  | String c s' => if is_space c then lstrip s' else s
  end.

Fixpoint rstrip (s : string) : string :=
  match s with
  | "" => ""
  | String c s' =>
      match rstrip s' with
      | "" => if is_space c then "" else String c ""
      | r => String c r
      end
  end.

(** [s.strip()] *)
Definition strip (s : string) : string := rstrip (lstrip s).

(** [s.endswith("/")] *)
Fixpoint ends_with_slash (s : string) : bool :=
  match s with
  | "" => false
  | String c "" => Ascii.eqb c "/"
  | String _ s' => ends_with_slash s'
  end.

(** [s.rstrip("/")] *)
Fixpoint rstrip_slash (s : string) : string :=
  match s with
  | "" => ""
  | String c s' =>
      match rstrip_slash s' with
      | "" => if Ascii.eqb c "/" then "" else String c ""
      | r => String c r
      end
  end.

(** [s == "/" * len(s)] *)
Fixpoint all_slashes (s : string) : bool :=
  match s with
  | "" => true
  | String c s' => Ascii.eqb c "/" && all_slashes s'
  end.

(** [(p[:i], p[i:])] with [i = p.rfind("/") + 1], when [p] has a slash. *)
Fixpoint rsplit_slash (p : string) : option (string * string) :=
  match p with
  | "" => None
  | String c p' =>
      match rsplit_slash p' with
      | Some (h, t) => Some (String c h, t)
      | None => if Ascii.eqb c "/" then Some ("/", p') else None
      end
  end.

(** [os.path.split] (posixpath) *)
Definition path_split (p : string) : string * string :=
  match rsplit_slash p with
  | None => ("", p)
  | Some (head, tail) =>
      if all_slashes head then (head, tail) else (rstrip_slash head, tail)
  end.

(** [os.path.join(a, b)] (posixpath) *)
Definition path_join (a b : string) : string :=
  if startswith b "/" then b
  else if String.eqb a "" || ends_with_slash a then a +:+ b
  else a +:+ "/" +:+ b.

End Py.

(** ** Exceptions, results and the state of the world *)

(** The exceptions the module can raise.  [Exception msg] is the generic
    [raise Exception(msg)]; the others are raised by the interpreter or by
    the libraries the module calls. *)
Inductive exn : Type :=
  | Exception (msg : string)
  | NotImplementedError
  | CalledProcessError (args : list string)
  | IndexError
  | TypeError
  | AttributeError
  | OSError_
  | URLError
  | ClientError.

Inductive res (A : Type) : Type :=
  | Ok (a : A)
  | Raise (e : exn).
Arguments Ok {A} a.
Arguments Raise {A} e.

(** What a call of [self.command] hands back: text, or Python's [None]. *)
Inductive pyval : Type :=
  | PNone
  | PStr (s : string).

(** A path of the file system holds a directory or a file with its text. *)
Inductive node : Type :=
  | Dir
  | File (body : string).

(** Interactions with the outside, in the order they are issued. *)
Inductive event : Type :=
  | Spawn (args : list string)
  | UrlOpen (url : string)
  | S3List (bucket prefix : string)
  | S3Download (bucket key dest : string).

(** The [command] attribute of an instance: the method of the class, which
    spawns a subprocess, or the closure installed by [extract_commands],
    which appends to the list object it captured. *)
Inductive command_attr : Type :=
  | Subprocess
  | Recorder (ref : nat).

(** The attributes of a [PlanetBase] instance. *)
Record Planet : Type := mkPlanet {
  osmpath : string;
  osmosis_workdir : string;
  changeset_url : option string;
  command_ : command_attr
}.

(** An object of the S3 listing ([ObjectSummary]). *)
Record S3Object : Type := mkS3Object {
  bucket_name : string;
  key : string
}.

(** The state threaded through the code: the instance, the file system,
    the trace of external interactions and the store of the Python list
    objects allocated by [extract_commands] (a reference is an index). *)
Record State : Type := mkState {
  self : Planet;
  fs : gmap string node;
  trace : list event;
  heap : list (list (list string))
}.

Definition M (A : Type) : Type := State → res A * State.

Definition ret {A} (a : A) : M A := λ s, (Ok a, s).
Definition raise {A} (e : exn) : M A := λ s, (Raise e, s).
Definition bind {A B} (m : M A) (k : A → M B) : M B :=
  λ s, match m s with
       | (Ok a, s') => k a s'
       | (Raise e, s') => (Raise e, s')
       end.

Notation "x <- m ;; k" := (bind m (λ x, k))
  (at level 100, m at next level, right associativity).
Notation "m ;;; k" := (bind m (λ _, k))
  (at level 100, right associativity).

Definition get : M State := λ s, (Ok s, s).
Definition modify (f : State → State) : M unit := λ s, (Ok tt, f s).

Definition set_fs (f : gmap string node) (s : State) : State :=
  mkState (self s) f (trace s) (heap s).
Definition emit (e : event) (s : State) : State :=
  mkState (self s) (fs s) (trace s ++ [e]) (heap s).
Definition set_heap (h : list (list (list string))) (s : State) : State :=
  mkState (self s) (fs s) (trace s) h.
Definition set_self (p : Planet) (s : State) : State :=
  mkState p (fs s) (trace s) (heap s).

Definition set_command (c : command_attr) (p : Planet) : Planet :=
  mkPlanet (osmpath p) (osmosis_workdir p) (changeset_url p) c.
Definition set_changeset_url (u : string) (p : Planet) : Planet :=
  mkPlanet (osmpath p) (osmosis_workdir p) (Some u) (command_ p).

(** [for x in xs: body(x)] *)
Fixpoint for_each {A} (xs : list A) (body : A → M unit) : M unit :=
  match xs with
  | [] => ret tt
  | x :: xs' => body x ;;; for_each xs' body
  end.

(** The spawned argument vectors of a trace, in order. *)
Definition spawned (t : list event) : list (list string) :=
  omap (λ e, match e with Spawn a => Some a | _ => None end) t.

(** ** Regions and JSON values *)

(** A rectangle [(left, bottom, right, top)] over the coordinate type. *)
Record BBox (coord : Type) : Type := mkBBox {
  left : coord;
  bottom : coord;
  right : coord;
  top : coord
}.
Arguments mkBBox {coord} _ _ _ _.
Arguments left {coord} _.
Arguments bottom {coord} _.
Arguments right {coord} _.
Arguments top {coord} _.

(** The values [json.dump] serialises; an object keeps its insertion order. *)
Inductive json (coord : Type) : Type :=
  | JNull
  | JNum (x : coord)
  | JStr (s : string)
  | JArr (items : list (json coord))
  | JObj (fields : list (string * json coord)).
Arguments JNull {coord}.
Arguments JNum {coord} x.
Arguments JStr {coord} s.
Arguments JArr {coord} items.
Arguments JObj {coord} fields.

(** A GeoJSON feature as the osmium extractor uses it: the [geometry]
    dict and the result of the [bbox()] method. *)
Record Feature (coord : Type) : Type := mkFeature {
  geometry : list (string * json coord);
  feature_bbox : BBox coord
}.
Arguments mkFeature {coord} _ _.
Arguments geometry {coord} _.
Arguments feature_bbox {coord} _.

(** [d.get(k)] on a dict given by its items. *)
Fixpoint dict_get {V} (d : list (string * V)) (k : string) : option V :=
  match d with
  | [] => None
  | (k', v) :: d' => if String.eqb k' k then Some v else dict_get d' k
  end.

(** ** Regular expressions of [re.match]

    The constructs the object-store filter needs.  [RAny] is the dot (any
    character but a line feed), [REnd] is the dollar (the end of the text,
    or just before a line feed that ends it). *)
Inductive regex : Type :=
  | RChr (c : ascii)
  | RAny
  | RSet (chars : list ascii) (ranges : list (ascii * ascii))
  | RSeq (r1 r2 : regex)
  | RAlt (r1 r2 : regex)
  | RStar (r : regex)
  | REnd.

Definition in_range (c : ascii) (r : ascii * ascii) : bool :=
  (N.leb (N_of_ascii (fst r)) (N_of_ascii c)
   && N.leb (N_of_ascii c) (N_of_ascii (snd r)))%N.

Definition in_set (chars : list ascii) (ranges : list (ascii * ascii))
    (c : ascii) : bool :=
  existsb (Ascii.eqb c) chars || existsb (in_range c) ranges.

(** [accepts r s k]: some prefix of [s] matches [r] and the rest satisfies
    the continuation [k].  A star only repeats when the iteration consumed
    something. *)
Fixpoint accepts (r : regex) (s : string) (k : string → bool) : bool :=
  match r with
  | RChr c =>
      match s with String c' s' => Ascii.eqb c c' && k s' | "" => false end
  | RAny =>
      match s with
      | String c' s' => negb (Ascii.eqb c' "010") && k s'
      | "" => false
      end
  | RSet cs rs =>
      match s with String c' s' => in_set cs rs c' && k s' | "" => false end
  | RSeq r1 r2 => accepts r1 s (λ s', accepts r2 s' k)
  | RAlt r1 r2 => accepts r1 s k || accepts r2 s k
  | RStar r1 =>
      (fix loop (n : nat) (s : string) {struct n} : bool :=
         k s ||
         match n with
         | O => false
         | S n' =>
             accepts r1 s
               (λ s', (String.length s' <? String.length s)%nat && loop n' s')
         end) (String.length s) s
  | REnd =>
      match s with
      | "" => k s
      | String c "" => Ascii.eqb c "010" && k s
      | _ => false
      end
  end.

(** [re.compile(r).match(s)] as a truth value: anchored at the start only. *)
Definition re_match (r : regex) (s : string) : bool := accepts r s (λ _, true).

Fixpoint RLit (s : string) : regex → regex :=
  match s with
  | "" => λ r, r
  | String c s' => λ r, RSeq (RChr c) (RLit s' r)
  end.

(** The default filter, the pattern [.*(planet[-_:T0-9]+.osm.pbf)$]. *)
Definition default_match : regex :=
  let cls := RSet ["-"; "_"; ":"; "T"]%char [("0", "9")]%char in
  RSeq (RStar RAny)
    (RLit "planet"
       (RSeq cls (RSeq (RStar cls)
          (RSeq RAny (RLit "osm" (RSeq RAny (RLit "pbf" REnd))))))).

(** ** Sorting as [sorted(xs, key=...)]: stable, ascending *)

Section Sorted.
Context {A : Type} (keyf : A → string).

Fixpoint insert_sorted (x : A) (l : list A) : list A :=
  match l with
  | [] => [x]
  | y :: l' =>
      if String.leb (keyf x) (keyf y) then x :: l
      else y :: insert_sorted x l'
  end.

(** Insertion from the right keeps equal keys in their input order. *)
Definition sorted_by (l : list A) : list A := foldr insert_sorted [] l.

(** The order of the keys, as text. *)
Definition key_le (a b : A) : Prop := String.le (keyf a) (keyf b).
End Sorted.

(** ** The environment

    What lies outside the Python process.  [tool] is
    [subprocess.check_output] on an argument vector: it may change the file
    system and yields the captured output, or [None] for a non-zero exit.
    [bbox.validate_bbox] and the float formats are not part of this module
    and are taken as they come. *)
Record Env (coord : Type) : Type := mkEnv {
  tool : list string → gmap string node → option string * gmap string node;
  http_get : string → option string;
  boto3 : bool;
  s3_list : string → string → option (list S3Object);
  s3_get : string → string → option string;
  validate_bbox : BBox coord → option exn;
  fmt_05f : coord → string;
  fmt_s : coord → string;
  json_dumps : json coord → string;
  tmpname : gmap string node → string
}.
Arguments tool {coord} _ _ _.
Arguments http_get {coord} _ _.
Arguments boto3 {coord} _.
Arguments s3_list {coord} _ _ _.
Arguments s3_get {coord} _ _ _.
Arguments validate_bbox {coord} _ _.
Arguments fmt_05f {coord} _ _.
Arguments fmt_s {coord} _ _.
Arguments json_dumps {coord} _ _.
Arguments tmpname {coord} _ _.

(** [x or default] on an optional text: [None] and [""] are falsy. *)
Definition py_or (x : option string) (default : string) : string :=
  match x with
  | Some (String _ _ as v) => v
  | _ => default
  end.

(** How [os.mkdir] and [os.makedirs] end: done, [FileExistsError], or
    another [OSError]. *)
Inductive mkres : Type :=
  | MkDone
  | MkExists
  | MkError.

(** ** The operating system

    Paths are the keys of a finite map and are compared as text: they are
    taken as normalised (no doubled or trailing slash, no dot components, no
    links).  The current directory and the root are directories that the
    map need not list. *)
Module OS.
Section OS.
Context {coord : Type} (E : Env coord).

(** [os.path.exists] *)
Definition path_exists (p : string) : M bool :=
  s <- get ;; ret (match fs s !! p with Some _ => true | None => false end).

(** [os.path.isdir] *)
Definition path_isdir (p : string) : M bool :=
  s <- get ;; ret (match fs s !! p with Some Dir => true | _ => false end).

(** The directory part of a path: the head of [os.path.split]. *)
Definition dirname (p : string) : string := (Py.path_split p).1.

(** The path names a directory: the current directory (the empty path),
    the root, or a directory of the map. *)
Definition is_directory (f : gmap string node) (d : string) : bool :=
  Py.all_slashes d || match f !! d with Some Dir => true | _ => false end.

(** [os.mkdir]: the path must be free and its parent a directory. *)
Definition mkdir (name : string) (f : gmap string node)
    : mkres * gmap string node :=
  if String.eqb name "" then (MkError, f)
  else if Py.all_slashes name then (MkExists, f)
  else match f !! name with
       | Some _ => (MkExists, f)
       | None =>
           if is_directory f (dirname name) then (MkDone, <[name := Dir]> f)
           else (MkError, f)
       end.

(** [os.makedirs(name)], with the recursion of the library on the head of
    the path; [n] bounds the depth. *)
Fixpoint makedirs_upto (n : nat) (name : string) (f : gmap string node)
    : mkres * gmap string node :=
  let '(head, tail) := Py.path_split name in
  let '(head, tail) :=
    if String.eqb tail "" then Py.path_split head else (head, tail) in
  if negb (String.eqb head "") && negb (String.eqb tail "")
     && match f !! head with Some _ => false | None => true end
  then
    match n with
    | O => (MkError, f)
    | S n' =>
        match makedirs_upto n' head f with
        | (MkError, f') => (MkError, f')
        | (_, f') =>
            if String.eqb tail "." then (MkDone, f') else mkdir name f'
        end
    end
  else mkdir name f.

(** A path has fewer components than characters. *)
Definition makedirs (name : string) (f : gmap string node)
    : mkres * gmap string node :=
  makedirs_upto (String.length name) name f.

(** [try: os.makedirs(p) except OSError: pass] *)
Definition makedirs_quiet (p : string) : M unit :=
  modify (λ s, set_fs (makedirs p (fs s)).2 s).

(** What [open(p, "w")] makes of the file system, or [None] when it
    raises: the path must not be a directory and its parent must be one. *)
Definition opened (f : gmap string node) (p : string)
    : option (gmap string node) :=
  if Py.all_slashes p then None
  else match f !! p with
       | Some Dir => None
       | _ =>
           if is_directory f (dirname p) then Some (<[p := File ""]> f)
           else None
       end.

(** [open(p, "w")]: creates or truncates the file. *)
Definition open_w (p : string) : M unit :=
  s <- get ;;
  match opened (fs s) p with
  | Some f' => modify (set_fs f')
  | None => raise OSError_
  end.

(** [f.write(body)] and the close of the [with] block, on a file just
    opened for writing. *)
Definition write_close (p body : string) : M unit :=
  modify (λ s, set_fs (<[p := File body]> (fs s)) s).

(** [f.write(data)] for [data] of type [bytes], on a file opened in text
    mode: Python 3 raises [TypeError], and the [with] block closes the
    file as [open] left it. *)
Definition write_bytes_close (p data : string) : M unit :=
  raise TypeError.

(** [os.unlink] *)
Definition unlink (p : string) : M unit :=
  s <- get ;;
  match fs s !! p with
  | Some (File _) => modify (set_fs (delete p (fs s)))
  | _ => raise OSError_
  end.

(** [subprocess.check_output(args)] *)
Definition check_output (args : list string) : M string :=
  s <- get ;;
  let '(out, fs') := tool E args (fs s) in
  modify (λ s, emit (Spawn args) (set_fs fs' s)) ;;;
  match out with
  | Some o => ret o
  | None => raise (CalledProcessError args)
  end.

(** [urlopen(url).read()]: the body of the answer, as [bytes]. *)
Definition urlopen_read (url : string) : M string :=
  modify (emit (UrlOpen url)) ;;;
  match http_get E url with
  | Some body => ret body
  | None => raise URLError
  end.

(** [tempfile.NamedTemporaryFile(mode="w", delete=False)]: a new empty
    file under a name of the environment's choice. *)
Definition named_temporary_file : M string :=
  s <- get ;;
  let path := tmpname E (fs s) in
  modify (set_fs (<[path := File ""]> (fs s))) ;;;
  ret path.
End OS.
End OS.

(** [validate_bbox(bbox)] as a statement: raises or passes. *)
Definition validate {coord} (E : Env coord) (bbox : BBox coord) : M unit :=
  match validate_bbox E bbox with
  | Some e => raise e
  | None => ret tt
  end.

(** ** class PlanetBase *)
Module PlanetBase.
Section PlanetBase.
Context {coord : Type} (E : Env coord).

(** [__init__]; the [grain] and [changeset_url] arguments are not stored. *)
Definition init (osmpath : string) (osmosis_workdir : option string)
    : Planet :=
  let '(d, p) := Py.path_split osmpath in
  mkPlanet osmpath
    (py_or osmosis_workdir (Py.path_join d (p +:+ ".workdir")))
    None Subprocess.

(** [self.command(args)]: the method of the class, or the recording
    closure [lambda x: args.append(x)], which returns [None]. *)
Definition command (args : list string) : M pyval :=
  s <- get ;;
  match command_ (self s) with
  | Subprocess => out <- OS.check_output E args ;; ret (PStr out)
  | Recorder r =>
      modify (set_heap (alter (λ l, l ++ [args]) r (heap s))) ;;;
      ret PNone
  end.

Definition osmosis (args : list string) : M pyval :=
  command ("osmosis" :: args).

Definition osmconvert (args : list string) : M pyval :=
  command ("osmconvert" :: args).

(** The list comprehension of [get_timestamp]. *)
Definition timestamp_max_values (statistics : string) : list string :=
  map (λ i, Py.strip (Py.partition ":" i).2)
      (filter (λ i, Py.startswith i "timestamp max" = true)
              (Py.split "010" statistics)).

Definition get_timestamp : M string :=
  s <- get ;;
  timestamp <- osmconvert [osmpath (self s); "--out-timestamp"] ;;
  match timestamp with
  | PNone => raise TypeError
  | PStr timestamp =>
      if Py.contains "invalid" timestamp then
        statistics <- osmconvert [osmpath (self s); "--out-statistics"] ;;
        match statistics with
        | PNone => raise AttributeError
        | PStr statistics =>
            match timestamp_max_values statistics with
            | [] => raise IndexError
            | timestamp :: _ => ret (Py.strip timestamp)
            end
        end
      else ret (Py.strip timestamp)
  end.
End PlanetBase.
End PlanetBase.

(** [for x in xs: acc = body(acc, x)] *)
Fixpoint fold_m {A B} (body : B → A → M B) (acc : B) (xs : list A) : M B :=
  match xs with
  | [] => ret acc
  | x :: xs' => acc' <- body acc x ;; fold_m body acc' xs'
  end.

(** ** class PlanetExtractor *)
Module PlanetExtractor.
Section PlanetExtractor.
Context {coord : Type} (E : Env coord) {R : Type}.

(** A variant's [extract_bboxes]: regions in iteration order, the worker
    count and the output directory. *)
Definition extract_bboxes_t : Type :=
  list (string * R) → Z → string → M unit.

Definition extract_bboxes : extract_bboxes_t :=
  λ _ _ _, raise NotImplementedError.

(** [extract_bbox] of the base class, over the variant's
    [self.extract_bboxes]. *)
Definition extract_bbox (self_extract_bboxes : extract_bboxes_t)
    (name : string) (bbox : R) (workers : Z) (outpath : string) : M unit :=
  self_extract_bboxes [(name, bbox)] workers outpath.

(** [extract_commands]: a new list object, the closure over it stored in
    the instance's [command] attribute, the variant's [extract_bboxes],
    and the list object as the result. *)
Definition extract_commands (self_extract_bboxes : extract_bboxes_t)
    (bboxes : list (string * R)) (workers : Z) (outpath : string)
    : M nat :=
  s <- get ;;
  let args := length (heap s) in
  modify (set_heap (heap s ++ [[]])) ;;;
  modify (λ s, set_self (set_command (Recorder args) (self s)) s) ;;;
  self_extract_bboxes bboxes workers outpath ;;;
  ret args.
End PlanetExtractor.
End PlanetExtractor.

(** ** class PlanetExtractorOsmosis *)
Module PlanetExtractorOsmosis.
Section PlanetExtractorOsmosis.
Context {coord : Type} (E : Env coord).

(** The arguments one region adds. *)
Definition region_args (outpath name : string) (bbox : BBox coord)
    : list string :=
  [ "--bounding-box";
    "left=" +:+ fmt_05f E (left bbox);
    "bottom=" +:+ fmt_05f E (bottom bbox);
    "right=" +:+ fmt_05f E (right bbox);
    "top=" +:+ fmt_05f E (top bbox);
    "--write-pbf";
    Py.path_join outpath (name +:+ ".osm.pbf") ].

Definition extract_bboxes (bboxes : list (string * BBox coord))
    (workers : Z) (outpath : string) : M unit :=
  s <- get ;;
  let args := [] in
  let args := args ++ ["--read-pbf-fast"; osmpath (self s);
                       "workers=" +:+ pretty workers] in
  let args := args ++ ["--tee"; pretty (length bboxes)] in
  args <- fold_m (λ args nb,
                    validate E nb.2 ;;;
                    ret (args ++ region_args outpath nb.1 nb.2))
                 args bboxes ;;
  PlanetBase.osmosis E args ;;;
  ret tt.
End PlanetExtractorOsmosis.
End PlanetExtractorOsmosis.

(** ** class PlanetExtractorOsmconvert *)
Module PlanetExtractorOsmconvert.
Section PlanetExtractorOsmconvert.
Context {coord : Type} (E : Env coord).

(** The argument vector of one region, after [osmconvert]. *)
Definition region_args (osmpath outpath name : string) (bbox : BBox coord)
    : list string :=
  [ osmpath;
    "-b=" +:+ fmt_s E (left bbox) +:+ "," +:+ fmt_s E (bottom bbox)
          +:+ "," +:+ fmt_s E (right bbox) +:+ "," +:+ fmt_s E (top bbox);
    "-o=" +:+ Py.path_join outpath (name +:+ ".osm.pbf") ].

Definition extract_bbox (name : string) (bbox : BBox coord)
    (outpath : string) : M unit :=
  validate E bbox ;;;
  s <- get ;;
  let args := region_args (osmpath (self s)) outpath name bbox in
  PlanetBase.osmconvert E args ;;;
  ret tt.

Definition extract_bboxes (bboxes : list (string * BBox coord))
    (workers : Z) (outpath : string) : M unit :=
  for_each bboxes (λ nb, extract_bbox nb.1 nb.2 outpath).
End PlanetExtractorOsmconvert.
End PlanetExtractorOsmconvert.

(** ** class PlanetExtractorOsmium *)
Module PlanetExtractorOsmium.
Section PlanetExtractorOsmium.
Context {coord : Type} (E : Env coord).

(** [gt == name] for [gt = bbox.geometry.get("type")]. *)
Definition type_is (gt : option (json coord)) (name : string) : bool :=
  match gt with
  | Some (JStr s) => String.eqb s name
  | _ => false
  end.

(** [bbox.geometry.get("coordinates", [])] *)
Definition coordinates (bbox : Feature coord) : json coord :=
  default (JArr []) (dict_get (geometry bbox) "coordinates").

(** One pass of the loop body: the entry of the manifest for a region. *)
Definition extract_entry (name : string) (bbox : Feature coord)
    : M (list (string * json coord)) :=
  let ext := [("output", JStr (name +:+ ".osm.pbf"));
              ("output_format", JStr "pbf")] in
  let gt := dict_get (geometry bbox) "type" in
  if type_is gt "LineString" then
    let b := feature_bbox bbox in
    ret (ext ++ [("bbox", JObj [("left", JNum (left b));
                                ("right", JNum (right b));
                                ("top", JNum (top b));
                                ("bottom", JNum (bottom b))])])
  else if type_is gt "Polygon" then
    ret (ext ++ [("polygon", coordinates bbox)])
  else if type_is gt "MultiPolygon" then
    ret (ext ++ [("multipolygon", coordinates bbox)])
  else raise (Exception "unknown geometry type for extract").

Definition extract_bboxes_with (strategy : string)
    (bboxes : list (string * Feature coord)) (workers : Z)
    (outpath : string) : M unit :=
  extracts <- fold_m (λ extracts nb,
                        ext <- extract_entry nb.1 nb.2 ;;
                        ret (extracts ++ [JObj ext]))
                     [] bboxes ;;
  let config := JObj [("directory", JStr outpath);
                      ("extracts", JArr extracts)] in
  path <- OS.named_temporary_file E ;;
  OS.write_close path (json_dumps E config) ;;;
  s <- get ;;
  PlanetBase.command E
    ["osmium"; "extract"; "-s"; strategy; "-c"; path; osmpath (self s)] ;;;
  OS.unlink path.

(** The default [strategy="complete_ways"]. *)
Definition extract_bboxes : list (string * Feature coord) → Z → string → M unit :=
  extract_bboxes_with "complete_ways".
End PlanetExtractorOsmium.
End PlanetExtractorOsmium.

(** ** class PlanetDownloader *)
Module PlanetDownloader.
Definition download_planet : M unit := raise NotImplementedError.
End PlanetDownloader.

(** ** class PlanetDownloaderHttp *)
Module PlanetDownloaderHttp.
Section PlanetDownloaderHttp.
Context {coord : Type} (E : Env coord).

Definition _download (url outpath : string) : M unit :=
  OS.check_output E ["curl"; "-L"; "-o"; outpath; url] ;;;
  ret tt.

Definition download_planet (url : option string) : M unit :=
  s <- get ;;
  present <- OS.path_exists (osmpath (self s)) ;;
  if present then
    raise (Exception ("planet file exists: " +:+ osmpath (self s)))
  else
    let url :=
      py_or url "https://planet.openstreetmap.org/pbf/planet-latest.osm.pbf" in
    _download url (osmpath (self s)).
End PlanetDownloaderHttp.
End PlanetDownloaderHttp.

(** ** class PlanetDownloaderS3 *)
Module PlanetDownloaderS3.
Section PlanetDownloaderS3.
Context {coord : Type} (E : Env coord).

Definition _download (bucket_name key : string) : M unit :=
  if negb (boto3 E) then raise (Exception "please install boto3")
  else
    s <- get ;;
    modify (emit (S3Download bucket_name key (osmpath (self s)))) ;;;
    match s3_get E bucket_name key with
    | Some body => OS.write_close (osmpath (self s)) body
    | None => raise ClientError
    end.

Definition _get_planets (bucket : string) (prefix : option string)
    (match_ : regex) : M (list S3Object) :=
  if negb (boto3 E) then raise (Exception "please install boto3")
  else
    let r := match_ in
    modify (emit (S3List bucket (py_or prefix ""))) ;;;
    match s3_list E bucket (py_or prefix "") with
    | None => raise ClientError
    | Some listing =>
        ret (filter (λ obj, re_match r (key obj) = true) listing)
    end.

Definition download_planet_latest (bucket prefix : option string)
    (match_ : option regex) : M unit :=
  s <- get ;;
  present <- OS.path_exists (osmpath (self s)) ;;
  if present then
    raise (Exception ("planet file exists: " +:+ osmpath (self s)))
  else
    let match_ := default default_match match_ in
    let bucket := py_or bucket "osm-pds" in
    objs <- _get_planets bucket prefix match_ ;;
    let objs := sorted_by key objs in
    match last objs with
    | None => raise IndexError
    | Some planet => _download (bucket_name planet) (key planet)
    end.

Definition download_planet : M unit :=
  download_planet_latest None None None.
End PlanetDownloaderS3.
End PlanetDownloaderS3.

(** ** class PlanetUpdater *)
Module PlanetUpdater.
Definition update_planet : M unit := raise NotImplementedError.
End PlanetUpdater.

(** ** class PlanetUpdaterOsmium *)
Module PlanetUpdaterOsmium.
Section PlanetUpdaterOsmium.
Context {coord : Type} (E : Env coord).

Definition update_planet (outpath size : string) : M unit :=
  s <- get ;;
  present <- OS.path_exists (osmpath (self s)) ;;
  if negb present then
    raise (Exception ("planet file does not exist: " +:+ osmpath (self s)))
  else
    PlanetBase.command E
      ["pyosmium-up-to-date"; "-s"; size; "-v"; osmpath (self s);
       "-o"; outpath] ;;;
    ret tt.
End PlanetUpdaterOsmium.
End PlanetUpdaterOsmium.

(** ** class PlanetUpdaterOsmosis *)
Module PlanetUpdaterOsmosis.
Section PlanetUpdaterOsmosis.
Context {coord : Type} (E : Env coord).

Definition newline : string := String "010" "".

(** The text written to [configuration.txt]: the triple-quoted literal with
    its line breaks and indentation, [%s] replaced by the URL. *)
Definition configuration_body (url : string) : string :=
  newline +:+ "                baseUrl=" +:+ url +:+
  newline +:+ "                maxInterval=0" +:+
  newline +:+ "            ".

Definition init_args (workdir : string) : list string :=
  ["osmosis"; "--read-replication-interval-init";
   "workingDirectory=" +:+ workdir].

Definition _initialize : M unit :=
  s <- get ;;
  let configpath :=
    Py.path_join (osmosis_workdir (self s)) "configuration.txt" in
  present <- OS.path_exists configpath ;;
  if present then ret tt
  else
    wd_exists <- OS.path_exists (osmosis_workdir (self s)) ;;
    wd_isdir <- OS.path_isdir (osmosis_workdir (self s)) ;;
    if wd_exists && negb wd_isdir then
      raise (Exception ("workdir exists and is not a directory: "
                        +:+ osmosis_workdir (self s)))
    else
      OS.makedirs_quiet (osmosis_workdir (self s)) ;;;
      PlanetBase.osmosis E
        ["--read-replication-interval-init";
         "workingDirectory=" +:+ osmosis_workdir (self s)] ;;;
      OS.open_w configpath ;;;
      s <- get ;;
      match changeset_url (self s) with
      | None => raise AttributeError
      | Some url => OS.write_close configpath (configuration_body url)
      end.

Definition _initialize_state : M unit :=
  s <- get ;;
  let statepath := Py.path_join (osmosis_workdir (self s)) "state.txt" in
  present <- OS.path_exists statepath ;;
  if present then ret tt
  else
    timestamp <- PlanetBase.get_timestamp E ;;
    let url := "https://replicate-sequences.osm.mazdermind.de/?"
               +:+ timestamp in
    state <- OS.urlopen_read E url ;;
    OS.open_w statepath ;;;
    OS.write_bytes_close statepath state.

Definition fetch_args (workdir : string) : list string :=
  ["osmosis"; "--read-replication-interval";
   "workingDirectory=" +:+ workdir;
   "--simplify-change"; "--write-xml-change";
   Py.path_join workdir "changeset.osm.gz"].

Definition _get_changeset : M unit :=
  s <- get ;;
  PlanetBase.osmosis E
    ["--read-replication-interval";
     "workingDirectory=" +:+ osmosis_workdir (self s);
     "--simplify-change";
     "--write-xml-change";
     Py.path_join (osmosis_workdir (self s)) "changeset.osm.gz"] ;;;
  ret tt.

Definition apply_args (workdir osmpath outpath : string) : list string :=
  ["osmosis"; "--read-xml-change";
   Py.path_join workdir "changeset.osm.gz";
   "--read-pbf"; osmpath; "--apply-change"; "--write-pbf"; outpath].

Definition _apply_changeset (outpath : string) : M unit :=
  s <- get ;;
  PlanetBase.osmosis E
    ["--read-xml-change";
     Py.path_join (osmosis_workdir (self s)) "changeset.osm.gz";
     "--read-pbf";
     osmpath (self s);
     "--apply-change";
     "--write-pbf";
     outpath] ;;;
  ret tt.

(** [update_planet(outpath, grain, changeset_url)] *)
Definition update_planet (outpath grain : string)
    (changeset_url : option string) : M unit :=
  s <- get ;;
  present <- OS.path_exists (osmpath (self s)) ;;
  if negb present then
    raise (Exception ("planet file does not exist: " +:+ osmpath (self s)))
  else
    modify (λ s, set_self
      (set_changeset_url
         (py_or changeset_url
            ("https://planet.openstreetmap.org/replication/" +:+ grain))
         (self s)) s) ;;;
    _initialize ;;;
    _initialize_state ;;;
    _get_changeset ;;;
    _apply_changeset outpath.
End PlanetUpdaterOsmosis.
End PlanetUpdaterOsmosis.

(** ** Vocabulary of the statements *)

(** The invocation of the converter in timestamp mode and in statistics
    mode. *)
Definition timestamp_args (s : State) : list string :=
  ["osmconvert"; osmpath (self s); "--out-timestamp"].
Definition statistics_args (s : State) : list string :=
  ["osmconvert"; osmpath (self s); "--out-statistics"].


(** ** Concrete environments and states

    Integer coordinates, tools that leave the file system alone and answer
    from a table, and a snapshot at [/data/planet.osm.pbf]. *)
Module Sample.

Definition nl : string := String "010" "".

Definition valid_bbox (b : BBox Z) : option exn :=
  if bool_decide (left b < right b ∧ bottom b < top b)%Z then None
  else Some (Exception "invalid bbox").

(** An environment whose tools answer [run args] and touch no file. *)
Definition env (run : list string → option string)
    (listing : list S3Object) : Env Z :=
  {| tool := λ args fs, (run args, fs);
     http_get := λ _, Some "sequenceNumber=4242";
     boto3 := true;
     s3_list := λ _ _, Some listing;
     s3_get := λ _ _, Some "pbf";
     validate_bbox := valid_bbox;
     fmt_05f := λ x, pretty x +:+ ".00000";
     fmt_s := pretty;
     json_dumps := λ _, "{}";
     tmpname := λ _, "/tmp/tmpmanifest" |}.

(** A converter that knows the timestamp directly. *)
Definition run_direct (args : list string) : option string :=
  if bool_decide (args !! 2%nat = Some "--out-timestamp")
  then Some ("2021-01-02T03:04:05Z" +:+ nl)
  else Some "".

(** A converter that needs the statistics pass. *)
Definition run_fallback (args : list string) : option string :=
  if bool_decide (args !! 2%nat = Some "--out-timestamp")
  then Some ("(invalid timestamp)" +:+ nl)
  else if bool_decide (args !! 2%nat = Some "--out-statistics")
  then Some ("timestamp min: 2020-05-06T07:08:09Z" +:+ nl +:+
             "timestamp max: 2021-01-02T03:04:05Z" +:+ nl +:+
             "nodes: 5" +:+ nl)
  else Some "".

(** Every tool exits with a non-zero status. *)
Definition run_failing (args : list string) : option string := None.

Definition planet : Planet := PlanetBase.init "/data/planet.osm.pbf" None.

(** The snapshot exists in its directory, its workdir does not. *)
Definition fs_snapshot : gmap string node :=
  <[ "/data/planet.osm.pbf" := File "pbf" ]> {[ "/data" := Dir ]}.

Definition state (p : Planet) (f : gmap string node) : State :=
  mkState p f [] [].

(** Two rectangles that pass the validation. *)
Definition two_regions : list (string * BBox Z) :=
  [("north", mkBBox 0 50 10 60); ("south", mkBBox 0 40 10 50)]%Z.

(** The second rectangle has its left edge east of its right edge. *)
Definition one_bad_region : list (string * BBox Z) :=
  [("north", mkBBox 0 50 10 60); ("south", mkBBox 10 50 0 40)]%Z.

End Sample.

(** The objects of a listing that pass the filter, in listing order. *)
Definition matching (match_ : option regex) (listing : list S3Object)
    : list S3Object :=
  filter (λ obj, re_match (default default_match match_) (key obj) = true)
         listing.

(** Two snapshots as the public bucket names them. *)
Definition planet_keys : list S3Object :=
  [ mkS3Object "osm-pds" "planet-220101.osm.pbf";
    mkS3Object "osm-pds" "planet-220201.osm.pbf" ].

(** The spawned vector of the sequential variant for one region. *)
Definition sequential_args {coord} (E : Env coord) (s : State)
    (outpath : string) (nb : string * BBox coord) : list string :=
  "osmconvert"
    :: PlanetExtractorOsmconvert.region_args E (osmpath (self s)) outpath
         nb.1 nb.2.

(** C3 as the specification words it: in a run of the sequential variant,
    whenever the invocation for a region was issued, the invocation for the
    next region is issued as well, whatever the exit status. *)
Definition regions_independent {coord} (E : Env coord) (s : State)
    (bboxes : list (string * BBox coord)) (outpath : string) : Prop :=
  ∀ (i : nat) nb nb',
    bboxes !! i = Some nb → bboxes !! S i = Some nb' →
    let s' := (PlanetExtractorOsmconvert.extract_bboxes E bboxes 1 outpath s).2 in
    Spawn (sequential_args E s outpath nb) ∈ trace s' →
    Spawn (sequential_args E s outpath nb') ∈ trace s'.

(** A feature whose geometry type the osmium variant knows. *)
Definition known_geometry {coord} (bbox : Feature coord) : bool :=
  let gt := dict_get (geometry bbox) "type" in
  PlanetExtractorOsmium.type_is gt "LineString"
  || PlanetExtractorOsmium.type_is gt "Polygon"
  || PlanetExtractorOsmium.type_is gt "MultiPolygon".

(** The spawned vector of the osmium variant for a manifest at [path]. *)
Definition osmium_args (s : State) (strategy path : string) : list string :=
  ["osmium"; "extract"; "-s"; strategy; "-c"; path; osmpath (self s)].

(** A line feature over integer coordinates. *)
Definition line_feature : Feature Z :=
  mkFeature [("type", JStr "LineString");
             ("coordinates", JArr [JArr [JNum 0; JNum 50];
                                   JArr [JNum 10; JNum 60]])]%Z
            (mkBBox 0 50 10 60)%Z.

(** A variant's [extract_bboxes] on an instance whose [command] is the
    recording closure over the list object [r]: nothing is added to the
    trace, the instance keeps its attributes, and the only change of the
    store is that vectors are appended to that list object. *)
Definition records_only {R} (extract_bboxes : list (string * R) → Z → string → M unit)
    : Prop :=
  ∀ (s : State) (r : nat) bboxes workers outpath,
    command_ (self s) = Recorder r →
    let s' := (extract_bboxes bboxes workers outpath s).2 in
    trace s' = trace s ∧ self s' = self s
    ∧ ∃ vs, heap s' = alter (λ l, l ++ vs) r (heap s).

(** The shape of the store around [extract_commands], whatever is
    recorded: nothing is added to the trace, the recording closure over a
    new list object is left in the [command] attribute, that list object is
    the result, and a later [extract_bboxes] on the instance again adds
    nothing to the trace, keeps the closure and appends to the same list
    object. *)
Definition recorder_installed {R}
    (extract_bboxes : list (string * R) → Z → string → M unit) : Prop :=
  ∀ (s : State) bboxes workers outpath,
    let run := PlanetExtractor.extract_commands extract_bboxes bboxes workers
                 outpath s in
    let ref := length (heap s) in
    trace run.2 = trace s
    ∧ command_ (self run.2) = Recorder ref
    ∧ (∀ r, run.1 = Ok r → r = ref)
    ∧ (∃ vs, heap run.2 = heap s ++ [vs])
    ∧ ∀ bboxes' workers' outpath',
        let again := extract_bboxes bboxes' workers' outpath' run.2 in
        trace again.2 = trace run.2
        ∧ command_ (self again.2) = Recorder ref
        ∧ ∃ vs', heap again.2 = alter (λ l, l ++ vs') ref (heap run.2).

(** The two persisted artifacts of the instance's workdir. *)
Definition configpath (s : State) : string :=
  Py.path_join (osmosis_workdir (self s)) "configuration.txt".
Definition statepath (s : State) : string :=
  Py.path_join (osmosis_workdir (self s)) "state.txt".

(** The three osmosis invocations of the interval updater. *)
Definition init_args (s : State) : list string :=
  PlanetUpdaterOsmosis.init_args (osmosis_workdir (self s)).
Definition fetch_args (s : State) : list string :=
  PlanetUpdaterOsmosis.fetch_args (osmosis_workdir (self s)).
Definition apply_args (s : State) (outpath : string) : list string :=
  PlanetUpdaterOsmosis.apply_args (osmosis_workdir (self s))
    (osmpath (self s)) outpath.

(** The URL of the sequence lookup for a timestamp. *)
Definition lookup_url (timestamp : string) : string :=
  "https://replicate-sequences.osm.mazdermind.de/?" +:+ timestamp.

(** The tool, run on [args], leaves the path [p] as it finds it. *)
Definition keeps {coord} (E : Env coord) (p : string) (args : list string)
    : Prop :=
  ∀ f, (tool E args f).2 !! p = f !! p.

Global Instance event_eq_dec : EqDecision event.
Proof. solve_decision. Defined.

(** How often the vector [args] was spawned in a trace. *)
Definition count_spawn (args : list string) (t : list event) : nat :=
  length (filter (λ e, e = Spawn args) t).

(** C2 as the specification words it: from any state, two runs of the
    workdir bootstrap issue the initializer exactly once. *)
Definition bootstrap_twice_issues_once {coord} (E : Env coord) (s : State)
    : Prop :=
  let s2 := (PlanetUpdaterOsmosis._initialize E
               (PlanetUpdaterOsmosis._initialize E s).2).2 in
  count_spawn (init_args s) (trace s2)
  = S (count_spawn (init_args s) (trace s)).

(** C1 as the specification words it: the spawned vectors of the update
    are the initializer, the changeset fetch and the changeset apply, and
    nothing else. *)
Definition update_spawns_three {coord} (E : Env coord) (s : State)
    (outpath : string) : Prop :=
  let s' := (PlanetUpdaterOsmosis.update_planet E outpath "minute" None s).2 in
  spawned (trace s') = [init_args s; fetch_args s; apply_args s outpath].

(** The non-blank lines of a text, each stripped. *)
Definition stripped_lines (body : string) : list string :=
  filter (λ l, l ≠ "") (map Py.strip (Py.split "010" body)).

(** A workdir that was bootstrapped before. *)
Definition fs_bootstrapped : gmap string node :=
  <[ "/data/planet.osm.pbf.workdir/configuration.txt" := File "baseUrl=x" ]>
    (<[ "/data/planet.osm.pbf.workdir" := Dir ]> Sample.fs_snapshot).

(** The sample instance after [update_planet] stored its URL. *)
Definition planet_minute : Planet :=
  set_changeset_url "https://planet.openstreetmap.org/replication/minute"
    Sample.planet.

(** Neither the workdir nor its two artifacts exist. *)
Definition workdir_absent (s : State) : Prop :=
  fs s !! osmosis_workdir (self s) = None
  ∧ fs s !! configpath s = None
  ∧ fs s !! statepath s = None.

(** ** Vocabulary of the further properties *)

(** The vector of the direct fetch. *)
Definition curl_args (s : State) (url : option string) : list string :=
  ["curl"; "-L"; "-o"; osmpath (self s);
   py_or url "https://planet.openstreetmap.org/pbf/planet-latest.osm.pbf"].

(** The vector of the single-call updater. *)
Definition up_to_date_args (s : State) (outpath size : string) : list string :=
  ["pyosmium-up-to-date"; "-s"; size; "-v"; osmpath (self s); "-o"; outpath].

(** The whole vector of the tee variant for a region set. *)
Definition tee_args {coord} (E : Env coord) (s : State)
    (bboxes : list (string * BBox coord)) (workers : Z) (outpath : string)
    : list string :=
  ["osmosis"; "--read-pbf-fast"; osmpath (self s);
   "workers=" +:+ pretty workers; "--tee"; pretty (length bboxes)]
  ++ concat (map (λ nb, PlanetExtractorOsmosis.region_args E outpath nb.1 nb.2)
                 bboxes).

(** The outcome of spawning [args] in state [s]: the exit status decides
    the result, the tool decides the files. *)
Definition spawn_outcome {coord} (E : Env coord) (args : list string)
    (s : State) : res unit * State :=
  (match (tool E args (fs s)).1 with
   | Some _ => Ok tt
   | None => Raise (CalledProcessError args)
   end,
   emit (Spawn args) (set_fs (tool E args (fs s)).2 s)).

(** An environment without the boto3 module. *)
Definition env_without_boto3 : Env Z :=
  {| tool := λ args fs, (Some "", fs);
     http_get := λ _, Some "sequenceNumber=4242";
     boto3 := false;
     s3_list := λ _ _, Some planet_keys;
     s3_get := λ _ _, Some "pbf";
     validate_bbox := Sample.valid_bbox;
     fmt_05f := λ x, pretty x +:+ ".00000";
     fmt_s := pretty;
     json_dumps := λ _, "{}";
     tmpname := λ _, "/tmp/tmpmanifest" |}.

(** The workdir path is taken by a plain file. *)
Definition fs_workdir_is_file : gmap string node :=
  <[ "/data/planet.osm.pbf.workdir" := File "" ]> Sample.fs_snapshot.

(** The file system after [try: os.makedirs(workdir) except OSError: pass]. *)
Definition fs_with_workdir (s : State) : gmap string node :=
  (OS.makedirs (osmosis_workdir (self s)) (fs s)).2.

(** The URL [update_planet] stores in the instance. *)
Definition effective_url (changeset_url : option string) (grain : string)
    : string :=
  py_or changeset_url
    ("https://planet.openstreetmap.org/replication/" +:+ grain).

(** A workdir with both artifacts in place. *)
Definition fs_ready : gmap string node :=
  <[ "/data/planet.osm.pbf.workdir/state.txt" := File "sequenceNumber=1" ]>
    fs_bootstrapped.

(** A converter whose statistics carry no maximum timestamp. *)
Definition run_no_maximum (args : list string) : option string :=
  if bool_decide (args !! 2%nat = Some "--out-timestamp")
  then Some ("(invalid timestamp)" +:+ Sample.nl)
  else Some ("timestamp min: 2020-05-06T07:08:09Z" +:+ Sample.nl +:+
             "nodes: 5" +:+ Sample.nl).

(** An environment whose sequence lookup is unreachable. *)
Definition env_offline : Env Z :=
  {| tool := λ args fs, (Sample.run_direct args, fs);
     http_get := λ _, None;
     boto3 := true;
     s3_list := λ _ _, Some [];
     s3_get := λ _ _, None;
     validate_bbox := Sample.valid_bbox;
     fmt_05f := λ x, pretty x +:+ ".00000";
     fmt_s := pretty;
     json_dumps := λ _, "{}";
     tmpname := λ _, "/tmp/tmpmanifest" |}.

(** The instance with the URL stored, as [update_planet] leaves it. *)
Definition with_url (changeset_url : option string) (grain : string)
    (s : State) : State :=
  set_self (set_changeset_url (effective_url changeset_url grain) (self s)) s.

(** The manifest key under which a feature's geometry is filed. *)
Definition geometry_key {coord} (bbox : Feature coord) : string :=
  let gt := dict_get (geometry bbox) "type" in
  if PlanetExtractorOsmium.type_is gt "LineString" then "bbox"
  else if PlanetExtractorOsmium.type_is gt "Polygon" then "polygon"
  else "multipolygon".

(** The geometry the manifest holds for a feature: the rectangle of
    [bbox()] for a line, the coordinates (or the empty list) otherwise. *)
Definition geometry_value {coord} (bbox : Feature coord) : json coord :=
  if PlanetExtractorOsmium.type_is (dict_get (geometry bbox) "type")
       "LineString"
  then JObj [("left", JNum (left (feature_bbox bbox)));
             ("right", JNum (right (feature_bbox bbox)));
             ("top", JNum (top (feature_bbox bbox)));
             ("bottom", JNum (bottom (feature_bbox bbox)))]
  else PlanetExtractorOsmium.coordinates bbox.

(** The entry of the manifest for the region [nb]: the region's output
    name, the pbf format and the geometry under the key of its type, in
    this order. *)
Definition manifest_fields {coord} (nb : string * Feature coord)
    : list (string * json coord) :=
  [("output", JStr (nb.1 +:+ ".osm.pbf"));
   ("output_format", JStr "pbf");
   (geometry_key nb.2, geometry_value nb.2)].

Definition manifest_entry {coord} (nb : string * Feature coord) : json coord :=
  JObj (manifest_fields nb).

(** The manifest for an output directory and its entries. *)
Definition manifest {coord} (outpath : string) (extracts : list (json coord))
    : json coord :=
  JObj [("directory", JStr outpath); ("extracts", JArr extracts)].

(** A feature of a type the osmium variant does not know. *)
Definition point_feature : Feature Z :=
  mkFeature [("type", JStr "Point");
             ("coordinates", JArr [JNum 0; JNum 50])]%Z
            (mkBBox 0 50 0 50)%Z.

(** Two calls of [extract_commands] in a row on one instance: the second
    call works on a list object of its own and leaves the first one as it
    was; nothing is spawned by either. *)
Definition fresh_list_per_call {R}
    (extract_bboxes : list (string * R) → Z → string → M unit) : Prop :=
  ∀ (s : State) b1 w1 o1 b2 w2 o2,
    let run1 := PlanetExtractor.extract_commands extract_bboxes b1 w1 o1 s in
    let run2 := PlanetExtractor.extract_commands extract_bboxes b2 w2 o2
                  run1.2 in
    command_ (self run2.2) = Recorder (S (length (heap s)))
    ∧ (∀ r, run2.1 = Ok r → r = S (length (heap s)))
    ∧ trace run2.2 = trace s
    ∧ ∃ vs1 vs2,
        heap run1.2 = heap s ++ [vs1] ∧ heap run2.2 = heap s ++ [vs1; vs2].

(** A text without line feed. *)
Definition single_line (a : string) : Prop :=
  Py.contains (String "010" "") a = false.

(** ** The update pipeline and the recording closure, exactly *)

(** The timestamp [get_timestamp] resolves from the output of the
    timestamp mode and, on the fallback path, of the statistics mode. *)
Definition resolved_timestamp (out : string) (statistics : option string)
    : option string :=
  if Py.contains "invalid" out then
    match statistics with
    | Some st =>
        match PlanetBase.timestamp_max_values st with
        | t :: _ => Some (Py.strip t)
        | [] => None
        end
    | None => None
    end
  else Some (Py.strip out).

(** The converter invocations of that resolution. *)
Definition resolver_events (s : State) (out : string) : list event :=
  Spawn (timestamp_args s)
  :: (if Py.contains "invalid" out then [Spawn (statistics_args s)] else []).

(** The workdir path is a plain name in an existing directory. *)
Definition workdir_parent_exists (s : State) : Prop :=
  osmosis_workdir (self s) ≠ ""
  ∧ Py.ends_with_slash (osmosis_workdir (self s)) = false
  ∧ fs s !! OS.dirname (osmosis_workdir (self s)) = Some Dir.

(** The URL of the minute replication. *)
Definition minute_url : string :=
  "https://planet.openstreetmap.org/replication/minute".

(** What the three variants hand to [self.command] for a region set: the
    tee variant one vector, and none if a rectangle fails the validation;
    the sequential variant one vector per region up to the first rectangle
    that fails it; the osmium variant one vector with the manifest path,
    and none if a geometry type is unknown. *)
Section Vectors.
Context {coord : Type} (E : Env coord).

Definition valid (nb : string * BBox coord) : bool :=
  match validate_bbox E nb.2 with
  | None => true
  | Some _ => false
  end.

Definition known (nb : string * Feature coord) : bool := known_geometry nb.2.

Definition tee_vectors (s : State) (bboxes : list (string * BBox coord))
    (workers : Z) (outpath : string) : list (list string) :=
  if forallb valid bboxes then [tee_args E s bboxes workers outpath] else [].

Fixpoint valid_prefix (bboxes : list (string * BBox coord))
    : list (string * BBox coord) :=
  match bboxes with
  | [] => []
  | nb :: rest => if valid nb then nb :: valid_prefix rest else []
  end.

Definition sequential_vectors (s : State)
    (bboxes : list (string * BBox coord)) (workers : Z) (outpath : string)
    : list (list string) :=
  map (sequential_args E s outpath) (valid_prefix bboxes).

Definition osmium_vectors (strategy : string) (s : State)
    (bboxes : list (string * Feature coord)) (workers : Z) (outpath : string)
    : list (list string) :=
  if forallb known bboxes
  then [osmium_args s strategy (tmpname E (fs s))]
  else [].
End Vectors.

(** The vectors of a variant depend on the snapshot path and the files
    only. *)
Definition over_snapshot_and_files {R}
    (vectors : State → list (string * R) → Z → string → list (list string))
    : Prop :=
  ∀ s s' bboxes workers outpath,
    osmpath (self s) = osmpath (self s') → fs s = fs s' →
    vectors s bboxes workers outpath = vectors s' bboxes workers outpath.

(** A variant's [extract_bboxes] on an instance whose [command] is the
    recording closure over the list object [r]: nothing is added to the
    trace, the instance keeps its attributes, exactly the variant's vectors
    are appended to that list object, and the call returns when the region
    set passes the variant's checks and raises otherwise. *)
Definition records_exactly {R}
    (extract_bboxes : list (string * R) → Z → string → M unit)
    (vectors : State → list (string * R) → Z → string → list (list string))
    (passes : (string * R) → bool) : Prop :=
  ∀ (s : State) (r : nat) bboxes workers outpath,
    command_ (self s) = Recorder r →
    let res := extract_bboxes bboxes workers outpath s in
    trace res.2 = trace s
    ∧ self res.2 = self s
    ∧ heap res.2
      = alter (λ l, l ++ vectors s bboxes workers outpath) r (heap s)
    ∧ (forallb passes bboxes = true → res.1 = Ok tt)
    ∧ (forallb passes bboxes = false → ∃ e, res.1 = Raise e).

(** C10 for one variant: [extract_commands] adds nothing to the trace,
    leaves the recording closure over a new list object in the [command]
    attribute, and that list object holds exactly the variant's vectors
    for the region set; it is the result when the region set passes the
    variant's checks.  A following [extract_bboxes] on the instance adds
    nothing to the trace, keeps the closure and appends its vectors to
    that same list object, as [extract_bboxes] does on any instance whose
    [command] is a recording closure. *)
Definition recorder_installed_exactly {R}
    (extract_bboxes : list (string * R) → Z → string → M unit)
    (vectors : State → list (string * R) → Z → string → list (list string))
    (passes : (string * R) → bool) : Prop :=
  (∀ (s : State) bboxes workers outpath,
     let run := PlanetExtractor.extract_commands extract_bboxes bboxes
                  workers outpath s in
     let ref := length (heap s) in
     trace run.2 = trace s
     ∧ command_ (self run.2) = Recorder ref
     ∧ heap run.2 = heap s ++ [vectors s bboxes workers outpath]
     ∧ (forallb passes bboxes = true → run.1 = Ok ref)
     ∧ (forallb passes bboxes = false → ∃ e, run.1 = Raise e)
     ∧ ∀ bboxes' workers' outpath',
         let again := extract_bboxes bboxes' workers' outpath' run.2 in
         trace again.2 = trace s
         ∧ command_ (self again.2) = Recorder ref
         ∧ heap again.2
           = heap s ++ [vectors s bboxes workers outpath
                        ++ vectors run.2 bboxes' workers' outpath'])
  ∧ records_exactly extract_bboxes vectors passes.
(** * Properties *)

(** ** Text lemmas *)

Lemma partition_at_first (sep : ascii) (a b : string) :
  Py.contains (String sep "") a = false →
  Py.partition sep (a +:+ String sep b) = (a, String sep "", b).
Proof.
  induction a as [|c a IH]; simpl; intros Hno.
  - by rewrite Ascii.eqb_refl.
  - apply orb_false_iff in Hno as [Hhd Hno].
    destruct (Ascii.eqb c sep) eqn:Hc.
    + apply Ascii.eqb_eq in Hc as ->.
      destruct (ascii_dec sep sep); [|done].
      by destruct a.
    + by rewrite (IH Hno).
Qed.

Lemma startswith_app (s t p : string) :
  Py.startswith s p = true → Py.startswith (s +:+ t) p = true.
Proof.
  unfold Py.startswith. revert s.
  induction p as [|c p IH]; intros [|d s]; simpl; try done.
  - intros _. by destruct t.
  - destruct (ascii_dec _ _); [apply IH|done].
Qed.

Lemma rstrip_idem (s : string) : Py.rstrip (Py.rstrip s) = Py.rstrip s.
Proof.
  induction s as [|c s IH]; simpl; [done|].
  destruct (Py.rstrip s) as [|c' r] eqn:Hr.
  - destruct (Py.is_space c) eqn:Hc; simpl; [done|]. by rewrite Hc.
  - simpl in *. by rewrite IH.
Qed.

Lemma lstrip_head (s : string) :
  match Py.lstrip s with
  | "" => True
  | String c _ => Py.is_space c = false
  end.
Proof.
  induction s as [|c s IH]; simpl; [done|].
  destruct (Py.is_space c) eqn:Hc; [done|]. by rewrite Hc.
Qed.

Lemma rstrip_head (c : ascii) (s : string) :
  Py.is_space c = false → ∃ r, Py.rstrip (String c s) = String c r.
Proof.
  intros Hc. simpl. destruct (Py.rstrip s); [rewrite Hc|]; eauto.
Qed.

Lemma strip_idem (s : string) : Py.strip (Py.strip s) = Py.strip s.
Proof.
  unfold Py.strip. pose proof (lstrip_head s) as H.
  destruct (Py.lstrip s) as [|c t]; [done|].
  destruct (rstrip_head c t H) as [r Hr]. rewrite Hr.
  change (Py.lstrip (String c r)) with
    (if Py.is_space c then Py.lstrip r else String c r).
  rewrite H, <- Hr. apply rstrip_idem.
Qed.

Lemma filter_first {A} (P : A → Prop) `{∀ x, Decision (P x)}
    (pre : list A) (x : A) (post : list A) :
  Forall (λ y, ¬ P y) pre → P x →
  filter P (pre ++ x :: post) = x :: filter P post.
Proof.
  intros Hpre Hx. rewrite filter_app, filter_cons_True by done.
  induction Hpre as [|y pre Hy _ IH]; [done|].
  by rewrite filter_cons_False.
Qed.

(** ** Running the primitives *)

Ltac msimpl :=
  cbn [bind get ret raise modify self fs trace heap emit set_fs set_heap
       set_self command_ osmpath osmosis_workdir changeset_url set_command
       set_changeset_url fst snd].

Lemma bind_run {A B} (m : M A) (k : A → M B) (s : State) :
  bind m k s = match m s with
               | (Ok a, s') => k a s'
               | (Raise e, s') => (Raise e, s')
               end.
Proof. reflexivity. Qed.

Lemma path_exists_run (p : string) (s : State) :
  OS.path_exists p s
  = (Ok (match fs s !! p with Some _ => true | None => false end), s).
Proof. reflexivity. Qed.

Lemma path_isdir_run (p : string) (s : State) :
  OS.path_isdir p s
  = (Ok (match fs s !! p with Some Dir => true | _ => false end), s).
Proof. reflexivity. Qed.

Section Primitives.
Context {coord : Type} (E : Env coord).

Lemma check_output_ok args s o fs' :
  tool E args (fs s) = (Some o, fs') →
  OS.check_output E args s = (Ok o, emit (Spawn args) (set_fs fs' s)).
Proof. intros H. unfold OS.check_output. msimpl. rewrite H. by msimpl. Qed.

Lemma check_output_fail args s fs' :
  tool E args (fs s) = (None, fs') →
  OS.check_output E args s
  = (Raise (CalledProcessError args), emit (Spawn args) (set_fs fs' s)).
Proof. intros H. unfold OS.check_output. msimpl. rewrite H. by msimpl. Qed.

Lemma command_ok args s o fs' :
  command_ (self s) = Subprocess →
  tool E args (fs s) = (Some o, fs') →
  PlanetBase.command E args s
  = (Ok (PStr o), emit (Spawn args) (set_fs fs' s)).
Proof.
  intros Hc H. unfold PlanetBase.command. msimpl. rewrite Hc.
  by rewrite bind_run, (check_output_ok _ _ _ _ H).
Qed.

Lemma command_fail args s fs' :
  command_ (self s) = Subprocess →
  tool E args (fs s) = (None, fs') →
  PlanetBase.command E args s
  = (Raise (CalledProcessError args), emit (Spawn args) (set_fs fs' s)).
Proof.
  intros Hc H. unfold PlanetBase.command. msimpl. rewrite Hc.
  by rewrite bind_run, (check_output_fail _ _ _ H).
Qed.

Lemma command_recorded args s r :
  command_ (self s) = Recorder r →
  PlanetBase.command E args s
  = (Ok PNone, set_heap (alter (λ l, l ++ [args]) r (heap s)) s).
Proof. intros Hc. unfold PlanetBase.command. msimpl. by rewrite Hc. Qed.
End Primitives.

(** ** Timestamp resolution *)

Section Timestamp.
Context {coord : Type} (E : Env coord).

(** C8: when the direct timestamp output has no "invalid" in it,
    [get_timestamp] returns it stripped after that single invocation; when
    it has, [get_timestamp] runs the statistics mode and returns, stripped,
    the text after the first colon of the first line that starts with
    "timestamp max". *)
Theorem get_timestamp_resolution (s : State) (out : string)
    (fs1 : gmap string node) :
  command_ (self s) = Subprocess →
  tool E (timestamp_args s) (fs s) = (Some out, fs1) →
  (Py.contains "invalid" out = false →
     PlanetBase.get_timestamp E s
     = (Ok (Py.strip out), emit (Spawn (timestamp_args s)) (set_fs fs1 s)))
  ∧
  (Py.contains "invalid" out = true →
     ∀ (statistics : string) (fs2 : gmap string node)
       (before : list string) (key_ value : string) (after : list string),
       tool E (statistics_args s) fs1 = (Some statistics, fs2) →
       Py.split "010" statistics
       = before ++ (key_ +:+ String ":" value) :: after →
       Forall (λ l, Py.startswith l "timestamp max" = false) before →
       Py.startswith key_ "timestamp max" = true →
       Py.contains ":" key_ = false →
       PlanetBase.get_timestamp E s
       = (Ok (Py.strip value),
          emit (Spawn (statistics_args s))
            (set_fs fs2 (emit (Spawn (timestamp_args s)) (set_fs fs1 s))))).
Proof.
  unfold timestamp_args, statistics_args. intros Hcmd Hts.
  unfold PlanetBase.get_timestamp, PlanetBase.osmconvert. msimpl. rewrite bind_run, (command_ok E _ _ _ _ Hcmd Hts). split.
  - by intros ->.
  - intros -> statistics fs2 before key_ value after Hst Hlines Hbefore
      Hkey Hcolon.
    rewrite bind_run. erewrite command_ok; [|done|exact Hst].
    unfold PlanetBase.timestamp_max_values. rewrite Hlines.
    rewrite filter_first.
    + simpl. rewrite partition_at_first by done. simpl.
      by rewrite strip_idem.
    + eapply Forall_impl; [exact Hbefore|]. simpl. intros l Hl. by rewrite Hl.
    + by apply startswith_app.
Qed.
End Timestamp.

(** The two branches of [get_timestamp] on the sample converters. *)
Lemma get_timestamp_resolution_witness :
  (PlanetBase.get_timestamp (Sample.env Sample.run_direct [])
     (Sample.state Sample.planet Sample.fs_snapshot)).1
  = Ok "2021-01-02T03:04:05Z"
  ∧
  (PlanetBase.get_timestamp (Sample.env Sample.run_fallback [])
     (Sample.state Sample.planet Sample.fs_snapshot)).1
  = Ok "2021-01-02T03:04:05Z".
Proof.
  split.
  - rewrite (proj1 (get_timestamp_resolution
              (Sample.env Sample.run_direct [])
              (Sample.state Sample.planet Sample.fs_snapshot)
              ("2021-01-02T03:04:05Z" +:+ Sample.nl) Sample.fs_snapshot
              eq_refl eq_refl) eq_refl).
    reflexivity.
  - rewrite (proj2 (get_timestamp_resolution
              (Sample.env Sample.run_fallback [])
              (Sample.state Sample.planet Sample.fs_snapshot)
              ("(invalid timestamp)" +:+ Sample.nl) Sample.fs_snapshot
              eq_refl eq_refl) eq_refl
              ("timestamp min: 2020-05-06T07:08:09Z" +:+ Sample.nl +:+
               "timestamp max: 2021-01-02T03:04:05Z" +:+ Sample.nl +:+
               "nodes: 5" +:+ Sample.nl)
              Sample.fs_snapshot
              ["timestamp min: 2020-05-06T07:08:09Z"]
              "timestamp max" " 2021-01-02T03:04:05Z"
              ["nodes: 5"; ""]);
      first [reflexivity | by repeat constructor].
Defined.

(** ** Acquisition *)

Section Acquisition.
Context {coord : Type} (E : Env coord).

(** C7: when the target snapshot path exists, the direct fetch and the
    object-store download both raise "planet file exists" and leave the
    whole state as it was: nothing is spawned, listed or downloaded and no
    file changes. *)
Theorem download_refuses_existing_target (s : State) (url : option string)
    (bucket prefix : option string) (match_ : option regex) :
  is_Some (fs s !! osmpath (self s)) →
  PlanetDownloaderHttp.download_planet E url s
  = (Raise (Exception ("planet file exists: " +:+ osmpath (self s))), s)
  ∧ PlanetDownloaderS3.download_planet_latest E bucket prefix match_ s
    = (Raise (Exception ("planet file exists: " +:+ osmpath (self s))), s)
  ∧ PlanetDownloaderS3.download_planet E s
    = (Raise (Exception ("planet file exists: " +:+ osmpath (self s))), s).
Proof.
  intros [n Hn].
  unfold PlanetDownloaderS3.download_planet,
    PlanetDownloaderHttp.download_planet,
    PlanetDownloaderS3.download_planet_latest.
  msimpl. rewrite !bind_run, !path_exists_run, Hn. done.
Qed.
End Acquisition.

Lemma download_refuses_existing_target_witness :
  let s := Sample.state Sample.planet Sample.fs_snapshot in
  PlanetDownloaderHttp.download_planet (Sample.env Sample.run_direct []) None s
  = (Raise (Exception "planet file exists: /data/planet.osm.pbf"), s).
Proof.
  intros s.
  apply (download_refuses_existing_target
           (Sample.env Sample.run_direct []) s None None None None).
  exists (File "pbf"). reflexivity.
Defined.

(** ** Sorting by key *)

Section SortedBy.
Context {A : Type} (keyf : A → string).

Lemma insert_sorted_perm (x : A) (l : list A) :
  insert_sorted keyf x l ≡ₚ x :: l.
Proof.
  induction l as [|y l IH]; simpl; [done|].
  destruct (String.leb (keyf x) (keyf y)); [done|].
  rewrite IH. apply Permutation_swap.
Qed.

Lemma sorted_by_perm (l : list A) : sorted_by keyf l ≡ₚ l.
Proof.
  induction l as [|x l IH]; simpl; [done|].
  by rewrite insert_sorted_perm, IH.
Qed.

Lemma insert_sorted_sorted (x : A) (l : list A) :
  StronglySorted (key_le keyf) l → StronglySorted (key_le keyf) (insert_sorted keyf x l).
Proof.
  induction 1 as [|y l Hl IH Hy]; simpl.
  - repeat constructor.
  - destruct (String.leb (keyf x) (keyf y)) eqn:Hxy.
    + constructor; [by constructor|].
      assert (key_le keyf x y) as Hle by (unfold key_le, String.le; by rewrite Hxy).
      constructor; [done|].
      eapply Forall_impl; [exact Hy|]. intros z Hz. unfold key_le in *.
      by etrans.
    + constructor; [done|].
      rewrite insert_sorted_perm. constructor; [|done].
      unfold key_le. destruct (total String.le (keyf y) (keyf x)) as [|Hc];
        [done|].
      unfold String.le in Hc. by rewrite Hxy in Hc.
Qed.

Lemma sorted_by_sorted (l : list A) : StronglySorted (key_le keyf) (sorted_by keyf l).
Proof.
  induction l as [|x l IH]; simpl; [constructor|].
  by apply insert_sorted_sorted.
Qed.

Lemma sorted_last_max (l : list A) (m : A) :
  StronglySorted (key_le keyf) l → last l = Some m → Forall (λ x, key_le keyf x m) l.
Proof.
  induction 1 as [|y l Hl IH Hy]; [done|].
  destruct l as [|z l'].
  - intros [= ->]. repeat constructor. unfold key_le. done.
  - intros Hlast. change (last (z :: l') = Some m) in Hlast.
    constructor; [|by apply IH].
    apply (proj1 (Forall_forall _ _) Hy). by apply last_Some_elem_of.
Qed.

(** The last element of the sorted list is one of the inputs and no input
    has a greater key. *)
Lemma sorted_by_last (l : list A) (m : A) :
  last (sorted_by keyf l) = Some m →
  m ∈ l ∧ ∀ x, x ∈ l → key_le keyf x m.
Proof.
  intros Hlast. split.
  - rewrite <- (sorted_by_perm l). by apply last_Some_elem_of.
  - intros x Hx. rewrite <- (sorted_by_perm l) in Hx.
    pose proof (sorted_last_max _ _ (sorted_by_sorted l) Hlast) as Hmax.
    by apply (proj1 (Forall_forall _ _) Hmax).
Qed.

Lemma sorted_by_nonempty (l : list A) : l ≠ [] → is_Some (last (sorted_by keyf l)).
Proof.
  intros Hne. destruct (last (sorted_by keyf l)) eqn:Hl; [eauto|].
  apply last_None in Hl. pose proof (sorted_by_perm l) as Hp.
  rewrite Hl in Hp. by apply Permutation_nil_l in Hp.
Qed.
End SortedBy.

(** ** Object-store acquisition *)

Section ObjectStore.
Context {coord : Type} (E : Env coord).

(** C5: when the target is absent and the listing has at least one key
    that passes the filter, [download_planet_latest] lists once and requests
    exactly one download, of a passing object whose key no passing key
    exceeds in the order of text. *)
Theorem s3_downloads_greatest_key (s : State) (bucket prefix : option string)
    (match_ : option regex) (listing : list S3Object) :
  fs s !! osmpath (self s) = None →
  boto3 E = true →
  s3_list E (py_or bucket "osm-pds") (py_or prefix "") = Some listing →
  matching match_ listing ≠ [] →
  ∃ planet : S3Object,
    planet ∈ matching match_ listing
    ∧ (∀ obj, obj ∈ matching match_ listing → (key obj ≤ key planet)%string)
    ∧ trace (PlanetDownloaderS3.download_planet_latest E bucket prefix
               match_ s).2
      = trace s ++ [S3List (py_or bucket "osm-pds") (py_or prefix "");
                    S3Download (bucket_name planet) (key planet)
                      (osmpath (self s))].
Proof.
  intros Habsent Hboto Hlist Hne.
  destruct (sorted_by_nonempty key _ Hne) as [planet Hlast].
  destruct (sorted_by_last key _ _ Hlast) as [Hin Hmax].
  exists planet. split; [done|]. split; [exact Hmax|].
  unfold PlanetDownloaderS3.download_planet_latest. msimpl.
  rewrite bind_run, path_exists_run, Habsent.
  unfold PlanetDownloaderS3._get_planets. rewrite Hboto. simpl negb. cbv iota.
  rewrite !bind_run. msimpl. rewrite Hlist. msimpl.
  fold (matching match_ listing). rewrite Hlast.
  unfold PlanetDownloaderS3._download. rewrite Hboto. simpl negb. cbv iota.
  msimpl. rewrite ?bind_run. msimpl.
  destruct (s3_get E _ _); simpl; by rewrite <- app_assoc.
Qed.
End ObjectStore.

Lemma s3_downloads_greatest_key_witness :
  ∃ planet : S3Object,
    planet ∈ matching None planet_keys
    ∧ (∀ obj, obj ∈ matching None planet_keys → (key obj ≤ key planet)%string)
    ∧ trace (PlanetDownloaderS3.download_planet_latest
               (Sample.env Sample.run_direct planet_keys) None None None
               (Sample.state Sample.planet ∅)).2
      = [] ++ [S3List "osm-pds" "";
               S3Download (bucket_name planet) (key planet)
                 "/data/planet.osm.pbf"].
Proof.
  apply (s3_downloads_greatest_key
           (Sample.env Sample.run_direct planet_keys)
           (Sample.state Sample.planet ∅) None None None planet_keys);
    [reflexivity | reflexivity | reflexivity | vm_compute; discriminate].
Defined.

(** The example of the listing with two dated snapshots: both pass the
    default filter and the later one is the single download. *)
Example s3_latest_of_two :
  matching None planet_keys = planet_keys
  ∧ trace (PlanetDownloaderS3.download_planet_latest
             (Sample.env Sample.run_direct planet_keys) None None None
             (Sample.state Sample.planet ∅)).2
    = [S3List "osm-pds" "";
       S3Download "osm-pds" "planet-220201.osm.pbf" "/data/planet.osm.pbf"].
Proof. split; vm_compute; reflexivity. Qed.

(** The default filter on names with and without a date token. *)
Example default_match_dated :
  re_match default_match "2022/planet-220201.osm.pbf" = true
  ∧ re_match default_match "planet_2022-02-01T00:00:00.osm.pbf" = true
  ∧ re_match default_match "planet-latest.osm.pbf" = false
  ∧ re_match default_match "planet-220201.osm.pbf.md5" = false
  ∧ re_match default_match "planet-.osm.pbf" = true
  ∧ re_match default_match "planet.osm.pbf" = false.
Proof. repeat split; vm_compute; reflexivity. Qed.

Section ObjectStoreEmpty.
Context {coord : Type} (E : Env coord).

(** C6: when the target is absent and no key of the listing passes the
    filter, [download_planet_latest] takes the last element of the empty
    sorted list: it raises [IndexError] after the listing, and requests no
    download. *)
Theorem s3_empty_selection_is_indexed (s : State)
    (bucket prefix : option string) (match_ : option regex)
    (listing : list S3Object) :
  fs s !! osmpath (self s) = None →
  boto3 E = true →
  s3_list E (py_or bucket "osm-pds") (py_or prefix "") = Some listing →
  matching match_ listing = [] →
  PlanetDownloaderS3.download_planet_latest E bucket prefix match_ s
  = (Raise IndexError,
     emit (S3List (py_or bucket "osm-pds") (py_or prefix "")) s).
Proof.
  intros Habsent Hboto Hlist Hnone.
  unfold PlanetDownloaderS3.download_planet_latest. msimpl.
  rewrite bind_run, path_exists_run, Habsent.
  unfold PlanetDownloaderS3._get_planets. rewrite Hboto. simpl negb. cbv iota.
  rewrite !bind_run. msimpl. rewrite Hlist. msimpl.
  fold (matching match_ listing). by rewrite Hnone.
Qed.
End ObjectStoreEmpty.

Lemma s3_empty_selection_is_indexed_witness :
  PlanetDownloaderS3.download_planet_latest
    (Sample.env Sample.run_direct [mkS3Object "osm-pds" "planet-latest.osm.pbf"])
    None None None (Sample.state Sample.planet ∅)
  = (Raise IndexError,
     emit (S3List "osm-pds" "") (Sample.state Sample.planet ∅)).
Proof.
  apply (s3_empty_selection_is_indexed
           (Sample.env Sample.run_direct
              [mkS3Object "osm-pds" "planet-latest.osm.pbf"])
           (Sample.state Sample.planet ∅) None None None
           [mkS3Object "osm-pds" "planet-latest.osm.pbf"]);
    [reflexivity | reflexivity | reflexivity | vm_compute; reflexivity].
Defined.

(** ** Extraction *)

Lemma validate_run {coord} (E : Env coord) (bbox : BBox coord) (s : State) :
  validate E bbox s
  = (match validate_bbox E bbox with Some e => Raise e | None => Ok tt end, s).
Proof. unfold validate. by destruct (validate_bbox E bbox). Qed.

Section Tee.
Context {coord : Type} (E : Env coord).

Lemma tee_fold_valid (outpath : string) (bboxes : list (string * BBox coord))
    (args : list string) (s : State) :
  Forall (λ nb, validate_bbox E nb.2 = None) bboxes →
  fold_m (λ args nb,
            validate E nb.2 ;;;
            ret (args ++ PlanetExtractorOsmosis.region_args E outpath nb.1 nb.2))
         args bboxes s
  = (Ok (args ++ concat (map (λ nb, PlanetExtractorOsmosis.region_args E
                                      outpath nb.1 nb.2) bboxes)), s).
Proof.
  intros Hvalid. revert args.
  induction Hvalid as [|nb bboxes Hnb _ IH]; intros args; simpl.
  - by rewrite app_nil_r.
  - rewrite !bind_run, validate_run, Hnb. msimpl.
    rewrite IH. by rewrite <- app_assoc.
Qed.

Lemma tee_fold_invalid (outpath : string) (bboxes : list (string * BBox coord))
    (args : list string) (s : State) :
  (∃ nb, nb ∈ bboxes ∧ validate_bbox E nb.2 ≠ None) →
  ∃ nb e, nb ∈ bboxes ∧ validate_bbox E nb.2 = Some e ∧
    fold_m (λ args nb,
              validate E nb.2 ;;;
              ret (args ++ PlanetExtractorOsmosis.region_args E outpath nb.1 nb.2))
           args bboxes s
    = (Raise e, s).
Proof.
  revert args. induction bboxes as [|nb bboxes IH]; intros args [bad [Hin Hbad]].
  - by apply elem_of_nil in Hin.
  - simpl fold_m. rewrite !bind_run, validate_run.
    destruct (validate_bbox E nb.2) as [e|] eqn:Hv.
    + exists nb, e. split; [left|]. split; [exact Hv|done].
    + apply elem_of_cons in Hin as [->|Hin]; [congruence|].
      destruct (IH (args ++ PlanetExtractorOsmosis.region_args E outpath nb.1 nb.2))
        as (nb' & e & Hin' & Hv' & Hrun); [by exists bad|].
      exists nb', e. split; [by right|]. split; [exact Hv'|]. exact Hrun.
Qed.

(** C9: in the tee variant, when the validation of some region of the set
    raises, [extract_bboxes] raises the validation error of a region of the
    set and the state is untouched: the argument vector was still being
    built, no subprocess is spawned and nothing is recorded. *)
Theorem tee_invalid_region_spawns_nothing (s : State)
    (bboxes : list (string * BBox coord)) (workers : Z) (outpath : string) :
  (∃ nb, nb ∈ bboxes ∧ validate_bbox E nb.2 ≠ None) →
  ∃ nb e, nb ∈ bboxes ∧ validate_bbox E nb.2 = Some e ∧
    PlanetExtractorOsmosis.extract_bboxes E bboxes workers outpath s
    = (Raise e, s).
Proof.
  intros Hbad. unfold PlanetExtractorOsmosis.extract_bboxes. msimpl.
  destruct (tee_fold_invalid outpath bboxes
              ([] ++ ["--read-pbf-fast"; osmpath (self s);
                      "workers=" +:+ pretty workers]
                  ++ ["--tee"; pretty (length bboxes)]) s Hbad)
    as (nb & e & Hin & Hv & Hrun).
  exists nb, e. split; [done|]. split; [done|].
  rewrite bind_run. simpl app in *. by rewrite Hrun.
Qed.
End Tee.

Lemma tee_invalid_region_spawns_nothing_witness :
  ∃ nb e,
    nb ∈ Sample.one_bad_region ∧ Sample.valid_bbox nb.2 = Some e ∧
    PlanetExtractorOsmosis.extract_bboxes (Sample.env Sample.run_direct [])
      Sample.one_bad_region 1 "out"
      (Sample.state Sample.planet Sample.fs_snapshot)
    = (Raise e, Sample.state Sample.planet Sample.fs_snapshot).
Proof.
  apply (tee_invalid_region_spawns_nothing (Sample.env Sample.run_direct [])).
  exists ("south", mkBBox 10 50 0 40)%Z. split.
  - right. left.
  - vm_compute. discriminate.
Defined.

Lemma for_each_app {A} (xs ys : list A) (body : A → M unit) (s : State) :
  for_each (xs ++ ys) body s
  = match for_each xs body s with
    | (Ok _, s1) => for_each ys body s1
    | (Raise e, s1) => (Raise e, s1)
    end.
Proof.
  revert s. induction xs as [|x xs IH]; intros s; simpl; [done|].
  rewrite !bind_run. destruct (body x s) as [[[]|e] s1]; [apply IH|done].
Qed.

Section Sequential.
Context {coord : Type} (E : Env coord).

(** One region in the sequential variant, when [command] spawns. *)
Lemma sequential_extract_bbox_run (s : State) (outpath : string)
    (nb : string * BBox coord) :
  command_ (self s) = Subprocess →
  PlanetExtractorOsmconvert.extract_bbox E nb.1 nb.2 outpath s
  = match validate_bbox E nb.2 with
    | Some e => (Raise e, s)
    | None =>
        let args := sequential_args E s outpath nb in
        let '(out, fs') := tool E args (fs s) in
        (match out with
         | Some _ => Ok tt
         | None => Raise (CalledProcessError args)
         end, emit (Spawn args) (set_fs fs' s))
    end.
Proof.
  intros Hcmd. unfold PlanetExtractorOsmconvert.extract_bbox.
  rewrite bind_run, validate_run.
  destruct (validate_bbox E nb.2); [done|]. msimpl.
  unfold PlanetBase.osmconvert, sequential_args. rewrite bind_run.
  destruct (tool E _ (fs s)) as [[o|] fs'] eqn:Ht.
  - by rewrite (command_ok E _ _ _ _ Hcmd Ht).
  - by rewrite (command_fail E _ _ _ Hcmd Ht).
Qed.

(** A completed pass over a list of regions has spawned one invocation per
    region, in order, and left the instance as it was. *)
Lemma sequential_completed (bboxes : list (string * BBox coord))
    (workers : Z) (outpath : string) (s s1 : State) :
  command_ (self s) = Subprocess →
  PlanetExtractorOsmconvert.extract_bboxes E bboxes workers outpath s
  = (Ok tt, s1) →
  self s1 = self s
  ∧ trace s1 = trace s ++ map (λ nb, Spawn (sequential_args E s outpath nb)) bboxes.
Proof.
  unfold PlanetExtractorOsmconvert.extract_bboxes.
  revert s. induction bboxes as [|nb bboxes IH]; intros s Hcmd; simpl.
  - intros [= <-]. by rewrite app_nil_r.
  - rewrite bind_run, (sequential_extract_bbox_run s outpath nb Hcmd).
    destruct (validate_bbox E nb.2); [done|]. simpl.
    destruct (tool E _ (fs s)) as [[o|] fs'] eqn:Ht; [|done].
    intros Hrest. apply IH in Hrest as [Hself Htrace]; [|done].
    split; [done|]. rewrite Htrace. simpl. rewrite <- app_assoc. simpl.
    unfold sequential_args. simpl. done.
Qed.

(** C3, as the code has it: once the regions before it have completed, a
    region whose rectangle is valid and whose invocation exits non-zero
    makes [extract_bboxes] raise [CalledProcessError] right after that
    invocation; the regions after it are not attempted: the resulting state
    does not depend on them, and the trace ends with the failed
    invocation. *)
Theorem sequential_failure_aborts_later_regions (s s1 : State)
    (before after : list (string * BBox coord)) (nb : string * BBox coord)
    (workers : Z) (outpath : string) (fs' : gmap string node) :
  command_ (self s) = Subprocess →
  PlanetExtractorOsmconvert.extract_bboxes E before workers outpath s
  = (Ok tt, s1) →
  validate_bbox E nb.2 = None →
  tool E (sequential_args E s outpath nb) (fs s1) = (None, fs') →
  PlanetExtractorOsmconvert.extract_bboxes E (before ++ nb :: after)
    workers outpath s
  = (Raise (CalledProcessError (sequential_args E s outpath nb)),
     emit (Spawn (sequential_args E s outpath nb)) (set_fs fs' s1))
  ∧ trace s1
    = trace s ++ map (λ nb, Spawn (sequential_args E s outpath nb)) before.
Proof.
  intros Hcmd Hbefore Hvalid Hfail.
  destruct (sequential_completed before workers outpath s s1 Hcmd Hbefore)
    as [Hself Htrace].
  split; [|done].
  unfold PlanetExtractorOsmconvert.extract_bboxes in *.
  rewrite for_each_app, Hbefore. simpl for_each.
  rewrite bind_run, sequential_extract_bbox_run by (by rewrite Hself).
  rewrite Hvalid. unfold sequential_args in *. rewrite Hself. simpl.
  by rewrite Hfail.
Qed.
End Sequential.

Lemma sequential_failure_aborts_later_regions_witness :
  let E := Sample.env Sample.run_failing [] in
  let s := Sample.state Sample.planet Sample.fs_snapshot in
  PlanetExtractorOsmconvert.extract_bboxes E
    ([] ++ ("north", mkBBox 0 50 10 60)%Z :: [("south", mkBBox 0 40 10 50)%Z])
    1 "out" s
  = (Raise (CalledProcessError
              ["osmconvert"; "/data/planet.osm.pbf"; "-b=0,50,10,60";
               "-o=out/north.osm.pbf"]),
     emit (Spawn ["osmconvert"; "/data/planet.osm.pbf"; "-b=0,50,10,60";
                  "-o=out/north.osm.pbf"]) s).
Proof.
  intros E s.
  apply (sequential_failure_aborts_later_regions E s s []
           [("south", mkBBox 0 40 10 50)%Z] ("north", mkBBox 0 50 10 60)%Z
           1 "out" Sample.fs_snapshot);
    reflexivity.
Defined.

(** C3 as worded fails: with a tool that exits non-zero, the invocation
    for the first of two regions is issued and the one for the second is
    not. *)
Lemma regions_independent_counterexample :
  ¬ regions_independent (Sample.env Sample.run_failing [])
      (Sample.state Sample.planet Sample.fs_snapshot)
      Sample.two_regions "out".
Proof.
  intros H.
  specialize (H 0%nat _ _ eq_refl eq_refl). vm_compute in H.
  assert (Hin : ∀ x : event, x ∈ [x]) by (intros; left).
  specialize (H (Hin _)).
  apply list_elem_of_singleton in H. discriminate H.
Qed.

Section Osmium.
Context {coord : Type} (E : Env coord).

Lemma extract_entry_pure (name : string) (bbox : Feature coord) (s : State) :
  (PlanetExtractorOsmium.extract_entry name bbox s).2 = s
  ∧ (known_geometry bbox = true →
     ∃ ext, PlanetExtractorOsmium.extract_entry name bbox s = (Ok ext, s)).
Proof.
  unfold PlanetExtractorOsmium.extract_entry, known_geometry.
  destruct (PlanetExtractorOsmium.type_is _ "LineString"); [by eauto|].
  destruct (PlanetExtractorOsmium.type_is _ "Polygon"); [by eauto|].
  destruct (PlanetExtractorOsmium.type_is _ "MultiPolygon"); [by eauto|].
  done.
Qed.

(** The loop that builds the manifest touches nothing, and completes when
    every geometry type is known. *)
Lemma manifest_loop_known (bboxes : list (string * Feature coord))
    (acc : list (json coord)) (s : State) :
  Forall (λ nb, known_geometry nb.2 = true) bboxes →
  ∃ extracts,
    fold_m (λ extracts nb,
              ext <- PlanetExtractorOsmium.extract_entry nb.1 nb.2 ;;
              ret (extracts ++ [JObj ext]))
           acc bboxes s
    = (Ok extracts, s)
    ∧ length extracts = (length acc + length bboxes)%nat.
Proof.
  intros Hknown. revert acc.
  induction Hknown as [|nb bboxes Hnb _ IH]; intros acc; simpl.
  - exists acc. split; [done|lia].
  - destruct (proj2 (extract_entry_pure nb.1 nb.2 s) Hnb) as [ext Hext].
    rewrite !bind_run, Hext. msimpl.
    destruct (IH (acc ++ [JObj ext])) as (extracts & Hrun & Hlen).
    exists extracts. split; [done|]. rewrite Hlen, length_app. simpl. lia.
Qed.

Lemma extract_entry_unknown (name : string) (bbox : Feature coord) (s : State) :
  known_geometry bbox = false →
  PlanetExtractorOsmium.extract_entry name bbox s
  = (Raise (Exception "unknown geometry type for extract"), s).
Proof.
  unfold PlanetExtractorOsmium.extract_entry, known_geometry.
  destruct (PlanetExtractorOsmium.type_is _ "LineString"); [done|].
  destruct (PlanetExtractorOsmium.type_is _ "Polygon"); [done|].
  by destruct (PlanetExtractorOsmium.type_is _ "MultiPolygon").
Qed.

Lemma extract_entry_known (name : string) (bbox : Feature coord) (s : State) :
  known_geometry bbox = true →
  PlanetExtractorOsmium.extract_entry name bbox s
  = (Ok (manifest_fields (name, bbox)), s).
Proof.
  unfold PlanetExtractorOsmium.extract_entry, known_geometry, manifest_fields,
    geometry_key, geometry_value.
  simpl fst. simpl snd.
  destruct (PlanetExtractorOsmium.type_is _ "LineString"); [done|].
  destruct (PlanetExtractorOsmium.type_is _ "Polygon"); [done|].
  by destruct (PlanetExtractorOsmium.type_is _ "MultiPolygon").
Qed.

Lemma manifest_loop_unknown (bboxes : list (string * Feature coord))
    (acc : list (json coord)) (s : State) :
  (∃ nb, nb ∈ bboxes ∧ known_geometry nb.2 = false) →
  fold_m (λ extracts nb,
            ext <- PlanetExtractorOsmium.extract_entry nb.1 nb.2 ;;
            ret (extracts ++ [JObj ext]))
         acc bboxes s
  = (Raise (Exception "unknown geometry type for extract"), s).
Proof.
  revert acc. induction bboxes as [|nb bboxes IH]; intros acc [bad [Hin Hbad]].
  - by apply elem_of_nil in Hin.
  - simpl fold_m. rewrite !bind_run.
    destruct (known_geometry nb.2) eqn:Hk.
    + rewrite (extract_entry_known nb.1 nb.2 s Hk). msimpl. apply IH.
      apply elem_of_cons in Hin as [->|Hin]; [congruence|]. by exists bad.
    + by rewrite extract_entry_unknown.
Qed.

Lemma manifest_loop_entries (bboxes : list (string * Feature coord))
    (acc : list (json coord)) (s : State) :
  Forall (λ nb, known_geometry nb.2 = true) bboxes →
  fold_m (λ extracts nb,
            ext <- PlanetExtractorOsmium.extract_entry nb.1 nb.2 ;;
            ret (extracts ++ [JObj ext]))
         acc bboxes s
  = (Ok (acc ++ map manifest_entry bboxes), s).
Proof.
  intros Hknown. revert acc.
  induction Hknown as [|nb bboxes Hnb _ IH]; intros acc; simpl.
  - by rewrite app_nil_r.
  - rewrite !bind_run, (extract_entry_known nb.1 nb.2 s Hnb). msimpl.
    rewrite IH, <- app_assoc. by destruct nb.
Qed.

(** C4, the failure path: with known geometries and an osmium invocation
    that exits non-zero without removing the manifest, [extract_bboxes]
    raises [CalledProcessError] and the temporary manifest is still on
    disk: the [os.unlink] after the call is never reached. *)
Theorem osmium_manifest_survives_failure (s : State) (strategy : string)
    (bboxes : list (string * Feature coord)) (workers : Z) (outpath : string) :
  let path := tmpname E (fs s) in
  command_ (self s) = Subprocess →
  Forall (λ nb, known_geometry nb.2 = true) bboxes →
  (∀ f, (tool E (osmium_args s strategy path) f).1 = None) →
  (∀ f, (tool E (osmium_args s strategy path) f).2 !! path = f !! path) →
  ∃ s',
    PlanetExtractorOsmium.extract_bboxes_with E strategy bboxes workers
      outpath s
    = (Raise (CalledProcessError (osmium_args s strategy path)), s')
    ∧ is_Some (fs s' !! path).
Proof.
  intros path Hcmd Hknown Hfail Hkeep.
  unfold PlanetExtractorOsmium.extract_bboxes_with.
  destruct (manifest_loop_known bboxes [] s Hknown) as (extracts & Hloop & _).
  rewrite bind_run, Hloop. unfold OS.named_temporary_file, OS.write_close.
  msimpl. fold path.
  set (fs1 := <[path := File _]> (<[path := File ""]> (fs s))).
  rewrite bind_run.
  pose proof (Hfail fs1) as Hnone. pose proof (Hkeep fs1) as Hsame.
  unfold osmium_args in *.
  destruct (tool E _ fs1) as [out fs2] eqn:Ht. simpl in Hnone, Hsame.
  subst out. erewrite command_fail; [|done|exact Ht].
  eexists. split; [done|]. simpl. rewrite Hsame. unfold fs1.
  rewrite lookup_insert_eq. eauto.
Qed.

(** The success path: when the invocation exits with zero and leaves the
    manifest in place, the manifest is gone afterwards. *)
Lemma osmium_manifest_removed_on_success (s : State) (strategy : string)
    (bboxes : list (string * Feature coord)) (workers : Z) (outpath : string) :
  let path := tmpname E (fs s) in
  command_ (self s) = Subprocess →
  Forall (λ nb, known_geometry nb.2 = true) bboxes →
  (∀ f, is_Some (tool E (osmium_args s strategy path) f).1) →
  (∀ f, (tool E (osmium_args s strategy path) f).2 !! path = f !! path) →
  ∃ s',
    PlanetExtractorOsmium.extract_bboxes_with E strategy bboxes workers
      outpath s
    = (Ok tt, s')
    ∧ fs s' !! path = None.
Proof.
  intros path Hcmd Hknown Hok Hkeep.
  unfold PlanetExtractorOsmium.extract_bboxes_with.
  destruct (manifest_loop_known bboxes [] s Hknown) as (extracts & Hloop & _).
  rewrite bind_run, Hloop. unfold OS.named_temporary_file, OS.write_close.
  msimpl. fold path.
  set (fs1 := <[path := File _]> (<[path := File ""]> (fs s))).
  rewrite bind_run.
  pose proof (Hok fs1) as [o Ho]. pose proof (Hkeep fs1) as Hsame.
  unfold osmium_args in *.
  destruct (tool E _ fs1) as [out fs2] eqn:Ht. simpl in Ho, Hsame.
  subst out. erewrite command_ok; [|done|exact Ht].
  unfold OS.unlink. msimpl. rewrite Hsame. unfold fs1.
  rewrite lookup_insert_eq. msimpl.
  eexists. split; [done|]. simpl. by rewrite lookup_delete_eq.
Qed.
End Osmium.

Lemma osmium_manifest_survives_failure_witness :
  ∃ s',
    PlanetExtractorOsmium.extract_bboxes_with
      (Sample.env Sample.run_failing []) "complete_ways"
      [("track", line_feature)] 1 "out"
      (Sample.state Sample.planet Sample.fs_snapshot)
    = (Raise (CalledProcessError
                ["osmium"; "extract"; "-s"; "complete_ways"; "-c";
                 "/tmp/tmpmanifest"; "/data/planet.osm.pbf"]), s')
    ∧ is_Some (fs s' !! "/tmp/tmpmanifest").
Proof.
  apply (osmium_manifest_survives_failure
           (Sample.env Sample.run_failing []) 
           (Sample.state Sample.planet Sample.fs_snapshot) "complete_ways"
           [("track", line_feature)] 1 "out").
  - reflexivity.
  - repeat constructor.
  - reflexivity.
  - reflexivity.
Defined.

(** ** The recording closure of [extract_commands] *)

Lemma alter_append_nil {A} (r : nat) (h : list (list A)) :
  alter (λ l, l ++ []) r h = h.
Proof. apply list_alter_id. intros l. apply app_nil_r. Qed.

Lemma alter_append_twice {A} (r : nat) (h : list (list A)) (vs ws : list A) :
  alter (λ l, l ++ ws) r (alter (λ l, l ++ vs) r h)
  = alter (λ l, l ++ (vs ++ ws)) r h.
Proof.
  rewrite list_alter_alter_eq. apply list_alter_ext; [|done].
  intros l _. simpl. by rewrite app_assoc.
Qed.

Lemma then_ret_run {A B} (m : M A) (b : B) (s : State) :
  (m ;;; ret b) s
  = (match (m s).1 with Ok _ => Ok b | Raise e => Raise e end, (m s).2).
Proof. rewrite bind_run. by destruct (m s) as [[a|e] s']. Qed.

Section Recording.
Context {coord : Type} (E : Env coord).

Lemma tee_fold_pure (outpath : string) (bboxes : list (string * BBox coord))
    (args : list string) (s : State) :
  (fold_m (λ args nb,
             validate E nb.2 ;;;
             ret (args ++ PlanetExtractorOsmosis.region_args E outpath nb.1 nb.2))
          args bboxes s).2 = s.
Proof.
  revert args. induction bboxes as [|nb bboxes IH]; intros args; [done|].
  simpl fold_m. rewrite !bind_run, validate_run.
  destruct (validate_bbox E nb.2); [done|]. apply IH.
Qed.

Lemma tee_records_only : records_only (PlanetExtractorOsmosis.extract_bboxes E).
Proof.
  intros s r bboxes workers outpath Hcmd.
  unfold PlanetExtractorOsmosis.extract_bboxes. msimpl. rewrite bind_run.
  match goal with |- context [fold_m ?b ?a bboxes s] =>
    pose proof (tee_fold_pure outpath bboxes a s) as Hpure;
    destruct (fold_m b a bboxes s) as [[args|e] s1] end;
    simpl in Hpure; subst s1.
  - unfold PlanetBase.osmosis. rewrite then_ret_run.
    rewrite (command_recorded E _ _ _ Hcmd). simpl. eauto.
  - simpl. repeat split; [done..|]. exists []. by rewrite alter_append_nil.
Qed.

Lemma sequential_extract_bbox_recorded (s : State) (r : nat)
    (outpath : string) (nb : string * BBox coord) :
  command_ (self s) = Recorder r →
  PlanetExtractorOsmconvert.extract_bbox E nb.1 nb.2 outpath s
  = match validate_bbox E nb.2 with
    | Some e => (Raise e, s)
    | None =>
        (Ok tt,
         set_heap (alter (λ l, l ++ [sequential_args E s outpath nb]) r
                     (heap s)) s)
    end.
Proof.
  intros Hcmd. unfold PlanetExtractorOsmconvert.extract_bbox.
  rewrite bind_run, validate_run.
  destruct (validate_bbox E nb.2); [done|]. msimpl.
  unfold PlanetBase.osmconvert. rewrite then_ret_run.
  by rewrite (command_recorded E _ _ _ Hcmd).
Qed.

Lemma sequential_records_only :
  records_only (PlanetExtractorOsmconvert.extract_bboxes E).
Proof.
  intros s r bboxes workers outpath. cbv zeta.
  unfold PlanetExtractorOsmconvert.extract_bboxes.
  revert s. induction bboxes as [|nb bboxes IH]; intros s Hcmd.
  - simpl. repeat split; [done..|]. exists []. by rewrite alter_append_nil.
  - simpl for_each.
    rewrite bind_run, (sequential_extract_bbox_recorded s r outpath nb Hcmd).
    destruct (validate_bbox E nb.2).
    { simpl. repeat split; [done..|]. exists []. by rewrite alter_append_nil. }
    match goal with |- context [for_each bboxes ?b ?s1] =>
      destruct (IH s1) as (Ht & Hs & vs & Hh); [done|] end.
    rewrite Ht, Hs, Hh. simpl. repeat split; [done..|].
    eexists. apply alter_append_twice.
Qed.

Lemma manifest_loop_pure (bboxes : list (string * Feature coord))
    (acc : list (json coord)) (s : State) :
  (fold_m (λ extracts nb,
             ext <- PlanetExtractorOsmium.extract_entry nb.1 nb.2 ;;
             ret (extracts ++ [JObj ext]))
          acc bboxes s).2 = s.
Proof.
  revert acc. induction bboxes as [|nb bboxes IH]; intros acc; [done|].
  simpl fold_m. rewrite !bind_run.
  pose proof (proj1 (extract_entry_pure nb.1 nb.2 s)) as Hpure.
  destruct (PlanetExtractorOsmium.extract_entry _ _ s) as [[ext|e] s1].
  - simpl in Hpure. subst s1. msimpl. apply IH.
  - done.
Qed.

Lemma osmium_records_only (strategy : string) :
  records_only (PlanetExtractorOsmium.extract_bboxes_with E strategy).
Proof.
  intros s r bboxes workers outpath Hcmd.
  unfold PlanetExtractorOsmium.extract_bboxes_with. rewrite bind_run.
  pose proof (manifest_loop_pure bboxes [] s) as Hpure.
  destruct (fold_m _ [] bboxes s) as [[extracts|e] s1];
    simpl in Hpure; subst s1.
  - unfold OS.named_temporary_file, OS.write_close. msimpl.
    rewrite bind_run. erewrite command_recorded by exact Hcmd.
    unfold OS.unlink. msimpl. rewrite lookup_insert_eq. msimpl. simpl.
    eauto.
  - simpl. repeat split; [done..|]. exists []. by rewrite alter_append_nil.
Qed.
End Recording.

Lemma records_only_installs {R}
    (extract_bboxes : list (string * R) → Z → string → M unit) :
  records_only extract_bboxes → recorder_installed extract_bboxes.
Proof.
  intros Hrec s bboxes workers outpath. cbv zeta.
  unfold PlanetExtractor.extract_commands. msimpl.
  rewrite then_ret_run. cbn [fst snd].
  set (s0 := set_self _ _).
  destruct (Hrec s0 (length (heap s)) bboxes workers outpath eq_refl)
    as (Ht & Hs & vs & Hh).
  assert (Hheap : heap (extract_bboxes bboxes workers outpath s0).2
                  = heap s ++ [vs]).
  { rewrite Hh. unfold s0. simpl.
    rewrite <- (Nat.add_0_r (length (heap s))), alter_app_r. done. }
  split; [by rewrite Ht|]. split; [by rewrite Hs|]. split.
  { destruct (extract_bboxes bboxes workers outpath s0).1; [|done].
    by intros r [= <-]. }
  split; [by eexists|].
  intros bboxes' workers' outpath'.
  destruct (Hrec (extract_bboxes bboxes workers outpath s0).2
              (length (heap s)) bboxes' workers' outpath')
    as (Ht' & Hs' & vs' & Hh'); [by rewrite Hs|].
  split; [done|]. split; [by rewrite Hs', Hs|]. by exists vs'.
Qed.

Section RecordingExactly.
Context {coord : Type} (E : Env coord).

Lemma valid_all (bboxes : list (string * BBox coord)) :
  forallb (valid E) bboxes = true →
  Forall (λ nb, validate_bbox E nb.2 = None) bboxes.
Proof.
  induction bboxes as [|nb bboxes IH]; simpl; [constructor|].
  unfold valid at 1. destruct (validate_bbox E nb.2) eqn:Hv; [done|].
  intros Hrest. constructor; auto.
Qed.

Lemma valid_some (bboxes : list (string * BBox coord)) :
  forallb (valid E) bboxes = false →
  ∃ nb, nb ∈ bboxes ∧ validate_bbox E nb.2 ≠ None.
Proof.
  induction bboxes as [|nb bboxes IH]; simpl; [done|].
  unfold valid at 1. destruct (validate_bbox E nb.2) eqn:Hv; simpl.
  - intros _. exists nb. split; [left|congruence].
  - intros Hrest. destruct (IH Hrest) as (bad & Hin & Hbad).
    exists bad. split; [by right|done].
Qed.

Lemma known_all (bboxes : list (string * Feature coord)) :
  forallb known bboxes = true →
  Forall (λ nb, known_geometry nb.2 = true) bboxes.
Proof.
  induction bboxes as [|nb bboxes IH]; simpl; [constructor|].
  unfold known at 1. destruct (known_geometry nb.2) eqn:Hk; [|done].
  intros Hrest. constructor; auto.
Qed.

Lemma known_some (bboxes : list (string * Feature coord)) :
  forallb known bboxes = false →
  ∃ nb, nb ∈ bboxes ∧ known_geometry nb.2 = false.
Proof.
  induction bboxes as [|nb bboxes IH]; simpl; [done|].
  unfold known at 1. destruct (known_geometry nb.2) eqn:Hk; simpl.
  - intros Hrest. destruct (IH Hrest) as (bad & Hin & Hbad).
    exists bad. split; [by right|done].
  - intros _. exists nb. split; [left|done].
Qed.

Lemma tee_records_exactly :
  records_exactly (PlanetExtractorOsmosis.extract_bboxes E) (tee_vectors E)
    (valid E).
Proof.
  intros s r bboxes workers outpath Hcmd. cbv zeta. unfold tee_vectors.
  unfold PlanetExtractorOsmosis.extract_bboxes. msimpl. rewrite bind_run.
  destruct (forallb (valid E) bboxes) eqn:Hall.
  - rewrite (tee_fold_valid E) by by apply valid_all.
    unfold PlanetBase.osmosis.
    rewrite then_ret_run, (command_recorded E _ _ _ Hcmd).
    unfold tee_args. simpl app. simpl.
    split; [done|]. split; [done|]. split; [done|]. split; done.
  - destruct (tee_fold_invalid E outpath bboxes
                ([] ++ ["--read-pbf-fast"; osmpath (self s);
                        "workers=" +:+ pretty workers]
                    ++ ["--tee"; pretty (length bboxes)]) s
                (valid_some bboxes Hall))
      as (nb & e & _ & _ & Hrun).
    simpl app in Hrun |- *. rewrite Hrun. simpl. rewrite alter_append_nil.
    split; [done|]. split; [done|]. split; [done|]. split; [done|].
    intros _. by exists e.
Qed.

Lemma sequential_records_exactly :
  records_exactly (PlanetExtractorOsmconvert.extract_bboxes E)
    (sequential_vectors E) (valid E).
Proof.
  intros s r bboxes workers outpath. cbv zeta.
  unfold PlanetExtractorOsmconvert.extract_bboxes, sequential_vectors.
  revert s. induction bboxes as [|nb bboxes IH]; intros s Hcmd.
  - simpl. rewrite alter_append_nil.
    split; [done|]. split; [done|]. split; [done|]. split; done.
  - simpl for_each.
    rewrite bind_run, (sequential_extract_bbox_recorded E s r outpath nb Hcmd).
    cbn [valid_prefix forallb].
    destruct (validate_bbox E nb.2) as [e|] eqn:Hv.
    { assert (Hnb : valid E nb = false) by (unfold valid; by rewrite Hv).
      rewrite Hnb. simpl. rewrite alter_append_nil.
      split; [done|]. split; [done|]. split; [done|]. split; [done|].
      intros _. by exists e. }
    match goal with |- context [for_each bboxes ?b ?s1] =>
      destruct (IH s1) as (Ht & Hs & Hh & Hok & Hbad); [done|] end.
    assert (Hnb : valid E nb = true) by (unfold valid; by rewrite Hv).
    rewrite Hnb. cbn [andb map]. rewrite Ht, Hs, Hh.
    split; [done|]. split; [done|]. split; [|split; done].
    cbn [heap set_heap]. by rewrite alter_append_twice.
Qed.

Lemma osmium_records_exactly (strategy : string) :
  records_exactly (PlanetExtractorOsmium.extract_bboxes_with E strategy)
    (osmium_vectors E strategy) known.
Proof.
  intros s r bboxes workers outpath Hcmd. cbv zeta. unfold osmium_vectors.
  unfold PlanetExtractorOsmium.extract_bboxes_with. rewrite bind_run.
  destruct (forallb known bboxes) eqn:Hall.
  - rewrite (manifest_loop_entries bboxes [] s (known_all bboxes Hall)).
    unfold OS.named_temporary_file, OS.write_close. msimpl.
    rewrite bind_run. erewrite command_recorded by exact Hcmd.
    unfold OS.unlink. msimpl. rewrite lookup_insert_eq. msimpl. simpl.
    split; [done|]. split; [done|]. split; [done|]. split; done.
  - rewrite (manifest_loop_unknown bboxes [] s (known_some bboxes Hall)).
    simpl. rewrite alter_append_nil.
    split; [done|]. split; [done|]. split; [done|]. split; [done|].
    intros _. by eexists.
Qed.
End RecordingExactly.

Lemma records_exactly_installs {R}
    (extract_bboxes : list (string * R) → Z → string → M unit)
    (vectors : State → list (string * R) → Z → string → list (list string))
    (passes : (string * R) → bool) :
  over_snapshot_and_files vectors →
  records_exactly extract_bboxes vectors passes →
  recorder_installed_exactly extract_bboxes vectors passes.
Proof.
  intros Hover Hrec. split; [|done].
  intros s bboxes workers outpath. cbv zeta.
  unfold PlanetExtractor.extract_commands. msimpl.
  rewrite then_ret_run. cbn [fst snd].
  set (s0 := set_self _ _).
  destruct (Hrec s0 (length (heap s)) bboxes workers outpath eq_refl)
    as (Ht & Hs & Hh & Hok & Hbad).
  assert (Hheap : heap (extract_bboxes bboxes workers outpath s0).2
                  = heap s ++ [vectors s bboxes workers outpath]).
  { rewrite Hh. unfold s0. simpl.
    rewrite <- (Nat.add_0_r (length (heap s))), alter_app_r. simpl.
    by rewrite (Hover _ s). }
  split; [by rewrite Ht|]. split; [by rewrite Hs|]. split; [done|].
  split; [intros Hp; by rewrite (Hok Hp)|].
  split; [intros Hp; destruct (Hbad Hp) as [e He]; exists e; by rewrite He|].
  intros bboxes' workers' outpath'.
  destruct (Hrec (extract_bboxes bboxes workers outpath s0).2
              (length (heap s)) bboxes' workers' outpath')
    as (Ht' & Hs' & Hh' & _); [by rewrite Hs|].
  split; [by rewrite Ht', Ht|]. split; [by rewrite Hs', Hs|].
  rewrite Hh', Hheap.
  by rewrite <- (Nat.add_0_r (length (heap s))), alter_app_r.
Qed.

(** C10: for each of the three extractor variants, [extract_commands]
    spawns nothing (the trace of spawned processes and requests is the one
    before the call), leaves the recording closure over a new list object
    in the instance's [command] attribute, and that list object holds
    exactly the argument vectors of the region set: the one tee vector, one
    vector per region for the sequential variant, the one vector with the
    manifest path for the osmium variant; the list object is the result
    when the regions pass the variant's checks (the call raises otherwise,
    with the closure still installed).  A following [extract_bboxes] on
    the instance adds nothing to the trace, keeps the closure and leaves in
    that same list object the vectors of both calls; and so does every
    later one: on any instance whose [command] is the recording closure,
    [extract_bboxes] adds nothing to the trace, keeps the instance's
    attributes and appends exactly its argument vectors to the closure's
    list object. *)
Theorem extract_commands_installs_recorder {coord : Type} (E : Env coord)
    (strategy : string) :
  recorder_installed_exactly (PlanetExtractorOsmosis.extract_bboxes E)
    (tee_vectors E) (valid E)
  ∧ recorder_installed_exactly (PlanetExtractorOsmconvert.extract_bboxes E)
      (sequential_vectors E) (valid E)
  ∧ recorder_installed_exactly
      (PlanetExtractorOsmium.extract_bboxes_with E strategy)
      (osmium_vectors E strategy) known.
Proof.
  split; [|split]; apply records_exactly_installs.
  - by intros s s' bboxes workers outpath Hp Hf;
      unfold tee_vectors, tee_args; rewrite Hp.
  - apply tee_records_exactly.
  - by intros s s' bboxes workers outpath Hp Hf;
      unfold sequential_vectors, sequential_args; rewrite Hp.
  - apply sequential_records_exactly.
  - by intros s s' bboxes workers outpath Hp Hf;
      unfold osmium_vectors, osmium_args; rewrite Hp, Hf.
  - apply osmium_records_exactly.
Qed.

Lemma extract_commands_installs_recorder_witness :
  let E := Sample.env Sample.run_failing [] in
  let s := Sample.state Sample.planet Sample.fs_snapshot in
  let run := PlanetExtractor.extract_commands
               (PlanetExtractorOsmconvert.extract_bboxes E)
               Sample.two_regions 1 "out" s in
  let again := PlanetExtractorOsmconvert.extract_bboxes E
                 Sample.two_regions 1 "out" run.2 in
  (run.1 = Ok 0%nat ∧ trace run.2 = [] ∧ command_ (self run.2) = Recorder 0
   ∧ heap run.2 = [sequential_vectors E s Sample.two_regions 1 "out"])
  ∧ (again.1 = Ok tt ∧ trace again.2 = []
     ∧ command_ (self again.2) = Recorder 0
     ∧ heap again.2
       = [sequential_vectors E s Sample.two_regions 1 "out"
          ++ sequential_vectors E s Sample.two_regions 1 "out"]).
Proof.
  intros E s run again.
  destruct (proj1 (proj2 (extract_commands_installs_recorder E
                            "complete_ways"))) as [Hinstall Hrecord].
  destruct (Hinstall s Sample.two_regions 1%Z "out")
    as (Htrace & Hcmd & Hheap & Hok & _ & _).
  destruct (Hrecord run.2 0%nat Sample.two_regions 1%Z "out" Hcmd)
    as (Htrace' & Hself' & Hheap' & Hok' & _).
  split.
  - split; [exact (Hok eq_refl)|]. split; [exact Htrace|].
    split; [exact Hcmd|exact Hheap].
  - split; [exact (Hok' eq_refl)|]. split; [exact (eq_trans Htrace' Htrace)|].
    split; [exact (eq_trans (f_equal command_ Hself') Hcmd)|].
    exact (eq_trans Hheap' eq_refl).
Defined.

(** What the three variants record for the sample regions: one vector in
    all for the tee variant, one per region for the sequential variant, one
    with the manifest path for the osmium variant. *)
Example extract_commands_tee :
  let run := PlanetExtractor.extract_commands
               (PlanetExtractorOsmosis.extract_bboxes
                  (Sample.env Sample.run_failing []))
               Sample.two_regions 4 "out"
               (Sample.state Sample.planet Sample.fs_snapshot) in
  run.1 = Ok 0%nat
  ∧ heap run.2
    = [[["osmosis"; "--read-pbf-fast"; "/data/planet.osm.pbf"; "workers=4";
         "--tee"; "2";
         "--bounding-box"; "left=0.00000"; "bottom=50.00000";
         "right=10.00000"; "top=60.00000"; "--write-pbf";
         "out/north.osm.pbf";
         "--bounding-box"; "left=0.00000"; "bottom=40.00000";
         "right=10.00000"; "top=50.00000"; "--write-pbf";
         "out/south.osm.pbf"]]].
Proof. split; vm_compute; reflexivity. Qed.

Example extract_commands_sequential :
  let run := PlanetExtractor.extract_commands
               (PlanetExtractorOsmconvert.extract_bboxes
                  (Sample.env Sample.run_failing []))
               Sample.two_regions 1 "out"
               (Sample.state Sample.planet Sample.fs_snapshot) in
  run.1 = Ok 0%nat
  ∧ heap run.2
    = [[["osmconvert"; "/data/planet.osm.pbf"; "-b=0,50,10,60";
         "-o=out/north.osm.pbf"];
        ["osmconvert"; "/data/planet.osm.pbf"; "-b=0,40,10,50";
         "-o=out/south.osm.pbf"]]].
Proof. split; vm_compute; reflexivity. Qed.

Example extract_commands_osmium :
  let run := PlanetExtractor.extract_commands
               (PlanetExtractorOsmium.extract_bboxes
                  (Sample.env Sample.run_failing []))
               [("track", line_feature)] 1 "out"
               (Sample.state Sample.planet Sample.fs_snapshot) in
  run.1 = Ok 0%nat
  ∧ heap run.2
    = [[["osmium"; "extract"; "-s"; "complete_ways"; "-c";
         "/tmp/tmpmanifest"; "/data/planet.osm.pbf"]]]
  ∧ fs run.2 !! "/tmp/tmpmanifest" = None.
Proof. repeat split; vm_compute; reflexivity. Qed.

(** A plain [extract_bboxes] after [extract_commands], with a tool that
    would fail: nothing is spawned, and the vector lands in the list object
    that the earlier [extract_commands] returned. *)
Example extract_after_extract_commands :
  let E := Sample.env Sample.run_failing [] in
  let run := PlanetExtractor.extract_commands
               (PlanetExtractorOsmconvert.extract_bboxes E)
               [("north", mkBBox 0 50 10 60)%Z] 1 "out"
               (Sample.state Sample.planet Sample.fs_snapshot) in
  let again := PlanetExtractorOsmconvert.extract_bboxes E
                 [("south", mkBBox 0 40 10 50)%Z] 1 "out" run.2 in
  again.1 = Ok tt
  ∧ trace again.2 = []
  ∧ heap again.2
    = [[["osmconvert"; "/data/planet.osm.pbf"; "-b=0,50,10,60";
         "-o=out/north.osm.pbf"];
        ["osmconvert"; "/data/planet.osm.pbf"; "-b=0,40,10,50";
         "-o=out/south.osm.pbf"]]].
Proof. repeat split; vm_compute; reflexivity. Qed.

(** ** The interval updater *)

Lemma path_join_relative (a b : string) :
  Py.startswith b "/" = false →
  ∃ sep, ∀ b', Py.startswith b' "/" = false → Py.path_join a b' = a +:+ sep +:+ b'.
Proof.
  intros _. unfold Py.path_join.
  destruct (String.eqb a "" || Py.ends_with_slash a).
  - exists "". by intros b' ->.
  - exists "/". by intros b' ->.
Qed.

Lemma app_length_string (a b : string) :
  String.length (a +:+ b) = (String.length a + String.length b)%nat.
Proof. induction a as [|c a IH]; simpl; [done|]. by rewrite <- IH. Qed.

Lemma statepath_not_workdir (s : State) :
  statepath s ≠ osmosis_workdir (self s).
Proof.
  unfold statepath.
  destruct (path_join_relative (osmosis_workdir (self s)) "state.txt" eq_refl)
    as [sep Hsep].
  rewrite Hsep by done. intros Heq.
  apply (f_equal String.length) in Heq.
  rewrite !app_length_string in Heq. simpl in Heq. lia.
Qed.

Lemma configpath_not_statepath (s : State) : configpath s ≠ statepath s.
Proof.
  unfold configpath, statepath.
  destruct (path_join_relative (osmosis_workdir (self s)) "state.txt" eq_refl)
    as [sep Hsep].
  rewrite !Hsep by done. intros Heq.
  do 2 apply String.app_inj in Heq. discriminate Heq.
Qed.

(** ** Paths and the file system *)

Lemma string_app_cons (c : ascii) (a b : string) :
  String c a +:+ b = String c (a +:+ b).
Proof. reflexivity. Qed.

Lemma string_app_assoc (a b c : string) : (a +:+ b) +:+ c = a +:+ (b +:+ c).
Proof.
  induction a as [|x a IH]; [done|].
  by rewrite !string_app_cons, IH.
Qed.

Lemma contains_slash_cons (c : ascii) (p : string) :
  Py.contains "/" (String c p) = false →
  Ascii.eqb c "/" = false ∧ Py.contains "/" p = false.
Proof.
  simpl. intros H. apply orb_false_iff in H as [Hhd Htl]. split; [|done].
  destruct (Ascii.eqb c "/") eqn:Hc; [|done].
  apply Ascii.eqb_eq in Hc as ->. simpl in Hhd. by destruct p.
Qed.

Lemma rsplit_slash_none (p : string) :
  Py.contains "/" p = false → Py.rsplit_slash p = None.
Proof.
  induction p as [|c p IH]; [done|]. intros H.
  apply contains_slash_cons in H as [Hc Hp]. simpl.
  by rewrite (IH Hp), Hc.
Qed.

Lemma rsplit_slash_last (d p : string) :
  Py.contains "/" p = false →
  Py.rsplit_slash (d +:+ String "/" p) = Some (d +:+ "/", p).
Proof.
  intros Hp. induction d as [|c d IH].
  - change (Py.rsplit_slash (String "/" p) = Some ("/", p)). simpl.
    by rewrite (rsplit_slash_none p Hp).
  - rewrite !string_app_cons. simpl. by rewrite IH.
Qed.

Lemma ends_with_slash_cons (c : ascii) (d : string) :
  d ≠ "" → Py.ends_with_slash (String c d) = Py.ends_with_slash d.
Proof. by destruct d. Qed.

Lemma head_not_all_slashes (d : string) :
  d ≠ "" → Py.ends_with_slash d = false →
  Py.all_slashes (d +:+ "/") = false ∧ Py.rstrip_slash (d +:+ "/") = d.
Proof.
  induction d as [|c d IH]; [done|]. intros _ Hend.
  rewrite string_app_cons. destruct d as [|c' d'].
  - simpl in Hend. change (String c "" +:+ "/") with (String c "/").
    simpl. by rewrite Hend.
  - rewrite ends_with_slash_cons in Hend by done.
    destruct (IH ltac:(done) Hend) as [Hall Hstrip].
    split.
    + change (Py.all_slashes (String c (String c' d' +:+ "/")))
        with (Ascii.eqb c "/" && Py.all_slashes (String c' d' +:+ "/")).
      by rewrite Hall, andb_false_r.
    + change (Py.rstrip_slash (String c (String c' d' +:+ "/")))
        with (match Py.rstrip_slash (String c' d' +:+ "/") with
              | "" => if Ascii.eqb c "/" then "" else String c ""
              | r => String c r
              end).
      by rewrite Hstrip.
Qed.

Lemma relative_name (p suffix : string) :
  Py.contains "/" p = false → Py.startswith suffix "/" = false →
  Py.startswith (p +:+ suffix) "/" = false.
Proof.
  intros Hp Hs. destruct p as [|c p]; [done|].
  apply contains_slash_cons in Hp as [Hc _].
  rewrite string_app_cons. unfold Py.startswith.
  change (String.prefix "/" (String c (p +:+ suffix)))
    with (if ascii_dec "/" c then String.prefix "" (p +:+ suffix) else false).
  destruct (ascii_dec "/" c) as [<-|]; [|done].
  by rewrite Ascii.eqb_refl in Hc.
Qed.

Lemma rsplit_slash_concat (p h t : string) :
  Py.rsplit_slash p = Some (h, t) → p = h +:+ t.
Proof.
  revert h t. induction p as [|c p IH]; intros h t; [done|]. simpl.
  destruct (Py.rsplit_slash p) as [[h' t']|].
  - intros [= <- <-]. by rewrite string_app_cons, <- (IH h' t').
  - destruct (Ascii.eqb c "/") eqn:Hc; [|done].
    apply Ascii.eqb_eq in Hc as ->. by intros [= <- <-].
Qed.

Lemma rstrip_slash_length (h : string) :
  (String.length (Py.rstrip_slash h) ≤ String.length h)%nat.
Proof.
  induction h as [|c h IH]; [done|]. simpl.
  destruct (Py.rstrip_slash h) as [|c' r].
  - destruct (Ascii.eqb c "/"); simpl; lia.
  - simpl in *. lia.
Qed.

Lemma dirname_length (p : string) :
  (String.length (Py.path_split p).1 ≤ String.length p)%nat.
Proof.
  unfold Py.path_split.
  destruct (Py.rsplit_slash p) as [[h t]|] eqn:Hsplit; [|simpl; lia].
  apply rsplit_slash_concat in Hsplit as ->. rewrite app_length_string.
  destruct (Py.all_slashes h); simpl; [lia|].
  pose proof (rstrip_slash_length h). lia.
Qed.

Lemma configpath_not_workdir (s : State) :
  configpath s ≠ osmosis_workdir (self s).
Proof.
  unfold configpath.
  destruct (path_join_relative (osmosis_workdir (self s)) "configuration.txt"
              eq_refl) as [sep Hsep].
  rewrite Hsep by done. intros Heq.
  apply (f_equal String.length) in Heq.
  rewrite !app_length_string in Heq. simpl in Heq. lia.
Qed.

Lemma opened_some (f f' : gmap string node) (p : string) :
  OS.opened f p = Some f' → f' = <[p := File ""]> f.
Proof.
  unfold OS.opened. destruct (Py.all_slashes p); [done|].
  destruct (f !! p) as [[|body]|]; [done| |];
    by destruct (OS.is_directory f (OS.dirname p)); intros [= <-].
Qed.

Lemma mkdir_only_adds (name : string) (f : gmap string node) (q : string) :
  (OS.mkdir name f).2 !! q = f !! q
  ∨ (q = name ∧ f !! q = None ∧ (OS.mkdir name f).2 !! q = Some Dir).
Proof.
  unfold OS.mkdir. destruct (String.eqb name ""); [by left|].
  destruct (Py.all_slashes name); [by left|].
  destruct (f !! name) eqn:Hname; [by left|].
  destruct (OS.is_directory f (OS.dirname name)); [|by left]. simpl.
  destruct (decide (q = name)) as [->|Hne].
  - right. by rewrite lookup_insert_eq.
  - left. by rewrite lookup_insert_ne.
Qed.

(** [os.makedirs] only adds directories, at free paths that are no longer
    than the one it was asked for. *)
Lemma makedirs_upto_only_adds (n : nat) (name : string)
    (f : gmap string node) (q : string) :
  (OS.makedirs_upto n name f).2 !! q = f !! q
  ∨ ((String.length q ≤ String.length name)%nat
     ∧ f !! q = None ∧ (OS.makedirs_upto n name f).2 !! q = Some Dir).
Proof.
  revert name f. induction n as [|n IH]; intros name f.
  - simpl. destruct (Py.path_split name) as [head tail].
    destruct (if String.eqb tail "" then Py.path_split head else (head, tail))
      as [head' tail'].
    destruct (_ && _); [by left|].
    destruct (mkdir_only_adds name f q) as [?|(-> & ? & ?)]; [by left|].
    right. split; [lia|done].
  - simpl.
    pose proof (dirname_length name) as Hlen1.
    destruct (Py.path_split name) as [head tail] eqn:Hsplit.
    assert (Hhead : ∀ head' tail',
              (if String.eqb tail "" then Py.path_split head else (head, tail))
              = (head', tail') →
              (String.length head' ≤ String.length name)%nat).
    { intros head' tail'. pose proof (dirname_length head) as Hlen2.
      simpl in Hlen1. destruct (String.eqb tail "").
      - intros Heq. rewrite Heq in Hlen2. simpl in Hlen2. lia.
      - intros [= <- <-]. done. }
    destruct (if String.eqb tail "" then Py.path_split head else (head, tail))
      as [head' tail'].
    specialize (Hhead head' tail' eq_refl).
    destruct (_ && _).
    + destruct (IH head' f) as [Hsame|(Hlen & Hfree & Hdir)].
      * destruct (OS.makedirs_upto n head' f) as [[| |] f1]; simpl in *.
        -- destruct (String.eqb tail' "."); simpl; [by left|].
           destruct (mkdir_only_adds name f1 q) as [Hq|(-> & Hq1 & Hq2)].
           ++ left. by rewrite Hq.
           ++ right. split; [lia|]. split; [by rewrite <- Hsame|done].
        -- destruct (String.eqb tail' "."); simpl; [by left|].
           destruct (mkdir_only_adds name f1 q) as [Hq|(-> & Hq1 & Hq2)].
           ++ left. by rewrite Hq.
           ++ right. split; [lia|]. split; [by rewrite <- Hsame|done].
        -- by left.
      * destruct (OS.makedirs_upto n head' f) as [[| |] f1]; simpl in *.
        -- destruct (String.eqb tail' "."); simpl.
           { right. split; [lia|done]. }
           destruct (mkdir_only_adds name f1 q) as [Hq|(-> & Hq1 & Hq2)].
           ++ right. split; [lia|]. split; [done|]. by rewrite Hq.
           ++ congruence.
        -- destruct (String.eqb tail' "."); simpl.
           { right. split; [lia|done]. }
           destruct (mkdir_only_adds name f1 q) as [Hq|(-> & Hq1 & Hq2)].
           ++ right. split; [lia|]. split; [done|]. by rewrite Hq.
           ++ congruence.
        -- right. split; [lia|done].
    + destruct (mkdir_only_adds name f q) as [?|(-> & ? & ?)]; [by left|].
      right. split; [lia|done].
Qed.

Lemma makedirs_frame (name : string) (f : gmap string node) (q : string) :
  (String.length name < String.length q)%nat →
  (OS.makedirs name f).2 !! q = f !! q.
Proof.
  intros Hlen. unfold OS.makedirs.
  destruct (makedirs_upto_only_adds (String.length name) name f q)
    as [?|(? & _)]; [done|lia].
Qed.

Lemma makedirs_keeps (name : string) (f : gmap string node) (q : string)
    (n : node) :
  f !! q = Some n → (OS.makedirs name f).2 !! q = Some n.
Proof.
  intros Hq. unfold OS.makedirs.
  destruct (makedirs_upto_only_adds (String.length name) name f q)
    as [->|(_ & ? & _)]; [done|congruence].
Qed.

Lemma makedirs_free_or_directory (name : string) (f : gmap string node)
    (q : string) :
  f !! q = None →
  (OS.makedirs name f).2 !! q = None ∨ (OS.makedirs name f).2 !! q = Some Dir.
Proof.
  intros Hq. unfold OS.makedirs.
  destruct (makedirs_upto_only_adds (String.length name) name f q)
    as [->|(_ & _ & ->)]; [by left|by right].
Qed.

Lemma joined_longer (a : string) (b : string) :
  Py.startswith b "/" = false → b ≠ "" →
  (String.length a < String.length (Py.path_join a b))%nat.
Proof.
  intros Hrel Hb. destruct (path_join_relative a b Hrel) as [sep Hsep].
  rewrite Hsep by done. rewrite !app_length_string.
  destruct b; [done|]. simpl. lia.
Qed.

Lemma configpath_longer (s : State) :
  (String.length (osmosis_workdir (self s)) < String.length (configpath s))%nat.
Proof. by apply joined_longer. Qed.

Lemma statepath_longer (s : State) :
  (String.length (osmosis_workdir (self s)) < String.length (statepath s))%nat.
Proof. by apply joined_longer. Qed.

Section Updater.
Context {coord : Type} (E : Env coord).

Lemma command_spawn_run (args : list string) (s : State) :
  command_ (self s) = Subprocess →
  PlanetBase.command E args s
  = (match (tool E args (fs s)).1 with
     | Some o => Ok (PStr o)
     | None => Raise (CalledProcessError args)
     end,
     emit (Spawn args) (set_fs (tool E args (fs s)).2 s)).
Proof.
  intros Hcmd. destruct (tool E args (fs s)) as [[o|] fs'] eqn:Ht; simpl.
  - by apply command_ok.
  - by apply command_fail.
Qed.

(** A completed [get_timestamp] ran the timestamp mode, and the statistics
    mode after it on the fallback path; only the tools changed files. *)
Lemma get_timestamp_completed (s s1 : State) (ts : string) :
  command_ (self s) = Subprocess →
  PlanetBase.get_timestamp E s = (Ok ts, s1) →
  self s1 = self s
  ∧ ((trace s1 = trace s ++ [Spawn (timestamp_args s)]
      ∧ fs s1 = (tool E (timestamp_args s) (fs s)).2)
     ∨ (trace s1 = trace s ++ [Spawn (timestamp_args s);
                               Spawn (statistics_args s)]
        ∧ fs s1 = (tool E (statistics_args s)
                     (tool E (timestamp_args s) (fs s)).2).2)).
Proof.
  intros Hcmd. unfold PlanetBase.get_timestamp, PlanetBase.osmconvert.
  unfold timestamp_args, statistics_args. msimpl.
  rewrite bind_run, command_spawn_run by done.
  destruct (tool E _ (fs s)) as [[out|] fs1]; [|done]. cbn [fst snd].
  destruct (Py.contains "invalid" out).
  - rewrite bind_run, command_spawn_run by done. msimpl.
    destruct (tool E _ fs1) as [[st|] fs2]; [|done]. cbn [fst snd].
    destruct (PlanetBase.timestamp_max_values st); [done|].
    intros [= _ <-]. split; [done|]. right. simpl.
    by rewrite <- app_assoc.
  - intros [= _ <-]. split; [done|]. by left.
Qed.

(** A completed bootstrap of a workdir without configuration spawned the
    initializer once and wrote the configuration body last. *)
Lemma initialize_completed (s s1 : State) :
  command_ (self s) = Subprocess →
  fs s !! configpath s = None →
  PlanetUpdaterOsmosis._initialize E s = (Ok tt, s1) →
  ∃ url fs1,
    changeset_url (self s) = Some url
    ∧ self s1 = self s
    ∧ trace s1 = trace s ++ [Spawn (init_args s)]
    ∧ fs1 = (tool E (init_args s) (fs_with_workdir s)).2
    ∧ fs s1 = <[configpath s := File (PlanetUpdaterOsmosis.configuration_body url)]>
                (<[configpath s := File ""]> fs1).
Proof.
  intros Hcmd Habsent. unfold PlanetUpdaterOsmosis._initialize.
  unfold configpath, init_args, PlanetUpdaterOsmosis.init_args,
    fs_with_workdir in *.
  msimpl. rewrite bind_run, path_exists_run, Habsent.
  rewrite bind_run, path_exists_run, bind_run, path_isdir_run.
  match goal with |- context [if ?c then _ else _] => destruct c end;
    [done|].
  unfold OS.makedirs_quiet. rewrite bind_run. msimpl.
  unfold PlanetBase.osmosis. rewrite bind_run, command_spawn_run by done.
  cbn [fs set_fs].
  destruct (tool E _ _) as [[o|] fs1]; [|done]. cbn [fst snd].
  unfold OS.open_w. rewrite bind_run. msimpl.
  destruct (OS.opened fs1 _) as [f'|] eqn:Hopen; [|done].
  apply opened_some in Hopen as ->. msimpl.
  destruct (changeset_url (self s)) as [url|]; [|done].
  unfold OS.write_close. msimpl. intros [= <-]. by exists url, fs1.
Qed.
End Updater.

Section Pipeline.
Context {coord : Type} (E : Env coord).

(** C2, as the code has it: when a first bootstrap of the workdir completes,
    a second one is a no-op that returns at once with the state untouched;
    the first one spawned the initializer once when the configuration was
    absent and not at all when it was present. *)
Theorem initialize_twice (s s1 : State) :
  command_ (self s) = Subprocess →
  PlanetUpdaterOsmosis._initialize E s = (Ok tt, s1) →
  PlanetUpdaterOsmosis._initialize E s1 = (Ok tt, s1)
  ∧ trace s1 = trace s ++ match fs s !! configpath s with
                          | Some _ => []
                          | None => [Spawn (init_args s)]
                          end.
Proof.
  intros Hcmd Hrun. destruct (fs s !! configpath s) as [n|] eqn:Hcfg.
  - unfold PlanetUpdaterOsmosis._initialize, configpath in *. revert Hrun.
    msimpl. rewrite bind_run, path_exists_run, Hcfg. intros [= <-].
    split; [|by rewrite app_nil_r].
    by rewrite bind_run, path_exists_run, Hcfg.
  - destruct (initialize_completed E s s1 Hcmd Hcfg Hrun)
      as (url & fs1 & _ & Hself & Htrace & _ & Hfs).
    split; [|done].
    unfold PlanetUpdaterOsmosis._initialize. msimpl.
    rewrite bind_run, path_exists_run, Hself.
    fold (configpath s). by rewrite Hfs, lookup_insert_eq.
Qed.

Lemma all_slashes_app (a b : string) :
  Py.all_slashes (a +:+ b) = Py.all_slashes a && Py.all_slashes b.
Proof.
  induction a as [|c a IH]; [done|].
  rewrite string_app_cons. simpl. by rewrite IH, andb_assoc.
Qed.

(** Opening a plain name in a workdir that is a directory. *)
Lemma opened_in_workdir (f : gmap string node) (wd name : string) :
  wd ≠ "" → Py.ends_with_slash wd = false →
  Py.contains "/" name = false → Py.all_slashes name = false →
  f !! wd = Some Dir →
  f !! Py.path_join wd name ≠ Some Dir →
  OS.opened f (Py.path_join wd name)
  = Some (<[Py.path_join wd name := File ""]> f).
Proof.
  intros Hwd Hend Hname Hns Hdir Hfree.
  assert (Hjoin : Py.path_join wd name = wd +:+ String "/" name).
  { unfold Py.path_join.
    assert (Py.startswith name "/" = false) as ->.
    { destruct name as [|c name]; [done|].
      apply contains_slash_cons in Hname as [Hc _].
      unfold Py.startswith.
      change (String.prefix "/" (String c name))
        with (if ascii_dec "/" c then String.prefix "" name else false).
      destruct (ascii_dec "/" c) as [<-|]; [|done].
      by rewrite Ascii.eqb_refl in Hc. }
    rewrite Hend. by destruct wd. }
  rewrite Hjoin in *. unfold OS.opened.
  rewrite all_slashes_app. simpl Py.all_slashes at 2.
  rewrite Hns, !andb_false_r.
  assert (Hparent : OS.dirname (wd +:+ String "/" name) = wd).
  { unfold OS.dirname, Py.path_split.
    rewrite (rsplit_slash_last wd name Hname).
    by destruct (head_not_all_slashes wd Hwd Hend) as [-> ->]. }
  rewrite Hparent. unfold OS.is_directory. rewrite Hdir, orb_true_r.
  by destruct (f !! (wd +:+ String "/" name)) as [[|body]|].
Qed.

(** [os.makedirs] on a free plain name in an existing directory. *)
Lemma makedirs_in_directory (f : gmap string node) (wd : string) :
  wd ≠ "" → Py.ends_with_slash wd = false →
  f !! wd = None → f !! OS.dirname wd = Some Dir →
  (OS.makedirs wd f).2 !! wd = Some Dir.
Proof.
  intros Hwd Hend Hfree Hparent. unfold OS.makedirs.
  assert (Hany : ∀ n, (OS.makedirs_upto n wd f).2 !! wd = Some Dir);
    [|by apply Hany].
  assert (Hns : Py.all_slashes wd = false).
  { clear Hfree Hparent. induction wd as [|c wd IH]; [done|]. simpl.
    destruct wd as [|c' wd'].
    - simpl in Hend. by rewrite Hend.
    - rewrite IH; [by rewrite andb_false_r|done|done]. }
  assert (Htail : (Py.path_split wd).2 ≠ "").
  { unfold Py.path_split.
    destruct (Py.rsplit_slash wd) as [[h t]|] eqn:Hsplit; [|done].
    assert (t ≠ "").
    { intros ->. clear Hfree Hparent Hns. revert h Hsplit.
      induction wd as [|c wd IH]; intros h; [done|]. simpl.
      destruct (Py.rsplit_slash wd) as [[h' t']|] eqn:Hrec.
      - intros [= <- ->]. destruct wd as [|c' wd']; [done|].
        by apply (IH ltac:(done) Hend h').
      - destruct (Ascii.eqb c "/") eqn:Hc; [|done]. intros [= <- ->].
        simpl in Hend. congruence. }
    by destruct (Py.all_slashes h). }
  unfold OS.dirname in Hparent.
  intros n.
  assert (Hmk : (OS.mkdir wd f).2 !! wd = Some Dir).
  { unfold OS.mkdir, OS.is_directory, OS.dirname.
    destruct (String.eqb_spec wd ""); [done|].
    rewrite Hns, Hfree, Hparent, orb_true_r. simpl.
    apply lookup_insert_eq. }
  destruct n as [|n]; simpl;
    destruct (Py.path_split wd) as [head tail]; simpl in Htail, Hparent;
    (destruct (String.eqb_spec tail ""); [done|]);
    by rewrite Hparent, andb_false_r.
Qed.

(** [get_timestamp], step by step, when [command] spawns. *)
Lemma get_timestamp_run (s : State) :
  command_ (self s) = Subprocess →
  PlanetBase.get_timestamp E s
  = let '(o1, f1) := tool E (timestamp_args s) (fs s) in
    let s1 := emit (Spawn (timestamp_args s)) (set_fs f1 s) in
    match o1 with
    | None => (Raise (CalledProcessError (timestamp_args s)), s1)
    | Some out =>
        if Py.contains "invalid" out then
          let '(o2, f2) := tool E (statistics_args s) f1 in
          let s2 := emit (Spawn (statistics_args s)) (set_fs f2 s1) in
          match o2 with
          | None => (Raise (CalledProcessError (statistics_args s)), s2)
          | Some st =>
              (match PlanetBase.timestamp_max_values st with
               | [] => Raise IndexError
               | t :: _ => Ok (Py.strip t)
               end, s2)
          end
        else (Ok (Py.strip out), s1)
    end.
Proof.
  intros Hcmd. unfold PlanetBase.get_timestamp, PlanetBase.osmconvert.
  unfold timestamp_args, statistics_args. msimpl.
  rewrite bind_run, command_spawn_run by done.
  destruct (tool E _ (fs s)) as [[out|] f1]; [|done]. cbn [fst snd].
  destruct (Py.contains "invalid" out); [|done].
  rewrite bind_run, command_spawn_run by done. msimpl.
  destruct (tool E _ f1) as [[st|] f2]; [|done]. cbn [fst snd].
  by destruct (PlanetBase.timestamp_max_values st).
Qed.

(** The state bootstrap with the state file absent, once the timestamp is
    resolved and the lookup has answered: the file is opened, and the
    write of the answer raises. *)
Lemma initialize_state_run (s st : State) (ts state : string) :
  fs s !! statepath s = None →
  PlanetBase.get_timestamp E s = (Ok ts, st) →
  http_get E (lookup_url ts) = Some state →
  PlanetUpdaterOsmosis._initialize_state E s
  = match OS.opened (fs st) (statepath s) with
    | Some f' => (Raise TypeError, set_fs f' (emit (UrlOpen (lookup_url ts)) st))
    | None => (Raise OSError_, emit (UrlOpen (lookup_url ts)) st)
    end.
Proof.
  intros Hsp Hts Hget. unfold PlanetUpdaterOsmosis._initialize_state.
  unfold statepath, lookup_url in *. msimpl.
  rewrite bind_run, path_exists_run, Hsp, bind_run, Hts.
  unfold OS.urlopen_read. rewrite !bind_run. msimpl. rewrite Hget. msimpl.
  unfold OS.open_w. rewrite bind_run. msimpl.
  by destruct (OS.opened (fs st) _).
Qed.

(** C1, as the code has it: for a snapshot whose workdir is absent, in an
    existing directory, with an initializer that exits with zero and tools
    that leave the workdir and its two artifacts to the updater, when the
    converter's outputs resolve to a timestamp and the lookup answers,
    [update_planet] with grain "minute" issues, in this order: the
    initializer, the converter's timestamp mode, its statistics mode if
    the timestamp output contains "invalid", and the sequence lookup for
    the resolved timestamp; the run adds nothing after the lookup, since
    the write of its answer raises (see [initialize_state_run]).  The
    configuration file holds the body written
    for the minute URL, whose non-blank lines, stripped of their
    indentation, are the [baseUrl] line and the [maxInterval=0] line. *)
Theorem update_planet_minute (s : State) (outpath out : string)
    (statistics : option string) (ts state : string) :
  command_ (self s) = Subprocess →
  is_Some (fs s !! osmpath (self s)) →
  workdir_absent s →
  workdir_parent_exists s →
  (∀ f, is_Some (tool E (init_args s) f).1) →
  (∀ f, f !! configpath s = None →
        (tool E (init_args s) f).2 !! configpath s ≠ Some Dir) →
  (∀ args, keeps E (osmosis_workdir (self s)) args) →
  (∀ args, keeps E (statepath s) args) →
  (∀ args, args ≠ init_args s → keeps E (configpath s) args) →
  (∀ f, (tool E (timestamp_args s) f).1 = Some out) →
  (∀ f, (tool E (statistics_args s) f).1 = statistics) →
  resolved_timestamp out statistics = Some ts →
  http_get E (lookup_url ts) = Some state →
  let run := PlanetUpdaterOsmosis.update_planet E outpath "minute" None s in
  trace run.2
  = trace s ++ [Spawn (init_args s)] ++ resolver_events s out
      ++ [UrlOpen (lookup_url ts)]
  ∧ fs run.2 !! configpath s
    = Some (File (PlanetUpdaterOsmosis.configuration_body minute_url))
  ∧ stripped_lines (PlanetUpdaterOsmosis.configuration_body minute_url)
    = ["baseUrl=https://planet.openstreetmap.org/replication/minute";
       "maxInterval=0"].
Proof.
  intros Hcmd [n Hn] (Hwd & Hcp & Hsp) (Hne & Hend & Hparent)
    Hinit Hinit_cfg Hkw Hks Hkc Hout Hstat Hres Hget. cbv zeta.
  enough (trace (PlanetUpdaterOsmosis.update_planet E outpath "minute" None s).2
          = trace s ++ [Spawn (init_args s)] ++ resolver_events s out
              ++ [UrlOpen (lookup_url ts)]
          ∧ fs (PlanetUpdaterOsmosis.update_planet E outpath "minute" None s).2
              !! configpath s
            = Some (File (PlanetUpdaterOsmosis.configuration_body minute_url)))
    as [Htr Hcfg] by (split; [exact Htr|split; [exact Hcfg|by vm_compute]]).
  unfold PlanetUpdaterOsmosis.update_planet. msimpl.
  rewrite bind_run, path_exists_run, Hn. cbn [negb py_or].
  change ("https://planet.openstreetmap.org/replication/" +:+ "minute")
    with minute_url.
  rewrite bind_run. msimpl.
  set (sa := set_self _ s).
  (* the workdir bootstrap *)
  assert (Hwd_made : fs_with_workdir sa !! osmosis_workdir (self s) = Some Dir)
    by (by apply makedirs_in_directory).
  assert (Hcp_made : fs_with_workdir sa !! configpath s = None).
  { unfold fs_with_workdir. rewrite makedirs_frame; [done|].
    apply (configpath_longer s). }
  assert (Hsp_made : fs_with_workdir sa !! statepath s = None).
  { unfold fs_with_workdir. rewrite makedirs_frame; [done|].
    apply (statepath_longer s). }
  assert (Hi : ∃ fs1,
            fs1 !! osmosis_workdir (self s) = Some Dir
            ∧ fs1 !! statepath s = None
            ∧ PlanetUpdaterOsmosis._initialize E sa
              = (Ok tt,
                 mkState (self sa)
                   (<[configpath s :=
                        File (PlanetUpdaterOsmosis.configuration_body
                                minute_url)]>
                      (<[configpath s := File ""]> fs1))
                   (trace s ++ [Spawn (init_args s)]) (heap s))).
  { pose proof (Hinit (fs_with_workdir sa)) as [o Ho].
    pose proof (Hinit_cfg (fs_with_workdir sa) Hcp_made) as Hnd.
    pose proof (Hkw (init_args s) (fs_with_workdir sa)) as Hw1.
    pose proof (Hks (init_args s) (fs_with_workdir sa)) as Hs1.
    destruct (tool E (init_args s) (fs_with_workdir sa)) as [out1 fs1] eqn:Ht.
    simpl in Ho, Hnd, Hw1, Hs1. subst out1.
    exists fs1. split; [by rewrite Hw1|]. split; [by rewrite Hs1|].
    unfold PlanetUpdaterOsmosis._initialize. msimpl.
    rewrite bind_run, path_exists_run.
    change (fs sa !! Py.path_join (osmosis_workdir (self sa))
                       "configuration.txt")
      with (fs s !! configpath s). rewrite Hcp.
    rewrite bind_run, path_exists_run, bind_run, path_isdir_run.
    change (fs sa !! osmosis_workdir (self sa))
      with (fs s !! osmosis_workdir (self s)). rewrite Hwd. cbn [andb].
    unfold OS.makedirs_quiet. rewrite bind_run. msimpl.
    unfold PlanetBase.osmosis. rewrite bind_run, command_spawn_run by done.
    cbn [fs set_fs].
    change (tool E _ (OS.makedirs (osmosis_workdir (self sa)) (fs sa)).2)
      with (tool E (init_args s) (fs_with_workdir sa)).
    rewrite Ht. cbn [fst snd].
    unfold OS.open_w. rewrite bind_run. msimpl.
    change (Py.path_join (osmosis_workdir (self sa)) "configuration.txt")
      with (Py.path_join (osmosis_workdir (self s)) "configuration.txt").
    rewrite (opened_in_workdir fs1 (osmosis_workdir (self s))
               "configuration.txt") by (done || by rewrite Hw1).
    msimpl. unfold OS.write_close. msimpl. done. }
  destruct Hi as (fs1 & Hw1 & Hs1 & Hi).
  rewrite bind_run, Hi.
  set (sb := mkState (self sa) _ _ (heap s)).
  (* the timestamp and the lookup *)
  assert (Hcmdb : command_ (self sb) = Subprocess) by done.
  assert (Hts : ∃ st,
            PlanetBase.get_timestamp E sb = (Ok ts, st)
            ∧ trace st = trace sb ++ resolver_events s out
            ∧ fs st !! osmosis_workdir (self s) = Some Dir
            ∧ fs st !! statepath s = None
            ∧ fs st !! configpath s
              = Some (File (PlanetUpdaterOsmosis.configuration_body
                              minute_url))).
  { rewrite (get_timestamp_run sb Hcmdb).
    change (timestamp_args sb) with (timestamp_args s).
    change (statistics_args sb) with (statistics_args s).
    assert (Hkc_ts : keeps E (configpath s) (timestamp_args s))
      by (apply Hkc; discriminate).
    assert (Hkc_st : keeps E (configpath s) (statistics_args s))
      by (apply Hkc; discriminate).
    pose proof (Hout (fs sb)) as Ho1.
    pose proof (Hkw (timestamp_args s) (fs sb)) as Hw2.
    pose proof (Hks (timestamp_args s) (fs sb)) as Hs2.
    pose proof (Hkc_ts (fs sb)) as Hc2.
    destruct (tool E (timestamp_args s) (fs sb)) as [o1 f1].
    simpl in Ho1, Hw2, Hs2, Hc2. subst o1.
    assert (Hsb_w : fs sb !! osmosis_workdir (self s) = Some Dir).
    { unfold sb. cbn [fs].
      rewrite !lookup_insert_ne by apply configpath_not_workdir. done. }
    assert (Hsb_s : fs sb !! statepath s = None).
    { unfold sb. cbn [fs].
      rewrite !lookup_insert_ne by apply configpath_not_statepath. done. }
    assert (Hsb_c : fs sb !! configpath s
                    = Some (File (PlanetUpdaterOsmosis.configuration_body
                                    minute_url)))
      by (unfold sb; cbn [fs]; apply lookup_insert_eq).
    unfold resolved_timestamp, resolver_events in *.
    destruct (Py.contains "invalid" out).
    - pose proof (Hstat f1) as Ho2.
      pose proof (Hkw (statistics_args s) f1) as Hw3.
      pose proof (Hks (statistics_args s) f1) as Hs3.
      pose proof (Hkc_st f1) as Hc3.
      destruct (tool E (statistics_args s) f1) as [o2 f2].
      simpl in Ho2, Hw3, Hs3, Hc3. subst o2.
      destruct statistics as [st'|]; [|done].
      destruct (PlanetBase.timestamp_max_values st') as [|t ?]; [done|].
      injection Hres as <-. eexists. split; [done|]. cbn [trace fs emit set_fs].
      split; [by rewrite <- app_assoc|].
      split; [by rewrite Hw3, Hw2|]. split; [by rewrite Hs3, Hs2|].
      by rewrite Hc3, Hc2.
    - injection Hres as <-. eexists. split; [done|]. cbn [trace fs emit set_fs].
      split; [done|]. split; [by rewrite Hw2|]. split; [by rewrite Hs2|].
      by rewrite Hc2. }
  destruct Hts as (st & Hts & Htr_st & Hst_w & Hst_s & Hst_c).
  assert (Hspb : fs sb !! statepath sb = None).
  { change (statepath sb) with (statepath s). unfold sb. cbn [fs].
    rewrite !lookup_insert_ne by apply configpath_not_statepath. done. }
  rewrite bind_run, (initialize_state_run sb st ts state Hspb Hts Hget).
  change (statepath sb) with (statepath s).
  assert (Hopen : OS.opened (fs st) (statepath s)
                  = Some (<[statepath s := File ""]> (fs st))).
  { apply opened_in_workdir; try done.
    change (fs st !! statepath s ≠ Some Dir). by rewrite Hst_s. }
  rewrite Hopen.
  cbn [fst snd trace fs emit set_fs]. split.
  - rewrite Htr_st. unfold sb. cbn [trace]. by rewrite <- !app_assoc.
  - rewrite lookup_insert_ne
      by (intros Heq; by apply (configpath_not_statepath s)).
    exact Hst_c.
Qed.

(** With the state file absent, the state bootstrap never completes: it
    raises in the converter, in the lookup, on [open], or at the latest on
    the write of the answer. *)
Lemma initialize_state_absent_raises (s : State) :
  fs s !! statepath s = None →
  ∃ e, (PlanetUpdaterOsmosis._initialize_state E s).1 = Raise e.
Proof.
  intros Hsp. unfold PlanetUpdaterOsmosis._initialize_state.
  unfold statepath in *. msimpl.
  rewrite bind_run, path_exists_run, Hsp, bind_run.
  destruct (PlanetBase.get_timestamp E s) as [[ts|e] st]; [|by eexists].
  unfold OS.urlopen_read. rewrite !bind_run. msimpl.
  destruct (http_get E _) as [state|]; [|by eexists]. msimpl.
  unfold OS.open_w. rewrite bind_run. msimpl.
  destruct (OS.opened (fs st) _); by eexists.
Qed.
End Pipeline.

Lemma initialize_twice_witness :
  let E := Sample.env Sample.run_direct [] in
  let s := Sample.state planet_minute Sample.fs_snapshot in
  let s1 := (PlanetUpdaterOsmosis._initialize E s).2 in
  PlanetUpdaterOsmosis._initialize E s1 = (Ok tt, s1)
  ∧ trace s1
    = [] ++ [Spawn ["osmosis"; "--read-replication-interval-init";
                    "workingDirectory=/data/planet.osm.pbf.workdir"]].
Proof.
  intros E s s1.
  assert (Hrun : PlanetUpdaterOsmosis._initialize E s = (Ok tt, s1))
    by (vm_compute; reflexivity).
  exact (initialize_twice E s s1 eq_refl Hrun).
Defined.

(** C2 as worded fails on a workdir that was bootstrapped before: both
    runs return at once and the initializer is not issued at all. *)
Lemma bootstrap_twice_issues_once_counterexample :
  ¬ bootstrap_twice_issues_once (Sample.env Sample.run_direct [])
      (Sample.state planet_minute fs_bootstrapped).
Proof. unfold bootstrap_twice_issues_once. vm_compute. discriminate. Qed.

Lemma update_planet_minute_witness :
  let E := Sample.env Sample.run_direct [] in
  let s := Sample.state Sample.planet Sample.fs_snapshot in
  let run := PlanetUpdaterOsmosis.update_planet E "/data/new.osm.pbf"
               "minute" None s in
  trace run.2
  = trace s ++ [Spawn (init_args s)]
      ++ resolver_events s ("2021-01-02T03:04:05Z" +:+ Sample.nl)
      ++ [UrlOpen (lookup_url "2021-01-02T03:04:05Z")]
  ∧ fs run.2 !! configpath s
    = Some (File (PlanetUpdaterOsmosis.configuration_body minute_url))
  ∧ stripped_lines (PlanetUpdaterOsmosis.configuration_body minute_url)
    = ["baseUrl=https://planet.openstreetmap.org/replication/minute";
       "maxInterval=0"].
Proof.
  intros E s.
  apply (update_planet_minute E s "/data/new.osm.pbf"
           ("2021-01-02T03:04:05Z" +:+ Sample.nl) (Some "")
           "2021-01-02T03:04:05Z" "sequenceNumber=4242").
  - reflexivity.
  - by eexists.
  - repeat split; reflexivity.
  - split; [discriminate|]. split; reflexivity.
  - intros f. by eexists.
  - intros f Hf. simpl. by rewrite Hf.
  - intros args f. reflexivity.
  - intros args f. reflexivity.
  - intros args _ f. reflexivity.
  - intros f. reflexivity.
  - intros f. reflexivity.
  - reflexivity.
  - reflexivity.
Defined.

(** The run of the sample in full: the initializer, the converter's
    timestamp mode and the sequence lookup. *)
Example update_planet_minute_trace :
  trace (PlanetUpdaterOsmosis.update_planet (Sample.env Sample.run_direct [])
           "/data/new.osm.pbf" "minute" None
           (Sample.state Sample.planet Sample.fs_snapshot)).2
  = [Spawn ["osmosis"; "--read-replication-interval-init";
            "workingDirectory=/data/planet.osm.pbf.workdir"];
     Spawn ["osmconvert"; "/data/planet.osm.pbf"; "--out-timestamp"];
     UrlOpen "https://replicate-sequences.osm.mazdermind.de/?2021-01-02T03:04:05Z"].
Proof. vm_compute. reflexivity. Qed.

(** C1 as worded fails on the sample: the spawned vectors are not the
    three osmosis invocations; the converter's timestamp mode is among
    them. *)
Lemma update_spawns_three_counterexample :
  ¬ update_spawns_three (Sample.env Sample.run_direct [])
      (Sample.state Sample.planet Sample.fs_snapshot) "/data/new.osm.pbf".
Proof. unfold update_spawns_three. vm_compute. discriminate. Qed.

(** The configuration body is not the bare two lines: it starts with a
    line break and carries the indentation of the source literal. *)
Example configuration_body_layout :
  PlanetUpdaterOsmosis.configuration_body "u"
  = String "010" "                baseUrl=u" +:+
    String "010" "                maxInterval=0" +:+
    String "010" "            ".
Proof. reflexivity. Qed.

(** * Further properties of the module *)

(** ** Acquisition, target absent *)

Section AcquisitionAbsent.
Context {coord : Type} (E : Env coord).

(** X11: the direct fetch with the target absent spawns [curl] once, whatever
    the instance's [command] attribute holds (it calls
    [subprocess.check_output] itself), with the default URL when none or
    an empty one is given; a non-zero exit raises [CalledProcessError]. *)
Theorem http_download_spawns_curl (s : State) (url : option string) :
  fs s !! osmpath (self s) = None →
  PlanetDownloaderHttp.download_planet E url s
  = spawn_outcome E (curl_args s url) s.
Proof.
  intros Habsent. unfold PlanetDownloaderHttp.download_planet. msimpl.
  rewrite bind_run, path_exists_run, Habsent.
  unfold PlanetDownloaderHttp._download, spawn_outcome, curl_args.
  rewrite then_ret_run.
  destruct (tool E _ (fs s)) as [[o|] fs1] eqn:Ht.
  - by rewrite (check_output_ok E _ _ _ _ Ht).
  - by rewrite (check_output_fail E _ _ _ Ht).
Qed.

(** X12: without the boto3 module the object-store download of an absent target
    raises "please install boto3" before anything is listed or written. *)
Theorem s3_download_needs_boto3 (s : State) (bucket prefix : option string)
    (match_ : option regex) :
  fs s !! osmpath (self s) = None →
  boto3 E = false →
  PlanetDownloaderS3.download_planet_latest E bucket prefix match_ s
  = (Raise (Exception "please install boto3"), s).
Proof.
  intros Habsent Hboto. unfold PlanetDownloaderS3.download_planet_latest.
  msimpl. rewrite bind_run, path_exists_run, Habsent.
  unfold PlanetDownloaderS3._get_planets. by rewrite Hboto, bind_run.
Qed.
End AcquisitionAbsent.

Lemma http_download_spawns_curl_witness :
  let E := Sample.env Sample.run_failing [] in
  let s := mkState (set_command (Recorder 0) Sample.planet) ∅ [] [[]] in
  PlanetDownloaderHttp.download_planet E (Some "") s
  = (Raise (CalledProcessError
              ["curl"; "-L"; "-o"; "/data/planet.osm.pbf";
               "https://planet.openstreetmap.org/pbf/planet-latest.osm.pbf"]),
     emit (Spawn ["curl"; "-L"; "-o"; "/data/planet.osm.pbf";
                  "https://planet.openstreetmap.org/pbf/planet-latest.osm.pbf"])
       s).
Proof.
  intros E s.
  exact (http_download_spawns_curl E s (Some "") eq_refl).
Defined.

Lemma s3_download_needs_boto3_witness :
  PlanetDownloaderS3.download_planet_latest env_without_boto3 None None None
    (Sample.state Sample.planet ∅)
  = (Raise (Exception "please install boto3"), Sample.state Sample.planet ∅).
Proof.
  exact (s3_download_needs_boto3 env_without_boto3
           (Sample.state Sample.planet ∅) None None None eq_refl eq_refl).
Defined.

(** ** Updaters: preconditions *)

Section UpdaterPreconditions.
Context {coord : Type} (E : Env coord).

(** X14: both updaters refuse a missing snapshot before doing anything: nothing
    is spawned, the workdir is not created and the instance is not
    changed. *)
Theorem update_needs_snapshot (s : State) (outpath size grain : string)
    (changeset_url : option string) :
  fs s !! osmpath (self s) = None →
  PlanetUpdaterOsmium.update_planet E outpath size s
  = (Raise (Exception ("planet file does not exist: " +:+ osmpath (self s))),
     s)
  ∧ PlanetUpdaterOsmosis.update_planet E outpath grain changeset_url s
    = (Raise (Exception ("planet file does not exist: " +:+ osmpath (self s))),
       s).
Proof.
  intros Habsent.
  unfold PlanetUpdaterOsmium.update_planet, PlanetUpdaterOsmosis.update_planet.
  msimpl. by rewrite !bind_run, !path_exists_run, Habsent.
Qed.

(** With the snapshot in place the single-call updater spawns
    [pyosmium-up-to-date] once, with the size hint, the snapshot and the
    output path. *)
Theorem osmium_update_single_call (s : State) (outpath size : string) :
  command_ (self s) = Subprocess →
  is_Some (fs s !! osmpath (self s)) →
  PlanetUpdaterOsmium.update_planet E outpath size s
  = spawn_outcome E (up_to_date_args s outpath size) s.
Proof.
  intros Hcmd [n Hn]. unfold PlanetUpdaterOsmium.update_planet. msimpl.
  rewrite bind_run, path_exists_run, Hn. cbn [negb].
  rewrite then_ret_run, command_spawn_run by done.
  unfold spawn_outcome, up_to_date_args.
  by destruct (tool E _ (fs s)) as [[o|] fs1].
Qed.

(** X15: a workdir path that is taken by something other than a directory
    stops the bootstrap at once: nothing is created and nothing is
    spawned. *)
Theorem initialize_rejects_non_directory (s : State) (body : string) :
  fs s !! configpath s = None →
  fs s !! osmosis_workdir (self s) = Some (File body) →
  PlanetUpdaterOsmosis._initialize E s
  = (Raise (Exception ("workdir exists and is not a directory: "
                       +:+ osmosis_workdir (self s))), s).
Proof.
  intros Hcfg Hwd. unfold PlanetUpdaterOsmosis._initialize, configpath in *.
  msimpl. rewrite bind_run, path_exists_run, Hcfg.
  by rewrite bind_run, path_exists_run, bind_run, path_isdir_run, Hwd.
Qed.
End UpdaterPreconditions.

Lemma update_needs_snapshot_witness :
  PlanetUpdaterOsmosis.update_planet (Sample.env Sample.run_direct [])
    "/data/new.osm.pbf" "minute" None (Sample.state Sample.planet ∅)
  = (Raise (Exception "planet file does not exist: /data/planet.osm.pbf"),
     Sample.state Sample.planet ∅).
Proof.
  exact (proj2 (update_needs_snapshot (Sample.env Sample.run_direct [])
                  (Sample.state Sample.planet ∅) "/data/new.osm.pbf" "1024"
                  "minute" None eq_refl)).
Defined.

Lemma osmium_update_single_call_witness :
  PlanetUpdaterOsmium.update_planet (Sample.env Sample.run_direct [])
    "/data/new.osm.pbf" "1024" (Sample.state Sample.planet Sample.fs_snapshot)
  = (Ok tt,
     emit (Spawn ["pyosmium-up-to-date"; "-s"; "1024"; "-v";
                  "/data/planet.osm.pbf"; "-o"; "/data/new.osm.pbf"])
       (Sample.state Sample.planet Sample.fs_snapshot)).
Proof.
  apply (osmium_update_single_call (Sample.env Sample.run_direct [])
           (Sample.state Sample.planet Sample.fs_snapshot)
           "/data/new.osm.pbf" "1024" eq_refl).
  exists (File "pbf"). reflexivity.
Defined.

Lemma initialize_rejects_non_directory_witness :
  PlanetUpdaterOsmosis._initialize (Sample.env Sample.run_direct [])
    (Sample.state planet_minute fs_workdir_is_file)
  = (Raise (Exception
       "workdir exists and is not a directory: /data/planet.osm.pbf.workdir"),
     Sample.state planet_minute fs_workdir_is_file).
Proof.
  exact (initialize_rejects_non_directory (Sample.env Sample.run_direct [])
           (Sample.state planet_minute fs_workdir_is_file) ""
           eq_refl eq_refl).
Defined.

(** ** The workdir bootstrap: failure and edge behaviour *)

Section Bootstrap.
Context {coord : Type} (E : Env coord).

(** The bootstrap of a workdir without configuration, step by step, when
    the workdir path is free or a directory. *)
Lemma initialize_run (s : State) :
  command_ (self s) = Subprocess →
  fs s !! configpath s = None →
  fs s !! osmosis_workdir (self s) = None
  ∨ fs s !! osmosis_workdir (self s) = Some Dir →
  PlanetUpdaterOsmosis._initialize E s
  = let '(out, fs1) := tool E (init_args s) (fs_with_workdir s) in
    let t := trace s ++ [Spawn (init_args s)] in
    match out with
    | None => (Raise (CalledProcessError (init_args s)),
               mkState (self s) fs1 t (heap s))
    | Some _ =>
        match OS.opened fs1 (configpath s) with
        | None => (Raise OSError_, mkState (self s) fs1 t (heap s))
        | Some f' =>
            match changeset_url (self s) with
            | None => (Raise AttributeError, mkState (self s) f' t (heap s))
            | Some url =>
                (Ok tt,
                 mkState (self s)
                   (<[configpath s :=
                        File (PlanetUpdaterOsmosis.configuration_body url)]> f')
                   t (heap s))
            end
        end
    end.
Proof.
  intros Hcmd Hcfg Hwd. unfold PlanetUpdaterOsmosis._initialize.
  unfold configpath, init_args, PlanetUpdaterOsmosis.init_args,
    fs_with_workdir in *.
  msimpl. rewrite bind_run, path_exists_run, Hcfg.
  rewrite bind_run, path_exists_run, bind_run, path_isdir_run.
  unfold OS.makedirs_quiet, PlanetBase.osmosis.
  destruct Hwd as [Hwd|Hwd]; rewrite Hwd; cbn [negb andb];
    rewrite bind_run; msimpl;
    rewrite bind_run, command_spawn_run by done; cbn [fs set_fs];
    (destruct (tool E _ _) as [[o|] fs1]; [|done]); cbn [fst snd];
    unfold OS.open_w; rewrite bind_run; msimpl;
    (destruct (OS.opened fs1 _) as [f'|]; [|done]);
    msimpl; by destruct (changeset_url (self s)).
Qed.

(** X16: the configuration is written only after the initializer succeeded: when
    the initializer exits non-zero (and leaves the workdir and the
    configuration path alone), the bootstrap raises, no configuration
    exists afterwards, and the next bootstrap issues the initializer
    again. *)
Theorem initialize_failure_is_retried (s : State) :
  command_ (self s) = Subprocess →
  fs s !! configpath s = None →
  fs s !! osmosis_workdir (self s) = None
  ∨ fs s !! osmosis_workdir (self s) = Some Dir →
  (∀ f, (tool E (init_args s) f).1 = None) →
  keeps E (configpath s) (init_args s) →
  keeps E (osmosis_workdir (self s)) (init_args s) →
  let r1 := PlanetUpdaterOsmosis._initialize E s in
  let r2 := PlanetUpdaterOsmosis._initialize E r1.2 in
  r1.1 = Raise (CalledProcessError (init_args s))
  ∧ r2.1 = Raise (CalledProcessError (init_args s))
  ∧ fs r2.2 !! configpath s = None
  ∧ trace r2.2 = trace s ++ [Spawn (init_args s); Spawn (init_args s)].
Proof.
  intros Hcmd Hcfg Hwd Hfail Hkc Hkw. cbv zeta.
  assert (Hcfg0 : fs_with_workdir s !! configpath s = None).
  { unfold fs_with_workdir. rewrite makedirs_frame; [done|].
    apply configpath_longer. }
  assert (Hwd0 : fs_with_workdir s !! osmosis_workdir (self s) = None
                 ∨ fs_with_workdir s !! osmosis_workdir (self s) = Some Dir).
  { unfold fs_with_workdir. destruct Hwd as [Hwd|Hwd].
    - by apply makedirs_free_or_directory.
    - right. by apply makedirs_keeps. }
  rewrite (initialize_run s Hcmd Hcfg Hwd).
  pose proof (Hfail (fs_with_workdir s)) as H1.
  pose proof (Hkc (fs_with_workdir s)) as H2.
  pose proof (Hkw (fs_with_workdir s)) as H3.
  destruct (tool E (init_args s) (fs_with_workdir s)) as [out fs1].
  simpl in H1, H2, H3. subst out. cbn [fst snd].
  set (s1 := mkState (self s) fs1 _ (heap s)).
  assert (Hcfg1 : fs s1 !! configpath s1 = None)
    by (change (fs1 !! configpath s = None); by rewrite H2).
  assert (Hwd1 : fs s1 !! osmosis_workdir (self s1) = None
                 ∨ fs s1 !! osmosis_workdir (self s1) = Some Dir).
  { change (fs1 !! osmosis_workdir (self s) = None
            ∨ fs1 !! osmosis_workdir (self s) = Some Dir).
    by rewrite H3. }
  rewrite (initialize_run s1 Hcmd Hcfg1 Hwd1).
  change (init_args s1) with (init_args s).
  change (configpath s1) with (configpath s).
  assert (Hcfg2 : fs_with_workdir s1 !! configpath s = None).
  { unfold fs_with_workdir. rewrite makedirs_frame; [exact Hcfg1|].
    apply (configpath_longer s). }
  pose proof (Hfail (fs_with_workdir s1)) as H4.
  pose proof (Hkc (fs_with_workdir s1)) as H5.
  destruct (tool E (init_args s) (fs_with_workdir s1)) as [out fs2].
  simpl in H4, H5. subst out. cbn [fst snd fs trace].
  split; [done|]. split; [done|]. split; [by rewrite H5|].
  unfold s1. simpl. by rewrite <- app_assoc.
Qed.

(** X17: [_initialize] on an instance in which [update_planet] has not stored
    the URL, for a workdir that is a directory or a free plain name in an
    existing directory: the file is opened before the text is formatted, so
    after a successful initializer the bootstrap raises [AttributeError]
    and leaves an empty configuration file, which the next bootstrap takes
    for a finished one. *)
Theorem initialize_without_url_leaves_empty_configuration (s : State) :
  command_ (self s) = Subprocess →
  changeset_url (self s) = None →
  fs s !! configpath s = None →
  osmosis_workdir (self s) ≠ "" →
  Py.ends_with_slash (osmosis_workdir (self s)) = false →
  fs s !! osmosis_workdir (self s) = Some Dir
  ∨ (fs s !! osmosis_workdir (self s) = None
     ∧ fs s !! OS.dirname (osmosis_workdir (self s)) = Some Dir) →
  (∀ f, is_Some (tool E (init_args s) f).1) →
  keeps E (configpath s) (init_args s) →
  keeps E (osmosis_workdir (self s)) (init_args s) →
  let r1 := PlanetUpdaterOsmosis._initialize E s in
  r1.1 = Raise AttributeError
  ∧ fs r1.2 !! configpath s = Some (File "")
  ∧ PlanetUpdaterOsmosis._initialize E r1.2 = (Ok tt, r1.2).
Proof.
  intros Hcmd Hurl Hcfg Hne Hend Hwd Hok Hkc Hkw. cbv zeta.
  assert (Hcfg0 : fs_with_workdir s !! configpath s = None).
  { unfold fs_with_workdir. rewrite makedirs_frame; [done|].
    apply configpath_longer. }
  assert (Hwd0 : fs_with_workdir s !! osmosis_workdir (self s) = Some Dir).
  { unfold fs_with_workdir. destruct Hwd as [Hwd|[Hwd Hparent]].
    - by apply makedirs_keeps.
    - by apply makedirs_in_directory. }
  assert (Hwd' : fs s !! osmosis_workdir (self s) = None
                 ∨ fs s !! osmosis_workdir (self s) = Some Dir)
    by (destruct Hwd as [?|[? _]]; auto).
  rewrite (initialize_run s Hcmd Hcfg Hwd').
  pose proof (Hok (fs_with_workdir s)) as [o H1].
  pose proof (Hkc (fs_with_workdir s)) as H2.
  pose proof (Hkw (fs_with_workdir s)) as H3.
  destruct (tool E (init_args s) (fs_with_workdir s)) as [out fs1].
  simpl in H1, H2, H3. subst out.
  assert (Hopen : OS.opened fs1 (configpath s)
                  = Some (<[configpath s := File ""]> fs1)).
  { apply opened_in_workdir; try done; [by rewrite H3|].
    change (fs1 !! configpath s ≠ Some Dir). by rewrite H2, Hcfg0. }
  rewrite Hopen, Hurl. cbn [fst snd fs].
  split; [done|]. split; [apply lookup_insert_eq|].
  unfold PlanetUpdaterOsmosis._initialize. msimpl.
  rewrite bind_run, path_exists_run. cbn [fs].
  fold (configpath s). by rewrite lookup_insert_eq.
Qed.
End Bootstrap.

Lemma initialize_failure_is_retried_witness :
  let E := Sample.env Sample.run_failing [] in
  let s := Sample.state planet_minute Sample.fs_snapshot in
  let r1 := PlanetUpdaterOsmosis._initialize E s in
  let r2 := PlanetUpdaterOsmosis._initialize E r1.2 in
  r1.1 = Raise (CalledProcessError (init_args s))
  ∧ r2.1 = Raise (CalledProcessError (init_args s))
  ∧ fs r2.2 !! configpath s = None
  ∧ trace r2.2 = trace s ++ [Spawn (init_args s); Spawn (init_args s)].
Proof.
  intros E s.
  apply (initialize_failure_is_retried E s).
  - reflexivity.
  - reflexivity.
  - left. reflexivity.
  - intros f. reflexivity.
  - intros f. reflexivity.
  - intros f. reflexivity.
Defined.

Lemma initialize_without_url_leaves_empty_configuration_witness :
  let E := Sample.env Sample.run_direct [] in
  let s := Sample.state Sample.planet Sample.fs_snapshot in
  let r1 := PlanetUpdaterOsmosis._initialize E s in
  r1.1 = Raise AttributeError
  ∧ fs r1.2 !! configpath s = Some (File "")
  ∧ PlanetUpdaterOsmosis._initialize E r1.2 = (Ok tt, r1.2).
Proof.
  intros E s.
  apply (initialize_without_url_leaves_empty_configuration E s).
  - reflexivity.
  - reflexivity.
  - reflexivity.
  - discriminate.
  - reflexivity.
  - right. split; reflexivity.
  - intros f. by eexists.
  - intros f. reflexivity.
  - intros f. reflexivity.
Defined.

(** ** Timestamp resolution: failure behaviour *)

Section TimestampFailure.
Context {coord : Type} (E : Env coord).

(** X2: on the fallback path, statistics without any line that starts with
    "timestamp max" make [get_timestamp] raise [IndexError], after both
    converter invocations. *)
Theorem get_timestamp_without_maximum (s : State) (out statistics : string)
    (fs1 fs2 : gmap string node) :
  command_ (self s) = Subprocess →
  tool E (timestamp_args s) (fs s) = (Some out, fs1) →
  Py.contains "invalid" out = true →
  tool E (statistics_args s) fs1 = (Some statistics, fs2) →
  Forall (λ l, Py.startswith l "timestamp max" = false)
         (Py.split "010" statistics) →
  PlanetBase.get_timestamp E s
  = (Raise IndexError,
     emit (Spawn (statistics_args s))
       (set_fs fs2 (emit (Spawn (timestamp_args s)) (set_fs fs1 s)))).
Proof.
  unfold timestamp_args, statistics_args.
  intros Hcmd Hts Hinv Hst Hnone.
  unfold PlanetBase.get_timestamp, PlanetBase.osmconvert. msimpl.
  rewrite bind_run, (command_ok E _ _ _ _ Hcmd Hts), Hinv.
  rewrite bind_run. erewrite command_ok; [|done|exact Hst].
  unfold PlanetBase.timestamp_max_values.
  assert (Hfilter : filter (λ i, Py.startswith i "timestamp max" = true)
                           (Py.split "010" statistics) = []).
  { induction Hnone as [|l ls Hl _ IH]; [done|].
    rewrite filter_cons_False; [done|]. by rewrite Hl. }
  by rewrite Hfilter.
Qed.

(** X3: with the recording closure of [extract_commands] in the [command]
    attribute, [get_timestamp] records the timestamp vector, receives
    [None] and raises [TypeError] on the test for "invalid"; nothing is
    spawned. *)
Theorem get_timestamp_under_recorder (s : State) (r : nat) :
  command_ (self s) = Recorder r →
  PlanetBase.get_timestamp E s
  = (Raise TypeError,
     set_heap (alter (λ l, l ++ [timestamp_args s]) r (heap s)) s).
Proof.
  intros Hcmd. unfold PlanetBase.get_timestamp, PlanetBase.osmconvert.
  msimpl. by rewrite bind_run, (command_recorded E _ _ _ Hcmd).
Qed.
End TimestampFailure.

Lemma get_timestamp_without_maximum_witness :
  let E := Sample.env run_no_maximum [] in
  let s := Sample.state Sample.planet Sample.fs_snapshot in
  (PlanetBase.get_timestamp E s).1 = Raise IndexError
  ∧ spawned (trace (PlanetBase.get_timestamp E s).2)
    = [timestamp_args s; statistics_args s].
Proof.
  intros E s.
  rewrite (get_timestamp_without_maximum E s
             ("(invalid timestamp)" +:+ Sample.nl)
             ("timestamp min: 2020-05-06T07:08:09Z" +:+ Sample.nl +:+
              "nodes: 5" +:+ Sample.nl)
             Sample.fs_snapshot Sample.fs_snapshot);
    first [by split | reflexivity | by repeat constructor].
Defined.

Lemma get_timestamp_under_recorder_witness :
  let s := mkState (set_command (Recorder 0) Sample.planet)
             Sample.fs_snapshot [] [[]] in
  PlanetBase.get_timestamp (Sample.env Sample.run_direct []) s
  = (Raise TypeError,
     set_heap [[["osmconvert"; "/data/planet.osm.pbf"; "--out-timestamp"]]] s).
Proof.
  intros s.
  exact (get_timestamp_under_recorder (Sample.env Sample.run_direct []) s 0
           eq_refl).
Defined.

(** ** The state bootstrap and the resumed pipeline *)

Section Resume.
Context {coord : Type} (E : Env coord).

(** X19: the state bootstrap with the state file absent, when the timestamp
    is resolved and the lookup answers, for a workdir that is a directory
    by then: the state file is opened, the write of the answer (bytes, on a
    file opened in text mode) raises [TypeError], and the empty state file
    stays; the next state bootstrap takes it for a finished one and
    returns at once. *)
Theorem initialize_state_leaves_empty_file (s st : State) (ts state : string) :
  command_ (self s) = Subprocess →
  fs s !! statepath s = None →
  osmosis_workdir (self s) ≠ "" →
  Py.ends_with_slash (osmosis_workdir (self s)) = false →
  PlanetBase.get_timestamp E s = (Ok ts, st) →
  http_get E (lookup_url ts) = Some state →
  fs st !! osmosis_workdir (self s) = Some Dir →
  fs st !! statepath s = None →
  let r1 := PlanetUpdaterOsmosis._initialize_state E s in
  r1.1 = Raise TypeError
  ∧ fs r1.2 !! statepath s = Some (File "")
  ∧ trace r1.2 = trace st ++ [UrlOpen (lookup_url ts)]
  ∧ PlanetUpdaterOsmosis._initialize_state E r1.2 = (Ok tt, r1.2).
Proof.
  intros Hcmd Hsp Hne Hend Hts Hget Hwd Hfree. cbv zeta.
  destruct (get_timestamp_completed E s st ts Hcmd Hts) as [Hself _].
  rewrite (initialize_state_run E s st ts state Hsp Hts Hget).
  assert (Hopen : OS.opened (fs st) (statepath s)
                  = Some (<[statepath s := File ""]> (fs st))).
  { apply opened_in_workdir; try done.
    change (fs st !! statepath s ≠ Some Dir). by rewrite Hfree. }
  rewrite Hopen. cbn [fst snd fs trace emit set_fs].
  split; [done|]. split; [apply lookup_insert_eq|]. split; [done|].
  unfold PlanetUpdaterOsmosis._initialize_state. msimpl.
  rewrite bind_run, path_exists_run. cbn [fs set_fs emit self].
  rewrite Hself.
  change (Py.path_join (osmosis_workdir (self s)) "state.txt")
    with (statepath s).
  by rewrite lookup_insert_eq.
Qed.

(** X20: when the sequence lookup fails, the state bootstrap raises [URLError]
    right after the query and writes nothing: with a converter that leaves
    the state path alone, the state file is still absent, so the next run
    resolves the timestamp and queries again. *)
Theorem initialize_state_lookup_failure (s st : State) (ts : string) :
  command_ (self s) = Subprocess →
  fs s !! statepath s = None →
  keeps E (statepath s) (timestamp_args s) →
  keeps E (statepath s) (statistics_args s) →
  PlanetBase.get_timestamp E s = (Ok ts, st) →
  http_get E (lookup_url ts) = None →
  PlanetUpdaterOsmosis._initialize_state E s
  = (Raise URLError, emit (UrlOpen (lookup_url ts)) st)
  ∧ fs (emit (UrlOpen (lookup_url ts)) st) !! statepath s = None.
Proof.
  intros Hcmd Hsp Hk1 Hk2 Hts Hget. split.
  - unfold PlanetUpdaterOsmosis._initialize_state.
    unfold statepath, lookup_url in *. msimpl.
    rewrite bind_run, path_exists_run, Hsp, bind_run, Hts.
    unfold OS.urlopen_read. rewrite !bind_run. msimpl. by rewrite Hget.
  - destruct (get_timestamp_completed E s st ts Hcmd Hts) as [_ Hres].
    cbn [fs emit].
    destruct Hres as [[_ ->]|[_ ->]]; by rewrite ?Hk2, Hk1.
Qed.

(** X21: on a workdir that holds both artifacts, [update_planet] goes straight
    to the changeset: it stores the URL in the instance, spawns the fetch
    and, if that exits with zero, the apply; it runs no initializer, resolves
    no timestamp, queries nothing and writes no file itself, so the
    configuration keeps its old URL whatever [grain] and [changeset_url]
    say. *)
Theorem update_planet_resumes (s : State) (outpath grain : string)
    (changeset_url : option string) :
  command_ (self s) = Subprocess →
  is_Some (fs s !! osmpath (self s)) →
  is_Some (fs s !! configpath s) →
  is_Some (fs s !! statepath s) →
  PlanetUpdaterOsmosis.update_planet E outpath grain changeset_url s
  = let s0 := with_url changeset_url grain s in
    match spawn_outcome E (fetch_args s) s0 with
    | (Ok _, s1) => spawn_outcome E (apply_args s outpath) s1
    | (Raise e, s1) => (Raise e, s1)
    end.
Proof.
  intros Hcmd [n Hn] [c Hc] [t Ht]. cbv zeta.
  unfold PlanetUpdaterOsmosis.update_planet. msimpl.
  rewrite bind_run, path_exists_run, Hn. cbn [negb].
  rewrite bind_run. msimpl. fold (effective_url changeset_url grain).
  fold (with_url changeset_url grain s).
  set (s0 := with_url changeset_url grain s).
  assert (Hi : PlanetUpdaterOsmosis._initialize E s0 = (Ok tt, s0)).
  { unfold PlanetUpdaterOsmosis._initialize. msimpl.
    rewrite bind_run, path_exists_run.
    change (fs s0 !! Py.path_join (osmosis_workdir (self s0))
                       "configuration.txt")
      with (fs s !! configpath s). by rewrite Hc. }
  assert (Hs : PlanetUpdaterOsmosis._initialize_state E s0 = (Ok tt, s0)).
  { unfold PlanetUpdaterOsmosis._initialize_state. msimpl.
    rewrite bind_run, path_exists_run.
    change (fs s0 !! Py.path_join (osmosis_workdir (self s0)) "state.txt")
      with (fs s !! statepath s). by rewrite Ht. }
  rewrite bind_run, Hi, bind_run, Hs, bind_run.
  unfold PlanetUpdaterOsmosis._get_changeset, PlanetBase.osmosis. msimpl.
  rewrite then_ret_run, command_spawn_run by done.
  unfold spawn_outcome, fetch_args, PlanetUpdaterOsmosis.fetch_args.
  change (osmosis_workdir (self s0)) with (osmosis_workdir (self s)).
  destruct (tool E _ (fs s0)) as [[o1|] fs1]; [|done]. cbn [fst snd].
  unfold PlanetUpdaterOsmosis._apply_changeset, PlanetBase.osmosis. msimpl.
  rewrite then_ret_run, command_spawn_run by done.
  unfold apply_args, PlanetUpdaterOsmosis.apply_args.
  cbn [fs emit set_fs fst snd].
  change (osmosis_workdir (self s0)) with (osmosis_workdir (self s)).
  change (osmpath (self s0)) with (osmpath (self s)).
  by destruct (tool E _ fs1) as [[o2|] fs2].
Qed.
End Resume.

Lemma initialize_state_leaves_empty_file_witness :
  let E := Sample.env Sample.run_direct [] in
  let s := Sample.state planet_minute fs_bootstrapped in
  let st := (PlanetBase.get_timestamp E s).2 in
  let r1 := PlanetUpdaterOsmosis._initialize_state E s in
  r1.1 = Raise TypeError
  ∧ fs r1.2 !! statepath s = Some (File "")
  ∧ trace r1.2 = trace st ++ [UrlOpen (lookup_url "2021-01-02T03:04:05Z")]
  ∧ PlanetUpdaterOsmosis._initialize_state E r1.2 = (Ok tt, r1.2).
Proof.
  intros E s st.
  apply (initialize_state_leaves_empty_file E s st "2021-01-02T03:04:05Z"
           "sequenceNumber=4242").
  - reflexivity.
  - reflexivity.
  - discriminate.
  - reflexivity.
  - vm_compute. reflexivity.
  - reflexivity.
  - reflexivity.
  - reflexivity.
Defined.

Lemma initialize_state_lookup_failure_witness :
  let s := Sample.state planet_minute fs_bootstrapped in
  let st := (PlanetBase.get_timestamp env_offline s).2 in
  PlanetUpdaterOsmosis._initialize_state env_offline s
  = (Raise URLError, emit (UrlOpen (lookup_url "2021-01-02T03:04:05Z")) st)
  ∧ fs (emit (UrlOpen (lookup_url "2021-01-02T03:04:05Z")) st) !! statepath s
    = None.
Proof.
  intros s st.
  apply (initialize_state_lookup_failure env_offline s st
           "2021-01-02T03:04:05Z").
  - reflexivity.
  - reflexivity.
  - intros f. reflexivity.
  - intros f. reflexivity.
  - vm_compute. reflexivity.
  - reflexivity.
Defined.

Lemma update_planet_resumes_witness :
  let E := Sample.env Sample.run_direct [] in
  let s := Sample.state Sample.planet fs_ready in
  PlanetUpdaterOsmosis.update_planet E "/data/new.osm.pbf" "hour" None s
  = let s0 := with_url None "hour" s in
    match spawn_outcome E (fetch_args s) s0 with
    | (Ok _, s1) => spawn_outcome E (apply_args s "/data/new.osm.pbf") s1
    | (Raise e, s1) => (Raise e, s1)
    end.
Proof.
  intros E s.
  apply (update_planet_resumes E s "/data/new.osm.pbf" "hour" None).
  - reflexivity.
  - by eexists.
  - by eexists.
  - by eexists.
Defined.

(** The resumed run of the sample: two invocations, no query, and the
    configuration of the earlier bootstrap untouched. *)
Example update_planet_resumes_trace :
  let run := PlanetUpdaterOsmosis.update_planet
               (Sample.env Sample.run_direct []) "/data/new.osm.pbf" "hour"
               None (Sample.state Sample.planet fs_ready) in
  run.1 = Ok tt
  ∧ trace run.2
    = [Spawn ["osmosis"; "--read-replication-interval";
              "workingDirectory=/data/planet.osm.pbf.workdir";
              "--simplify-change"; "--write-xml-change";
              "/data/planet.osm.pbf.workdir/changeset.osm.gz"];
       Spawn ["osmosis"; "--read-xml-change";
              "/data/planet.osm.pbf.workdir/changeset.osm.gz";
              "--read-pbf"; "/data/planet.osm.pbf"; "--apply-change";
              "--write-pbf"; "/data/new.osm.pbf"]]
  ∧ fs run.2 !! "/data/planet.osm.pbf.workdir/configuration.txt"
    = Some (File "baseUrl=x").
Proof. repeat split; vm_compute; reflexivity. Qed.

(** ** Extraction: the vectors that are spawned *)

Section ExtractionVectors.
Context {coord : Type} (E : Env coord).

(** X4: the tee variant on a region set that passes the validation spawns one
    invocation in all: the reader, the worker count, a [--tee] with the
    number of regions and seven arguments per region in iteration order.
    The empty region set still spawns it, with [--tee 0]. *)
Theorem tee_single_invocation (s : State)
    (bboxes : list (string * BBox coord)) (workers : Z) (outpath : string) :
  command_ (self s) = Subprocess →
  Forall (λ nb, validate_bbox E nb.2 = None) bboxes →
  PlanetExtractorOsmosis.extract_bboxes E bboxes workers outpath s
  = spawn_outcome E (tee_args E s bboxes workers outpath) s
  ∧ length (tee_args E s bboxes workers outpath)
    = (6 + 7 * length bboxes)%nat.
Proof.
  intros Hcmd Hvalid. split.
  - unfold PlanetExtractorOsmosis.extract_bboxes. msimpl.
    rewrite bind_run, tee_fold_valid by done.
    unfold PlanetBase.osmosis. rewrite then_ret_run, command_spawn_run by done.
    unfold spawn_outcome, tee_args. simpl app.
    by destruct (tool E _ (fs s)) as [[o|] fs1].
  - unfold tee_args. rewrite length_app. simpl. f_equal.
    clear. induction bboxes as [|nb bboxes IH]; [done|].
    simpl. rewrite IH. lia.
Qed.

(** X6: the sequential variant validates a region only when it reaches it: an
    invalid region raises its validation error after the regions before it
    have been extracted, and nothing after it is attempted. *)
Theorem sequential_invalid_region_stops_there (s s1 : State)
    (before after : list (string * BBox coord)) (nb : string * BBox coord)
    (workers : Z) (outpath : string) (e : exn) :
  command_ (self s) = Subprocess →
  PlanetExtractorOsmconvert.extract_bboxes E before workers outpath s
  = (Ok tt, s1) →
  validate_bbox E nb.2 = Some e →
  PlanetExtractorOsmconvert.extract_bboxes E (before ++ nb :: after)
    workers outpath s
  = (Raise e, s1)
  ∧ trace s1
    = trace s ++ map (λ nb, Spawn (sequential_args E s outpath nb)) before.
Proof.
  intros Hcmd Hbefore Hbad.
  destruct (sequential_completed E before workers outpath s s1 Hcmd Hbefore)
    as [Hself Htrace].
  split; [|done].
  unfold PlanetExtractorOsmconvert.extract_bboxes in *.
  rewrite for_each_app, Hbefore. simpl for_each.
  rewrite bind_run, sequential_extract_bbox_run by (by rewrite Hself).
  by rewrite Hbad.
Qed.

(** X5: with rectangles that pass the validation and a converter that exits
    with zero, the sequential variant completes and has spawned one
    invocation per region, in iteration order; for the empty region set
    it spawns nothing. *)
Theorem sequential_one_invocation_per_region (s : State)
    (bboxes : list (string * BBox coord)) (workers : Z) (outpath : string) :
  command_ (self s) = Subprocess →
  Forall (λ nb, validate_bbox E nb.2 = None) bboxes →
  (∀ args f, is_Some (tool E args f).1) →
  ∃ s1,
    PlanetExtractorOsmconvert.extract_bboxes E bboxes workers outpath s
    = (Ok tt, s1)
    ∧ trace s1
      = trace s ++ map (λ nb, Spawn (sequential_args E s outpath nb)) bboxes.
Proof.
  intros Hcmd Hvalid Hok.
  enough (∃ s1, PlanetExtractorOsmconvert.extract_bboxes E bboxes workers
                  outpath s = (Ok tt, s1)) as [s1 Hrun].
  { exists s1. split; [done|].
    by destruct (sequential_completed E bboxes workers outpath s s1 Hcmd Hrun). }
  unfold PlanetExtractorOsmconvert.extract_bboxes.
  revert s Hcmd. induction Hvalid as [|nb bboxes Hnb _ IH]; intros s Hcmd.
  - by eexists.
  - simpl for_each. rewrite bind_run, sequential_extract_bbox_run by done.
    rewrite Hnb. cbv zeta.
    destruct (Hok (sequential_args E s outpath nb) (fs s)) as [o Ho].
    destruct (tool E _ (fs s)) as [out fs1]. simpl in Ho. subst out.
    by apply IH.
Qed.
End ExtractionVectors.

Lemma tee_single_invocation_witness :
  let E := Sample.env Sample.run_direct [] in
  let s := Sample.state Sample.planet Sample.fs_snapshot in
  PlanetExtractorOsmosis.extract_bboxes E Sample.two_regions 4 "out" s
  = spawn_outcome E (tee_args E s Sample.two_regions 4 "out") s
  ∧ length (tee_args E s Sample.two_regions 4 "out") = (6 + 7 * 2)%nat.
Proof.
  intros E s.
  apply (tee_single_invocation E s Sample.two_regions 4 "out").
  - reflexivity.
  - repeat constructor.
Defined.

Lemma sequential_invalid_region_stops_there_witness :
  let E := Sample.env Sample.run_direct [] in
  let s := Sample.state Sample.planet Sample.fs_snapshot in
  let s1 := (PlanetExtractorOsmconvert.extract_bboxes E
               [("north", mkBBox 0 50 10 60)%Z] 1 "out" s).2 in
  PlanetExtractorOsmconvert.extract_bboxes E
    ([("north", mkBBox 0 50 10 60)%Z] ++ ("south", mkBBox 10 50 0 40)%Z :: [])
    1 "out" s
  = (Raise (Exception "invalid bbox"), s1)
  ∧ trace s1
    = trace s ++ map (λ nb, Spawn (sequential_args E s "out" nb))
                     [("north", mkBBox 0 50 10 60)%Z].
Proof.
  intros E s s1.
  apply (sequential_invalid_region_stops_there E s s1
           [("north", mkBBox 0 50 10 60)%Z] []
           ("south", mkBBox 10 50 0 40)%Z 1 "out" (Exception "invalid bbox")).
  - reflexivity.
  - vm_compute. reflexivity.
  - reflexivity.
Defined.

Lemma sequential_one_invocation_per_region_witness :
  let E := Sample.env Sample.run_direct [] in
  let s := Sample.state Sample.planet Sample.fs_snapshot in
  ∃ s1,
    PlanetExtractorOsmconvert.extract_bboxes E Sample.two_regions 1 "out" s
    = (Ok tt, s1)
    ∧ trace s1
      = trace s ++ map (λ nb, Spawn (sequential_args E s "out" nb))
                       Sample.two_regions.
Proof.
  intros E s.
  apply (sequential_one_invocation_per_region E s Sample.two_regions 1 "out").
  - reflexivity.
  - repeat constructor.
  - intros args f. simpl. unfold Sample.run_direct.
    case_bool_decide; by eexists.
Defined.

(** ** The osmium variant: manifest and geometry types *)

Section OsmiumManifest.
Context {coord : Type} (E : Env coord).

(** X7: a region whose geometry type is none of LineString, Polygon and
    MultiPolygon makes the osmium variant raise "unknown geometry type for
    extract" while it still builds the manifest: no temporary file is
    created and nothing is spawned or recorded. *)
Theorem osmium_unknown_geometry_rejected (s : State) (strategy : string)
    (bboxes : list (string * Feature coord)) (workers : Z) (outpath : string) :
  (∃ nb, nb ∈ bboxes ∧ known_geometry nb.2 = false) →
  PlanetExtractorOsmium.extract_bboxes_with E strategy bboxes workers outpath s
  = (Raise (Exception "unknown geometry type for extract"), s).
Proof.
  intros Hbad. unfold PlanetExtractorOsmium.extract_bboxes_with.
  by rewrite bind_run, manifest_loop_unknown.
Qed.

(** X8: the manifest the osmium variant writes has one entry per region, in
    iteration order, each with the region's output name, the pbf format
    and, under the key of its type, the region's geometry: the rectangle of
    a line (left, right, top, bottom), the coordinates of a polygon or a
    multipolygon (the empty list when the feature has none); it is what the
    temporary file holds when the tool is spawned (seen here after a
    failing tool that leaves the file alone). *)
Theorem osmium_manifest_entries (s : State) (strategy : string)
    (bboxes : list (string * Feature coord)) (workers : Z) (outpath : string) :
  let path := tmpname E (fs s) in
  command_ (self s) = Subprocess →
  Forall (λ nb, known_geometry nb.2 = true) bboxes →
  (∀ f, (tool E (osmium_args s strategy path) f).1 = None) →
  (∀ f, (tool E (osmium_args s strategy path) f).2 !! path = f !! path) →
  fs (PlanetExtractorOsmium.extract_bboxes_with E strategy bboxes workers
        outpath s).2 !! path
  = Some (File (json_dumps E (manifest outpath (map manifest_entry bboxes)))).
Proof.
  intros path Hcmd Hknown Hfail Hkeep.
  unfold PlanetExtractorOsmium.extract_bboxes_with.
  rewrite bind_run, (manifest_loop_entries bboxes [] s Hknown).
  unfold OS.named_temporary_file, OS.write_close.
  msimpl. fold path. simpl app.
  set (fs1 := <[path := File _]> (<[path := File ""]> (fs s))).
  rewrite bind_run.
  pose proof (Hfail fs1) as Hnone. pose proof (Hkeep fs1) as Hsame.
  unfold osmium_args in *.
  destruct (tool E _ fs1) as [out fs2] eqn:Ht. simpl in Hnone, Hsame.
  subst out. erewrite command_fail; [|done|exact Ht].
  simpl. rewrite Hsame. unfold fs1. by rewrite lookup_insert_eq.
Qed.
End OsmiumManifest.

Lemma osmium_unknown_geometry_rejected_witness :
  let s := Sample.state Sample.planet Sample.fs_snapshot in
  PlanetExtractorOsmium.extract_bboxes_with (Sample.env Sample.run_direct [])
    "complete_ways" [("track", line_feature); ("peak", point_feature)] 1
    "out" s
  = (Raise (Exception "unknown geometry type for extract"), s).
Proof.
  intros s.
  apply (osmium_unknown_geometry_rejected (Sample.env Sample.run_direct [])).
  exists ("peak", point_feature). split; [|reflexivity].
  right. left.
Defined.

Lemma osmium_manifest_entries_witness :
  let E := Sample.env Sample.run_failing [] in
  let s := Sample.state Sample.planet Sample.fs_snapshot in
  fs (PlanetExtractorOsmium.extract_bboxes_with E "complete_ways"
        [("track", line_feature)] 1 "out" s).2 !! "/tmp/tmpmanifest"
  = Some (File (json_dumps E
       (manifest "out"
          [JObj [("output", JStr "track.osm.pbf");
                 ("output_format", JStr "pbf");
                 ("bbox", JObj [("left", JNum 0); ("right", JNum 10);
                                ("top", JNum 60); ("bottom", JNum 50)])]%Z]))).
Proof.
  intros E s.
  apply (osmium_manifest_entries E s "complete_ways"
           [("track", line_feature)] 1 "out").
  - reflexivity.
  - repeat constructor.
  - intros f. reflexivity.
  - intros f. reflexivity.
Defined.

(** ** Repeated [extract_commands] *)

Lemma installed_fresh_list {R}
    (extract_bboxes : list (string * R) → Z → string → M unit) :
  records_only extract_bboxes → fresh_list_per_call extract_bboxes.
Proof.
  intros Hrec s b1 w1 o1 b2 w2 o2. cbv zeta.
  pose proof (records_only_installs extract_bboxes Hrec) as Hinst.
  destruct (Hinst s b1 w1 o1) as (Ht1 & _ & _ & [vs1 Hh1] & _).
  destruct (Hinst (PlanetExtractor.extract_commands extract_bboxes b1 w1 o1 s).2
              b2 w2 o2) as (Ht2 & Hc2 & Hr2 & [vs2 Hh2] & _).
  rewrite Hh1, length_app, Nat.add_1_r in Hc2, Hr2.
  split; [done|]. split; [done|]. split; [by rewrite Ht2|].
  exists vs1, vs2. split; [done|]. by rewrite Hh2, Hh1, <- app_assoc.
Qed.

(** X10: each call of [extract_commands] records into a new list object: after
    two calls in a row the instance's closure is the one over the second
    list, the second call returns that list, and the list the first call
    returned is left as that call filled it. This holds for the three
    extractor variants. *)
Theorem extract_commands_fresh_list_per_call {coord : Type} (E : Env coord)
    (strategy : string) :
  fresh_list_per_call (PlanetExtractorOsmosis.extract_bboxes E)
  ∧ fresh_list_per_call (PlanetExtractorOsmconvert.extract_bboxes E)
  ∧ fresh_list_per_call (PlanetExtractorOsmium.extract_bboxes_with E strategy).
Proof.
  split; [|split]; apply installed_fresh_list.
  - apply tee_records_only.
  - apply sequential_records_only.
  - apply osmium_records_only.
Qed.

(** Two calls on the sample: the lists stay apart. *)
Example extract_commands_twice :
  let E := Sample.env Sample.run_failing [] in
  let run1 := PlanetExtractor.extract_commands
                (PlanetExtractorOsmconvert.extract_bboxes E)
                [("north", mkBBox 0 50 10 60)%Z] 1 "out"
                (Sample.state Sample.planet Sample.fs_snapshot) in
  let run2 := PlanetExtractor.extract_commands
                (PlanetExtractorOsmconvert.extract_bboxes E)
                [("south", mkBBox 0 40 10 50)%Z] 1 "out" run1.2 in
  run1.1 = Ok 0%nat ∧ run2.1 = Ok 1%nat
  ∧ heap run2.2
    = [[["osmconvert"; "/data/planet.osm.pbf"; "-b=0,50,10,60";
         "-o=out/north.osm.pbf"]];
       [["osmconvert"; "/data/planet.osm.pbf"; "-b=0,40,10,50";
         "-o=out/south.osm.pbf"]]].
Proof. repeat split; vm_compute; reflexivity. Qed.

Lemma extract_commands_fresh_list_per_call_witness :
  let E := Sample.env Sample.run_failing [] in
  let run1 := PlanetExtractor.extract_commands
                (PlanetExtractorOsmosis.extract_bboxes E)
                Sample.two_regions 1 "out"
                (Sample.state Sample.planet Sample.fs_snapshot) in
  let run2 := PlanetExtractor.extract_commands
                (PlanetExtractorOsmosis.extract_bboxes E)
                Sample.one_bad_region 1 "out" run1.2 in
  command_ (self run2.2) = Recorder 1 ∧ trace run2.2 = [].
Proof.
  destruct (proj1 (extract_commands_fresh_list_per_call
                     (Sample.env Sample.run_failing []) "complete_ways")
              (Sample.state Sample.planet Sample.fs_snapshot)
              Sample.two_regions 1%Z "out" Sample.one_bad_region 1%Z "out")
    as (Hcmd & _ & Htrace & _).
  split; [exact Hcmd|exact Htrace].
Defined.

(** ** The workdir beside the snapshot *)

(** X1: [__init__] puts the workdir beside the snapshot: for a bare file name
    and for a directory, a slash and a file name, the derived workdir is
    the snapshot path with ".workdir" appended.  A non-empty override is
    taken as it is; an empty one counts as none. *)
Theorem init_workdir_beside_snapshot (d p w : string) :
  Py.contains "/" p = false →
  osmosis_workdir (PlanetBase.init p None) = p +:+ ".workdir"
  ∧ (d ≠ "" → Py.ends_with_slash d = false →
     osmosis_workdir (PlanetBase.init (d +:+ "/" +:+ p) None)
     = (d +:+ "/" +:+ p) +:+ ".workdir")
  ∧ (w ≠ "" → osmosis_workdir (PlanetBase.init p (Some w)) = w)
  ∧ PlanetBase.init p (Some "") = PlanetBase.init p None.
Proof.
  intros Hp. split; [|split; [|split]].
  - unfold PlanetBase.init, Py.path_split.
    rewrite (rsplit_slash_none p Hp). simpl.
    unfold Py.path_join. by rewrite relative_name.
  - intros Hd Hend. unfold PlanetBase.init, Py.path_split.
    change ("/" +:+ p) with (String "/" p).
    rewrite (rsplit_slash_last d p Hp).
    destruct (head_not_all_slashes d Hd Hend) as [-> ->]. simpl.
    unfold Py.path_join. rewrite relative_name by done.
    rewrite Hend. destruct d as [|c d]; [done|]. simpl.
    by rewrite !string_app_assoc.
  - intros Hw. unfold PlanetBase.init.
    destruct (Py.path_split p) as [d' p']. simpl. by destruct w.
  - unfold PlanetBase.init. by destruct (Py.path_split p).
Qed.

Lemma init_workdir_beside_snapshot_witness :
  osmosis_workdir (PlanetBase.init "planet.osm.pbf" None)
  = "planet.osm.pbf" +:+ ".workdir"
  ∧ osmosis_workdir (PlanetBase.init ("/data" +:+ "/" +:+ "planet.osm.pbf") None)
    = ("/data" +:+ "/" +:+ "planet.osm.pbf") +:+ ".workdir"
  ∧ osmosis_workdir (PlanetBase.init "planet.osm.pbf" (Some "/var/replication"))
    = "/var/replication".
Proof.
  destruct (init_workdir_beside_snapshot "/data" "planet.osm.pbf"
              "/var/replication" eq_refl) as (Hbare & Hdir & Hgiven & _).
  split; [exact Hbare|]. split.
  - apply Hdir; [discriminate|reflexivity].
  - apply Hgiven. discriminate.
Defined.

(** A doubled slash before the file name is not kept in the derived
    workdir. *)
Example init_workdir_doubled_slash :
  osmosis_workdir (PlanetBase.init "/data//planet.osm.pbf" None)
  = "/data/planet.osm.pbf.workdir".
Proof. reflexivity. Qed.

(** ** The configuration body for any URL *)

Lemma single_line_cons (c : ascii) (a : string) :
  single_line (String c a) → Ascii.eqb c "010" = false ∧ single_line a.
Proof.
  unfold single_line. simpl. intros H.
  apply orb_false_iff in H as [Hhd Htl]. split; [|done].
  destruct (Ascii.eqb c "010") eqn:Hc; [|done].
  apply Ascii.eqb_eq in Hc as ->. simpl in Hhd. by destruct a.
Qed.

Lemma contains_char_cons (sep c : ascii) (x : string) :
  Py.contains (String sep "") (String c x)
  = Ascii.eqb sep c || Py.contains (String sep "") x.
Proof.
  change (Py.contains (String sep "") (String c x))
    with ((if ascii_dec sep c then String.prefix "" x else false)
          || Py.contains (String sep "") x).
  destruct (ascii_dec sep c) as [<-|Hne].
  - rewrite Ascii.eqb_refl. by destruct x.
  - by apply Ascii.eqb_neq in Hne as ->.
Qed.

Lemma single_line_app (a b : string) :
  single_line a → single_line b → single_line (a +:+ b).
Proof.
  intros Ha Hb. induction a as [|c a IH]; [done|].
  apply single_line_cons in Ha as [Hc Ha]. rewrite string_app_cons.
  unfold single_line in *. rewrite contains_char_cons, (IH Ha), orb_false_r.
  rewrite Ascii.eqb_sym. exact Hc.
Qed.

Lemma split_single_line (a : string) :
  single_line a → Py.split "010" a = [a].
Proof.
  induction a as [|c a IH]; [done|]. intros Ha.
  apply single_line_cons in Ha as [Hc Ha]. simpl.
  by rewrite Hc, (IH Ha).
Qed.

Lemma split_first_line (a b : string) :
  single_line a →
  Py.split "010" (a +:+ String "010" b) = a :: Py.split "010" b.
Proof.
  intros Ha. induction a as [|c a IH].
  - change ("" +:+ String "010" b) with (String "010" b). by simpl.
  - apply single_line_cons in Ha as [Hc Ha]. rewrite string_app_cons.
    simpl. by rewrite Hc, (IH Ha).
Qed.

Lemma rstrip_cons_nonspace (c : ascii) (x : string) :
  Py.is_space c = false → Py.rstrip (String c x) = String c (Py.rstrip x).
Proof. intros Hc. simpl. destruct (Py.rstrip x); [by rewrite Hc|done]. Qed.

Lemma configuration_body_lines (url : string) :
  single_line url → Py.rstrip url = url →
  stripped_lines (PlanetUpdaterOsmosis.configuration_body url)
  = ["baseUrl=" +:+ url; "maxInterval=0"].
Proof.
  intros Hline Hstrip.
  unfold stripped_lines, PlanetUpdaterOsmosis.configuration_body,
    PlanetUpdaterOsmosis.newline.
  change (String "010" "" +:+ "                baseUrl=" +:+ url +:+
          String "010" "" +:+ "                maxInterval=0" +:+
          String "010" "" +:+ "            ")
    with ("" +:+ String "010"
            ("                baseUrl=" +:+ url +:+
             String "010" ("                maxInterval=0" +:+
                           String "010" "            "))).
  rewrite (split_first_line "") by done.
  rewrite <- string_app_assoc.
  rewrite split_first_line by (by apply single_line_app).
  rewrite (split_first_line "                maxInterval=0") by done.
  rewrite (split_single_line "            ") by done.
  cbn [map].
  assert (Hbase : Py.strip ("                baseUrl=" +:+ url)
                  = "baseUrl=" +:+ url).
  { unfold Py.strip.
    change (Py.lstrip ("                baseUrl=" +:+ url))
      with (String "b" (String "a" (String "s" (String "e" (String "U"
              (String "r" (String "l" (String "=" url)))))))).
    rewrite !rstrip_cons_nonspace by done. by rewrite Hstrip. }
  rewrite Hbase.
  change (Py.strip "") with "".
  change (Py.strip "                maxInterval=0") with "maxInterval=0".
  change (Py.strip "            ") with "".
  rewrite filter_cons_False by (intros H; by apply H).
  rewrite filter_cons_True by done.
  rewrite filter_cons_True by done.
  by rewrite filter_cons_False by (intros H; by apply H).
Qed.

Section Configuration.
Context {coord : Type} (E : Env coord).

(** X18: a completed bootstrap of a workdir without configuration leaves a
    configuration file whose non-blank lines, stripped, are
    [baseUrl=<url>] and [maxInterval=0], for the URL stored in the
    instance, whenever that URL has no line feed and no trailing white
    space. *)
Theorem initialize_writes_configuration (s s1 : State) (url : string) :
  command_ (self s) = Subprocess →
  fs s !! configpath s = None →
  changeset_url (self s) = Some url →
  single_line url → Py.rstrip url = url →
  PlanetUpdaterOsmosis._initialize E s = (Ok tt, s1) →
  ∃ body,
    fs s1 !! configpath s = Some (File body)
    ∧ stripped_lines body = ["baseUrl=" +:+ url; "maxInterval=0"].
Proof.
  intros Hcmd Hcfg Hurl Hline Hstrip Hrun.
  destruct (initialize_completed E s s1 Hcmd Hcfg Hrun)
    as (url' & fs1 & Hurl' & _ & _ & _ & Hfs).
  rewrite Hurl in Hurl'. injection Hurl' as <-.
  eexists. split; [rewrite Hfs; apply lookup_insert_eq|].
  by apply configuration_body_lines.
Qed.

(** X9: the success path of the osmium variant: when the tool exits with zero
    and leaves the manifest in place, [extract_bboxes] returns and the
    temporary manifest is gone. *)
Theorem osmium_manifest_removed_after_success (s : State) (strategy : string)
    (bboxes : list (string * Feature coord)) (workers : Z) (outpath : string) :
  let path := tmpname E (fs s) in
  command_ (self s) = Subprocess →
  Forall (λ nb, known_geometry nb.2 = true) bboxes →
  (∀ f, is_Some (tool E (osmium_args s strategy path) f).1) →
  (∀ f, (tool E (osmium_args s strategy path) f).2 !! path = f !! path) →
  ∃ s',
    PlanetExtractorOsmium.extract_bboxes_with E strategy bboxes workers
      outpath s
    = (Ok tt, s')
    ∧ fs s' !! path = None
    ∧ trace s' = trace s ++ [Spawn (osmium_args s strategy path)].
Proof.
  intros path Hcmd Hknown Hok Hkeep.
  unfold PlanetExtractorOsmium.extract_bboxes_with.
  destruct (manifest_loop_known bboxes [] s Hknown) as (extracts & Hloop & _).
  rewrite bind_run, Hloop. unfold OS.named_temporary_file, OS.write_close.
  msimpl. fold path.
  set (fs1 := <[path := File _]> (<[path := File ""]> (fs s))).
  rewrite bind_run.
  pose proof (Hok fs1) as [o Ho]. pose proof (Hkeep fs1) as Hsame.
  unfold osmium_args in *.
  destruct (tool E _ fs1) as [out fs2] eqn:Ht. simpl in Ho, Hsame.
  subst out. erewrite command_ok; [|done|exact Ht].
  unfold OS.unlink. msimpl. rewrite Hsame. unfold fs1.
  rewrite lookup_insert_eq. msimpl.
  eexists. split; [done|]. simpl. by rewrite lookup_delete_eq.
Qed.

(** X13: the object-store download is not repeatable: once it has written the
    target, a second call raises "planet file exists" without listing the
    bucket again. *)
Theorem s3_download_then_refuses (s : State) (bucket prefix : option string)
    (match_ : option regex) (listing : list S3Object) :
  fs s !! osmpath (self s) = None →
  boto3 E = true →
  s3_list E (py_or bucket "osm-pds") (py_or prefix "") = Some listing →
  matching match_ listing ≠ [] →
  (∀ b k, is_Some (s3_get E b k)) →
  let r1 := PlanetDownloaderS3.download_planet_latest E bucket prefix match_ s in
  r1.1 = Ok tt
  ∧ is_Some (fs r1.2 !! osmpath (self s))
  ∧ PlanetDownloaderS3.download_planet_latest E bucket prefix match_ r1.2
    = (Raise (Exception ("planet file exists: " +:+ osmpath (self s))), r1.2).
Proof.
  intros Habsent Hboto Hlist Hne Hget. cbv zeta.
  destruct (sorted_by_nonempty key _ Hne) as [planet Hlast].
  assert (Hrun : ∃ body,
            PlanetDownloaderS3.download_planet_latest E bucket prefix match_ s
            = (Ok tt,
               set_fs (<[osmpath (self s) := File body]> (fs s))
                 (emit (S3Download (bucket_name planet) (key planet)
                          (osmpath (self s)))
                    (emit (S3List (py_or bucket "osm-pds") (py_or prefix ""))
                       s)))).
  { destruct (Hget (bucket_name planet) (key planet)) as [body Hbody].
    exists body.
    unfold PlanetDownloaderS3.download_planet_latest. msimpl.
    rewrite bind_run, path_exists_run, Habsent.
    unfold PlanetDownloaderS3._get_planets. rewrite Hboto. cbn [negb].
    rewrite !bind_run. msimpl. rewrite Hlist. msimpl.
    fold (matching match_ listing). rewrite Hlast.
    unfold PlanetDownloaderS3._download. rewrite Hboto. cbn [negb].
    msimpl. rewrite ?bind_run. msimpl. rewrite Hbody.
    unfold OS.write_close. by msimpl. }
  destruct Hrun as [body ->]. cbn [fst snd].
  split; [done|]. split; [simpl; rewrite lookup_insert_eq; by eexists|].
  unfold PlanetDownloaderS3.download_planet_latest. msimpl.
  rewrite bind_run, path_exists_run. cbn [fs set_fs emit].
  by rewrite lookup_insert_eq.
Qed.
End Configuration.

Lemma initialize_writes_configuration_witness :
  let E := Sample.env Sample.run_direct [] in
  let s := Sample.state planet_minute Sample.fs_snapshot in
  let s1 := (PlanetUpdaterOsmosis._initialize E s).2 in
  ∃ body,
    fs s1 !! configpath s = Some (File body)
    ∧ stripped_lines body
      = ["baseUrl=" +:+ "https://planet.openstreetmap.org/replication/minute";
         "maxInterval=0"].
Proof.
  intros E s s1.
  apply (initialize_writes_configuration E s s1
           "https://planet.openstreetmap.org/replication/minute").
  - reflexivity.
  - reflexivity.
  - reflexivity.
  - reflexivity.
  - reflexivity.
  - vm_compute. reflexivity.
Defined.

Lemma osmium_manifest_removed_after_success_witness :
  let E := Sample.env Sample.run_direct [] in
  let s := Sample.state Sample.planet Sample.fs_snapshot in
  ∃ s',
    PlanetExtractorOsmium.extract_bboxes_with E "complete_ways"
      [("track", line_feature)] 1 "out" s
    = (Ok tt, s')
    ∧ fs s' !! "/tmp/tmpmanifest" = None
    ∧ trace s' = trace s ++ [Spawn (osmium_args s "complete_ways"
                                      "/tmp/tmpmanifest")].
Proof.
  intros E s.
  apply (osmium_manifest_removed_after_success E s "complete_ways"
           [("track", line_feature)] 1 "out").
  - reflexivity.
  - repeat constructor.
  - intros f. by eexists.
  - intros f. reflexivity.
Defined.

Lemma s3_download_then_refuses_witness :
  let E := Sample.env Sample.run_direct planet_keys in
  let s := Sample.state Sample.planet ∅ in
  let r1 := PlanetDownloaderS3.download_planet_latest E None None None s in
  r1.1 = Ok tt
  ∧ is_Some (fs r1.2 !! osmpath (self s))
  ∧ PlanetDownloaderS3.download_planet_latest E None None None r1.2
    = (Raise (Exception ("planet file exists: " +:+ osmpath (self s))), r1.2).
Proof.
  intros E s.
  apply (s3_download_then_refuses E s None None None planet_keys).
  - reflexivity.
  - reflexivity.
  - reflexivity.
  - vm_compute. discriminate.
  - intros b k. by eexists.
Defined.
